(** * The Metro emulator data manager (metroEmuUI/dataMgr.py)

    A shallow embedding of the UDP data hub of the Metro emulator: the
    message codec [parseIncomeMsg], the [DataManager] thread object with its
    four per-line snapshot tables, the sensor priority resolver, the
    power-link interlock (push path in [msgHandler], poll path in
    [PowerLinkWatcher]) and the metro totals aggregate.

    Conventions of the embedding.
    - A Python value is a [pyval]; a Python [float] is an IEEE 754 binary64
      number ([spec_float] with precision 53 and maximal exponent 1024).
    - A Python [str] is a [string], one [ascii] per character (characters
      above U+00FF are outside the model); a [bytes] object is a [string]
      too, one [ascii] per byte.
    - A Python [dict] is an association list in insertion order.
    - A raised exception is [None] in an [option] result; state changed
      before the exception was raised stays changed.
    - The functions of the Python library that the module calls and that
      are not re-implemented here ([bytes.decode], [json.loads], [float] of
      a [str]) are section variables.
    - JSON text produced by [json.dumps] is kept as the value it
      serialises, and a clock string produced by [time.strftime] as the
      time stamp it formats.
    - [time.time()] is an argument ([now]) of every function that reads the
      clock.  Logging calls are not modelled. *)

From Stdlib Require Import ZArith String Ascii Bool Lia.
From Stdlib Require Import Floats.SpecFloat.
From stdpp Require Import base list option.

Set Warnings "-register-all".
Local Open Scope string_scope.

(** ** Python values *)

Definition float := spec_float.

Definition prec : Z := 53.
Definition emax : Z := 1024.

Definition fadd : float -> float -> float := SFadd prec emax.
Definition fsub : float -> float -> float := SFsub prec emax.
Definition fmul : float -> float -> float := SFmul prec emax.
Definition fdiv : float -> float -> float := SFdiv prec emax.
Definition fltb : float -> float -> bool := SFltb.
Definition feqb : float -> float -> bool := SFeqb.

Definition fzero : float := S754_zero false.

(** The float nearest to an integer (round to nearest, ties to even). *)
Definition float_of_Z (z : Z) : float := binary_normalize prec emax z 0 false.

(** [float(z)] for a Python [int]: [OverflowError] when [z] is too large. *)
Definition float_of_int (z : Z) : option float :=
  match float_of_Z z with
  | S754_infinity _ => None
  | f => Some f
  end.

(** [int(f)]: truncation towards zero; raises on infinities and NaN. *)
Definition int_of_float (f : float) : option Z :=
  match f with
  | S754_zero _ => Some 0%Z
  | S754_finite s m e =>
      let a := Z.shiftl (Z.pos m) e in
      Some (if s then Z.opp a else a)
  | S754_infinity _ => None
  | S754_nan => None
  end.

Inductive pyval : Type :=
| VNone
| VBool (b : bool)
| VInt (z : Z)
| VFloat (f : float)
| VStr (s : string)
| VList (l : list pyval)
| VDict (d : list (string * pyval)).

(** Truth value of a Python object, as tested by [if], [and], [or], [bool]. *)
Definition truthy (v : pyval) : bool :=
  match v with
  | VNone => false
  | VBool b => b
  | VInt z => negb (z =? 0)%Z
  | VFloat f => negb (feqb f fzero)
  | VStr s => negb (s =? "")
  | VList l => match l with [] => false | _ :: _ => true end
  | VDict d => match d with [] => false | _ :: _ => true end
  end.

(** [a or b] and [a and b] return one of their operands. *)
Definition py_or (a b : pyval) : pyval := if truthy a then a else b.
Definition py_and (a b : pyval) : pyval := if truthy a then b else a.

(** ** Dictionaries *)

Definition dict (V : Type) : Type := list (string * V).

Fixpoint dict_get {V} (k : string) (d : dict V) : option V :=
  match d with
  | [] => None
  | (k', v) :: d' => if k =? k' then Some v else dict_get k d'
  end.

(** [d[k] = v]: an existing key keeps its place, a new key is appended. *)
Fixpoint dict_set {V} (k : string) (v : V) (d : dict V) : dict V :=
  match d with
  | [] => [(k, v)]
  | (k', v') :: d' =>
      if k =? k' then (k', v) :: d' else (k', v') :: dict_set k v d'
  end.

Definition dict_keys {V} (d : dict V) : list string := map fst d.

Definition dict_has {V} (k : string) (d : dict V) : bool :=
  match dict_get k d with Some _ => true | None => false end.

(** ** Strings: [str.split(sep, maxsplit)] and [str.strip()] *)

(** The text before the first [sep] and the text after it. *)
Fixpoint cut (sep : ascii) (s : string) : option (string * string) :=
  match s with
  | EmptyString => None
  | String c s' =>
      if Ascii.eqb c sep then Some (EmptyString, s')
      else match cut sep s' with
           | Some (a, b) => Some (String c a, b)
           | None => None
           end
  end.

Fixpoint str_split (sep : ascii) (maxsplit : nat) (s : string) : list string :=
  match maxsplit with
  | O => [s]
  | S n =>
      match cut sep s with
      | Some (a, b) => a :: str_split sep n b
      | None => [s]
      end
  end.

(** [str.isspace] on one character below U+0100. *)
Definition isspace (c : ascii) : bool :=
  let n := nat_of_ascii c in
  (((9 <=? n) && (n <=? 13)) || ((28 <=? n) && (n <=? 32))
   || (n =? 133) || (n =? 160))%nat.

Fixpoint lstrip (s : string) : string :=
  match s with
  | EmptyString => EmptyString
  | String c s' => if isspace c then lstrip s' else s
  end.

Fixpoint rstrip (s : string) : string :=
  match s with
  | EmptyString => EmptyString
  | String c s' =>
      match rstrip s' with
      | EmptyString => if isspace c then EmptyString else String c EmptyString
      | r => String c r
      end
  end.

Definition strip (s : string) : string := rstrip (lstrip s).

(** Number of occurrences of a character. *)
Fixpoint count_char (sep : ascii) (s : string) : nat :=
  match s with
  | EmptyString => O
  | String c s' => (if Ascii.eqb c sep then 1 else 0) + count_char sep s'
  end.

(** ** The simulation engine ([gv.iMapMgr]) *)

(** Modelled from the spec: a train agent of the map manager, which is not
    part of this module.  [setEmgStop] records the flag it receives, and
    raises without recording it when the train cannot be reached;
    [getPowerState] returns an integer; [getTrainRealInfo] returns a
    dictionary (or [None]). *)
Record Train : Type := mkTrain {
  reachable : bool;
  emgStopCalls : list bool;
  powerState : Z;
  realInfo : pyval;
}.

Definition setEmgStop (flag : bool) (t : Train) : option Train :=
  if reachable t
  then Some (mkTrain (reachable t) (emgStopCalls t ++ [flag])
                     (powerState t) (realInfo t))
  else None.

(** Modelled from the spec: the map manager, which is not part of this
    module.  [getSensors(trackID).getSensorsState()] is a lookup in
    [sensorStates] (an unknown track has no sensor agent, so that the call
    raises); the dock states of [getStations(trackID)] are a lookup in
    [dockStates] (an unknown track raises); [getTrains(trackID)] is a lookup
    in [trains] (Python [None] for an unknown track); each setter appends
    its arguments to a call log.  [getSensorsState] hands out a list of its
    own for every line: writing to the cc-line snapshot changes neither the
    engine nor the snapshot of another line. *)
Record MapMgr : Type := mkMapMgr {
  sensorStates : dict (list pyval);
  dockStates : dict (list bool);
  trains : dict (list Train);
  signalCalls : list (string * pyval);
  stationSignalCalls : list (string * pyval);
  trainsPowerCalls : list (string * pyval);
}.

Definition set_trains (ts : dict (list Train)) (m : MapMgr) : MapMgr :=
  mkMapMgr (sensorStates m) (dockStates m) ts
           (signalCalls m) (stationSignalCalls m) (trainsPowerCalls m).

Definition setSingals (key : string) (val : pyval) (m : MapMgr) : MapMgr :=
  mkMapMgr (sensorStates m) (dockStates m) (trains m)
           (signalCalls m ++ [(key, val)])
           (stationSignalCalls m) (trainsPowerCalls m).

Definition setStationSignal (key : string) (val : pyval) (m : MapMgr) : MapMgr :=
  mkMapMgr (sensorStates m) (dockStates m) (trains m) (signalCalls m)
           (stationSignalCalls m ++ [(key, val)]) (trainsPowerCalls m).

Definition setTainsPower (key : string) (val : pyval) (m : MapMgr) : MapMgr :=
  mkMapMgr (sensorStates m) (dockStates m) (trains m) (signalCalls m)
           (stationSignalCalls m) (trainsPowerCalls m ++ [(key, val)]).

(** ** The state: the fields of [DataManager] and the globals of [gv] *)

(** A snapshot table maps a line to [None] or to a list. *)
Definition snapshot : Type := option (list pyval).

Definition snap_val (s : snapshot) : pyval :=
  match s with
  | None => VNone
  | Some l => VList l
  end.

Record World : Type := mkWorld {
  sensorsDict : dict snapshot;
  sensorPlcUpdateT : float;
  stationsDict : dict snapshot;
  stationPlcUpdateT : float;
  trainsDict : dict snapshot;
  trainPlcUpdateT : float;
  trainsRtuDict : dict snapshot;
  trainRtuUpdateT : float;
  _last_powerlink_railway : option bool;
  iMapMgr : option MapMgr;
  gJuncAvoid : bool;
  gTestMD : bool;
  gPlcTimeout : float;
}.

Definition set_sensorsDict (d : dict snapshot) (w : World) : World :=
  mkWorld d (sensorPlcUpdateT w) (stationsDict w) (stationPlcUpdateT w)
          (trainsDict w) (trainPlcUpdateT w) (trainsRtuDict w)
          (trainRtuUpdateT w) (_last_powerlink_railway w) (iMapMgr w)
          (gJuncAvoid w) (gTestMD w) (gPlcTimeout w).

Definition set_sensorPlcUpdateT (t : float) (w : World) : World :=
  mkWorld (sensorsDict w) t (stationsDict w) (stationPlcUpdateT w)
          (trainsDict w) (trainPlcUpdateT w) (trainsRtuDict w)
          (trainRtuUpdateT w) (_last_powerlink_railway w) (iMapMgr w)
          (gJuncAvoid w) (gTestMD w) (gPlcTimeout w).

Definition set_stationsDict (d : dict snapshot) (w : World) : World :=
  mkWorld (sensorsDict w) (sensorPlcUpdateT w) d (stationPlcUpdateT w)
          (trainsDict w) (trainPlcUpdateT w) (trainsRtuDict w)
          (trainRtuUpdateT w) (_last_powerlink_railway w) (iMapMgr w)
          (gJuncAvoid w) (gTestMD w) (gPlcTimeout w).

Definition set_stationPlcUpdateT (t : float) (w : World) : World :=
  mkWorld (sensorsDict w) (sensorPlcUpdateT w) (stationsDict w) t
          (trainsDict w) (trainPlcUpdateT w) (trainsRtuDict w)
          (trainRtuUpdateT w) (_last_powerlink_railway w) (iMapMgr w)
          (gJuncAvoid w) (gTestMD w) (gPlcTimeout w).

Definition set_trainsDict (d : dict snapshot) (w : World) : World :=
  mkWorld (sensorsDict w) (sensorPlcUpdateT w) (stationsDict w)
          (stationPlcUpdateT w) d (trainPlcUpdateT w) (trainsRtuDict w)
          (trainRtuUpdateT w) (_last_powerlink_railway w) (iMapMgr w)
          (gJuncAvoid w) (gTestMD w) (gPlcTimeout w).

Definition set_trainPlcUpdateT (t : float) (w : World) : World :=
  mkWorld (sensorsDict w) (sensorPlcUpdateT w) (stationsDict w)
          (stationPlcUpdateT w) (trainsDict w) t (trainsRtuDict w)
          (trainRtuUpdateT w) (_last_powerlink_railway w) (iMapMgr w)
          (gJuncAvoid w) (gTestMD w) (gPlcTimeout w).

Definition set_trainsRtuDict (d : dict snapshot) (w : World) : World :=
  mkWorld (sensorsDict w) (sensorPlcUpdateT w) (stationsDict w)
          (stationPlcUpdateT w) (trainsDict w) (trainPlcUpdateT w) d
          (trainRtuUpdateT w) (_last_powerlink_railway w) (iMapMgr w)
          (gJuncAvoid w) (gTestMD w) (gPlcTimeout w).

Definition set_trainRtuUpdateT (t : float) (w : World) : World :=
  mkWorld (sensorsDict w) (sensorPlcUpdateT w) (stationsDict w)
          (stationPlcUpdateT w) (trainsDict w) (trainPlcUpdateT w)
          (trainsRtuDict w) t (_last_powerlink_railway w) (iMapMgr w)
          (gJuncAvoid w) (gTestMD w) (gPlcTimeout w).

Definition set_last_powerlink (b : option bool) (w : World) : World :=
  mkWorld (sensorsDict w) (sensorPlcUpdateT w) (stationsDict w)
          (stationPlcUpdateT w) (trainsDict w) (trainPlcUpdateT w)
          (trainsRtuDict w) (trainRtuUpdateT w) b (iMapMgr w)
          (gJuncAvoid w) (gTestMD w) (gPlcTimeout w).

Definition set_iMapMgr (m : option MapMgr) (w : World) : World :=
  mkWorld (sensorsDict w) (sensorPlcUpdateT w) (stationsDict w)
          (stationPlcUpdateT w) (trainsDict w) (trainPlcUpdateT w)
          (trainsRtuDict w) (trainRtuUpdateT w) (_last_powerlink_railway w) m
          (gJuncAvoid w) (gTestMD w) (gPlcTimeout w).

(** ** Statements that change the state and may raise *)

Definition M (A : Type) : Type := World -> World * option A.

Definition ret {A} (a : A) : M A := fun w => (w, Some a).

Definition raise {A} : M A := fun w => (w, None).

Definition bind {A B} (m : M A) (f : A -> M B) : M B :=
  fun w =>
    match m w with
    | (w', Some a) => f a w'
    | (w', None) => (w', None)
    end.

Notation "m >>= f" := (bind m f) (at level 50, left associativity).
Notation "m >> k" := (bind m (fun _ => k)) (at level 50, left associativity).

(** [for x in l: body(x)], left at the first exception. *)
Fixpoint for_each {A} (body : A -> M unit) (l : list A) : M unit :=
  match l with
  | [] => ret tt
  | x :: l' => body x >> for_each body l'
  end.

(** The four line identifiers, in the order of the source. *)
Definition LINES : list string := ["weline"; "nsline"; "ccline"; "mtline"].

Definition emptyTable : dict snapshot :=
  [("weline", None); ("nsline", None); ("ccline", None); ("mtline", None)].

(** [DataManager.__init__]: the fields, given the globals of [gv]. *)
Definition init (mm : option MapMgr) (juncAvoid testMD : bool)
    (plcTimeout : float) : World :=
  mkWorld emptyTable fzero emptyTable fzero emptyTable fzero emptyTable fzero
          None mm juncAvoid testMD plcTimeout.

(** [self.priorityConfig]: slot [i] governs the cc-line sensor [i]. *)
Definition priorityConfig : list (option (string * list nat)) :=
  [ Some ("nsline", [0]); None;
    Some ("nsline", [4]); None;
    Some ("nsline", [2]); None;
    Some ("nsline", [2]); None;
    Some ("weline", [7; 9]); None;
    Some ("weline", [5; 11]); None;
    Some ("weline", [3; 13]); None;
    Some ("weline", [1; 15]); None ].

(** An incoming datagram: [bytes] from the UDP server, or already a [str]. *)
Inductive message : Type :=
| Bytes (b : string)
| Text (s : string).

(** A reply of [msgHandler]: a [bytes] literal, or
    [';'.join(('REP', reqType, json.dumps(body))).encode('utf-8')]. *)
Inductive reply : Type :=
| RawReply (b : string)
| JsonReply (reqType : string) (body : pyval).

Definition failed : pyval := VDict [("result", VStr "failed")].
Definition success : pyval := VDict [("result", VStr "success")].

(** One record of the metro totals. *)
Record Payload : Type := mkPayload {
  ts_ms : Z;
  line_id : string;
  bus_v : float;
  total_i : float;
  train_count : Z;
}.

(** The fields of [PowerLinkWatcher]. *)
Record Watcher : Type := mkWatcher {
  seen_true : bool;
  false_count : Z;
}.

Definition newWatcher : Watcher := mkWatcher false 0.

(** Every snapshot table has the four line keys and no other. *)
Definition tables_ok (w : World) : Prop :=
  dict_keys (sensorsDict w) = LINES
  /\ dict_keys (stationsDict w) = LINES
  /\ dict_keys (trainsDict w) = LINES
  /\ dict_keys (trainsRtuDict w) = LINES.

(** What can happen to the state: a call of one of the fetch, update or
    set functions, a request handled by [msgHandler], an iteration of the
    power-link watcher, or a change of the engine behind [gv.iMapMgr]. *)
Inductive op : Type :=
| FetchSensors (body : string) (now : float)
| FetchStations (body : string) (now : float)
| FetchTrainPwr (body : string) (now : float)
| FetchTrainSens (body : string) (now : float)
| UpdateSensors
| UpdateStations
| UpdateTrainsPwr
| UpdateTrainsSen
| SetSignals (body : string)
| SetStationSignals (body : string)
| SetTrainsPower (body : string)
| Handle (msg : message) (now : float)
| Poll (self : Watcher) (resp : option string)
| Engine (m : option MapMgr).

Section DataMgr.

(** [bytes.decode('UTF-8')], [json.loads] and [float] of a [str];
    [None] when the call raises. *)
Variable utf8_decode : string -> option string.
Variable json_loads : string -> option pyval.
Variable float_of_str : string -> option float.

(** [float(v)]. *)
Definition py_float (v : pyval) : option float :=
  match v with
  | VNone => None
  | VBool b => Some (float_of_Z (if b then 1 else 0))
  | VInt z => float_of_int z
  | VFloat f => Some f
  | VStr s => float_of_str s
  | VList _ => None
  | VDict _ => None
  end.

(** *** parseIncomeMsg *)

(** [msg.decode('UTF-8') if not isinstance(msg, str) else msg]. *)
Definition decoded (msg : message) : option string :=
  match msg with
  | Bytes b => utf8_decode b
  | Text s => Some s
  end.

(** The decoding raises before the [try] is entered; inside it, the
    unpacking of [req.split(';', 2)] fails unless there are three parts,
    and the handler returns [json.dumps({})], the text [{}]. *)
Definition parseIncomeMsg (msg : message)
  : option (string * string * string) :=
  match decoded msg with
  | None => None
  | Some req =>
      match str_split ";" 2 req with
      | [reqKey; reqType; reqJsonStr] =>
          Some (strip reqKey, strip reqType, reqJsonStr)
      | _ => Some ("", "", "{}")
      end
  end.

(** *** DataManager._applyRailwayPowerLink *)

(** [for train in trains: train.setEmgStop(flag)], left at the first
    train that raises. *)
Fixpoint setEmgStop_each (flag : bool) (ts : list Train) : list Train :=
  match ts with
  | [] => []
  | t :: rest =>
      match setEmgStop flag t with
      | Some t' => t' :: setEmgStop_each flag rest
      | None => t :: rest
      end
  end.

(** The body of the loop over the lines, with its [try] ... [except: pass]. *)
Definition applyLine (stop_flag : bool) (m : MapMgr) (line : string)
  : MapMgr :=
  match dict_get line (trains m) with
  | Some ts => set_trains (dict_set line (setEmgStop_each stop_flag ts)
                                    (trains m)) m
  | None => m
  end.

Definition _applyRailwayPowerLink (railway_on : bool) (w : World) : World :=
  match iMapMgr w with
  | None => w
  | Some m =>
      let stop_flag := negb railway_on in
      set_iMapMgr (Some (fold_left (applyLine stop_flag) LINES m)) w
  end.

(** *** The update functions *)

(** [for j in idxs: if j < len(self.sensorsDict[key]): flg = flg or
    self.sensorsDict[key][j]]. *)
Fixpoint overWriteFlg (tbl : dict snapshot) (key : string)
    (idxs : list nat) (flg : pyval) : option pyval :=
  match idxs with
  | [] => Some flg
  | j :: rest =>
      match dict_get key tbl with
      | Some (Some other) =>
          overWriteFlg tbl key rest
            (match other !! j with
             | Some x => py_or flg x
             | None => flg
             end)
      | _ => None
      end
  end.

(** The body of the loop of [_updateSensorPriority] at index [i]. *)
Definition priorityStep (i : nat) : M unit :=
  fun w =>
    match dict_get "ccline" (sensorsDict w) with
    | Some (Some cc) =>
        match cc !! i with
        | Some val =>
            match priorityConfig !! i with
            | Some (Some (key, idxs)) =>
                match overWriteFlg (sensorsDict w) key idxs (VBool false) with
                | Some flg =>
                    if truthy (py_and val flg)
                    then (set_sensorsDict
                            (dict_set "ccline" (Some (<[i := VInt 0]> cc))
                                      (sensorsDict w)) w, Some tt)
                    else (w, Some tt)
                | None => (w, None)
                end
            | _ => (w, Some tt)
            end
        | None => (w, Some tt)
        end
    | _ => (w, None)
    end.

Definition _updateSensorPriority : M unit :=
  fun w =>
    match dict_get "ccline" (sensorsDict w) with
    | Some (Some (x :: cc)) =>
        for_each priorityStep (seq 0 (length (x :: cc))) w
    | Some _ => (w, Some tt)
    | None => (w, None)
    end.

Definition updateSensorsData : M unit :=
  fun w =>
    match iMapMgr w with
    | Some m =>
        (for_each
           (fun key w' =>
              match dict_get key (sensorStates m) with
              | Some st =>
                  (set_sensorsDict
                     (dict_set key (Some st) (sensorsDict w')) w', Some tt)
              | None => (w', None)
              end)
           (dict_keys (sensorsDict w))
         >> (fun w' =>
               if gTestMD w' then ret tt w' else _updateSensorPriority w')) w
    | None => (w, Some tt)
    end.

Definition updateStationsData : M unit :=
  fun w =>
    match iMapMgr w with
    | Some m =>
        for_each
          (fun key w' =>
             let w1 := set_stationsDict
                         (dict_set key (Some []) (stationsDict w')) w' in
             match dict_get key (dockStates m) with
             | Some ds =>
                 (set_stationsDict
                    (dict_set key
                       (Some (map (fun b : bool =>
                                     VInt (if b then 1 else 0)) ds))
                       (stationsDict w1)) w1, Some tt)
             | None => (w1, None)
             end)
          (dict_keys (stationsDict w)) w
    | None => (w, Some tt)
    end.

Definition updateTrainsPwrData : M unit :=
  fun w =>
    match iMapMgr w with
    | Some m =>
        for_each
          (fun key w' =>
             let w1 := set_trainsDict
                         (dict_set key (Some []) (trainsDict w')) w' in
             match dict_get key (trains m) with
             | Some ts =>
                 (set_trainsDict
                    (dict_set key
                       (Some (map (fun t =>
                                     VInt (if (powerState t =? 0)%Z
                                           then 0 else 1)) ts))
                       (trainsDict w1)) w1, Some tt)
             | None => (w1, None)
             end)
          (dict_keys (trainsDict w)) w
    | None => (w, Some tt)
    end.

(** [[state['fsensor'], state['speed'], state['voltage'], state['current']]]
    for [state = train.getTrainRealInfo()]. *)
Definition trainRow (t : Train) : option pyval :=
  match realInfo t with
  | VDict state =>
      match dict_get "fsensor" state, dict_get "speed" state,
            dict_get "voltage" state, dict_get "current" state with
      | Some a, Some b, Some c, Some d => Some (VList [a; b; c; d])
      | _, _, _, _ => None
      end
  | _ => None
  end.

(** The rows appended before the first train whose row raises, and whether
    the loop over the trains completed. *)
Fixpoint trainRows (ts : list Train) : list pyval * bool :=
  match ts with
  | [] => ([], true)
  | t :: rest =>
      match trainRow t with
      | Some r => let (rs, ok) := trainRows rest in (r :: rs, ok)
      | None => ([], false)
      end
  end.

Definition updateTrainsSenData : M unit :=
  fun w =>
    match iMapMgr w with
    | Some m =>
        for_each
          (fun key w' =>
             let w1 := set_trainsRtuDict
                         (dict_set key (Some []) (trainsRtuDict w')) w' in
             match dict_get key (trains m) with
             | Some ts =>
                 let (rows, ok) := trainRows ts in
                 (set_trainsRtuDict
                    (dict_set key (Some rows) (trainsRtuDict w1)) w1,
                  if ok then Some tt else None)
             | None => (w1, None)
             end)
          (dict_keys (trainsRtuDict w)) w
    | None => (w, Some tt)
    end.

(** *** The fetch functions *)

(** [for key in reqDict.keys(): if key in guard.keys(): reqDict[key] =
    tbl[key]]. *)
Fixpoint fillRequest (guard tbl : dict snapshot) (keys : list string)
    (reqDict : dict pyval) : option (dict pyval) :=
  match keys with
  | [] => Some reqDict
  | key :: rest =>
      if dict_has key guard
      then match dict_get key tbl with
           | Some s =>
               fillRequest guard tbl rest (dict_set key (snap_val s) reqDict)
           | None => None
           end
      else fillRequest guard tbl rest reqDict
  end.

(** The end of the [try] block of a fetch function: [respStr]. *)
Definition fetchReply (guard tbl : dict snapshot) (req : pyval) : pyval :=
  match req with
  | VDict reqDict =>
      match fillRequest guard tbl (dict_keys reqDict) reqDict with
      | Some d => VDict d
      | None => failed
      end
  | _ => failed
  end.

Definition fetchSensorInfo (reqJsonStr : string) (now : float) (w : World)
  : World * pyval :=
  match json_loads reqJsonStr with
  | Some req =>
      match updateSensorsData (set_sensorPlcUpdateT now w) with
      | (w', Some _) => (w', fetchReply (sensorsDict w') (sensorsDict w') req)
      | (w', None) => (w', failed)
      end
  | None => (w, failed)
  end.

Definition fetchStationInfo (reqJsonStr : string) (now : float) (w : World)
  : World * pyval :=
  match json_loads reqJsonStr with
  | Some req =>
      match updateStationsData (set_stationPlcUpdateT now w) with
      | (w', Some _) =>
          (w', fetchReply (stationsDict w') (stationsDict w') req)
      | (w', None) => (w', failed)
      end
  | None => (w, failed)
  end.

Definition fetchTrainPwrInfo (reqJsonStr : string) (now : float) (w : World)
  : World * pyval :=
  match json_loads reqJsonStr with
  | Some req =>
      match updateTrainsPwrData (set_trainPlcUpdateT now w) with
      | (w', Some _) => (w', fetchReply (trainsDict w') (trainsDict w') req)
      | (w', None) => (w', failed)
      end
  | None => (w, failed)
  end.

Definition fetchTrainSensInfo (reqJsonStr : string) (now : float) (w : World)
  : World * pyval :=
  match json_loads reqJsonStr with
  | Some req =>
      match updateTrainsSenData (set_trainRtuUpdateT now w) with
      | (w', Some _) =>
          (w', fetchReply (trainsDict w') (trainsRtuDict w') req)
      | (w', None) => (w', failed)
      end
  | None => (w, failed)
  end.

(** *** The connection state *)

Definition getLastPlcsConnectionState (crtTime : float) (w : World)
  : dict (float * bool) :=
  let sensorPlcOnline :=
    fltb (fsub crtTime (sensorPlcUpdateT w)) (gPlcTimeout w) in
  let stationPlcOnline :=
    fltb (fsub crtTime (stationPlcUpdateT w)) (gPlcTimeout w) in
  let trainPlcOnline :=
    fltb (fsub crtTime (trainPlcUpdateT w)) (gPlcTimeout w) in
  [ ("sensors", (sensorPlcUpdateT w, sensorPlcOnline));
    ("stations", (stationPlcUpdateT w, stationPlcOnline));
    ("trains", (trainPlcUpdateT w, trainPlcOnline)) ].

Definition getLastRtusConnectionState (crtTime : float) (w : World)
  : dict (float * bool) :=
  let trainRtuOnline :=
    fltb (fsub crtTime (trainRtuUpdateT w)) (gPlcTimeout w) in
  [ ("trains", (trainRtuUpdateT w, trainRtuOnline)) ].

(** *** The set functions *)

(** [for key, val in reqDict.items(): setter(key, val)]. *)
Definition forward (setter : string -> pyval -> MapMgr -> MapMgr)
    (items : dict pyval) (m : MapMgr) : MapMgr :=
  fold_left (fun m' kv => setter (fst kv) (snd kv) m') items m.

Definition setSignals (reqJsonStr : string) (w : World) : World * pyval :=
  match json_loads reqJsonStr with
  | Some req =>
      match iMapMgr w with
      | Some m =>
          if gJuncAvoid w then (w, success)
          else match req with
               | VDict reqDict =>
                   (set_iMapMgr (Some (forward setSingals reqDict m)) w,
                    success)
               | _ => (w, failed)
               end
      | None => (w, failed)
      end
  | None => (w, failed)
  end.

Definition setStationSignals (reqJsonStr : string) (w : World)
  : World * pyval :=
  match json_loads reqJsonStr with
  | Some req =>
      match iMapMgr w with
      | Some m =>
          match req with
          | VDict reqDict =>
              (set_iMapMgr (Some (forward setStationSignal reqDict m)) w,
               success)
          | _ => (w, failed)
          end
      | None => (w, failed)
      end
  | None => (w, failed)
  end.

Definition setTrainsPower (reqJsonStr : string) (w : World)
  : World * pyval :=
  match json_loads reqJsonStr with
  | Some req =>
      match iMapMgr w with
      | Some m =>
          match req with
          | VDict reqDict =>
              (set_iMapMgr (Some (forward setTainsPower reqDict m)) w,
               success)
          | _ => (w, failed)
          end
      | None => (w, failed)
      end
  | None => (w, failed)
  end.

(** *** msgHandler *)

(** [bool(d.get('railway', True))]; raises when [d] is not a dictionary. *)
Definition railway_of (d : pyval) : option bool :=
  match d with
  | VDict items =>
      Some (truthy (match dict_get "railway" items with
                    | Some v => v
                    | None => VBool true
                    end))
  | _ => None
  end.

(** The [POST;powerLink] branch of [msgHandler]. *)
Definition pushPowerLink (reqJsonStr : string) (w : World) : World * pyval :=
  match (if reqJsonStr =? "" then Some (VDict [])
         else json_loads reqJsonStr) with
  | Some d =>
      match railway_of d with
      | Some railway_on =>
          let changed :=
            match _last_powerlink_railway w with
            | None => true
            | Some last => negb (Bool.eqb railway_on last)
            end in
          if changed
          then (set_last_powerlink (Some railway_on)
                  (_applyRailwayPowerLink railway_on w), success)
          else (w, success)
      | None => (w, failed)
      end
  | None => (w, failed)
  end.

Definition deny : reply := RawReply "REP;deny;{}".

(** The result is [None] when the handler raises, [Some None] when it
    returns [None], [Some (Some r)] when it returns the reply [r]. *)
Definition msgHandler (msg : message) (now : float) (w : World)
  : World * option (option reply) :=
  match msg with
  | Bytes EmptyString => (w, Some None)
  | _ =>
      match parseIncomeMsg msg with
      | None => (w, None)
      | Some (reqKey, reqType, reqJsonStr) =>
          let answer (reqType' : string) (r : World * pyval) :=
            (fst r, Some (Some (JsonReply reqType' (snd r)))) in
          if reqKey =? "GET" then
            if reqType =? "login" then
              (w, Some (Some (JsonReply "login"
                                (VDict [("state", VStr "ready")]))))
            else if reqType =? "sensors" then
              answer "sensors" (fetchSensorInfo reqJsonStr now w)
            else if reqType =? "stations" then
              answer "stations" (fetchStationInfo reqJsonStr now w)
            else if reqType =? "trainsPlc" then
              answer "trainsPlc" (fetchTrainPwrInfo reqJsonStr now w)
            else if reqType =? "trainsRtu" then
              answer "trainsRtu" (fetchTrainSensInfo reqJsonStr now w)
            else (w, Some (Some deny))
          else if reqKey =? "POST" then
            if reqType =? "signals" then
              answer "signals" (setSignals reqJsonStr w)
            else if reqType =? "stations" then
              answer "stations" (setStationSignals reqJsonStr w)
            else if reqType =? "trainsPlc" then
              answer "trainsPlc" (setTrainsPower reqJsonStr w)
            else if reqType =? "powerLink" then
              answer "powerLink" (pushPowerLink reqJsonStr w)
            else (w, Some (Some deny))
          else (w, Some (Some deny))
      end
  end.

(** *** DataManager._collectMetroTotalsPayloads *)

(** [sum(voltages)]: the additions in list order, from the integer 0.
    (CPython 3.12 and later compensate the rounding errors of the partial
    sums; the two agree whenever every partial sum is exact.) *)
Definition py_sum (fs : list float) : float :=
  fold_left fadd fs (float_of_Z 0).

(** The loop over the trains of one line: [total_i] and [voltages]. *)
Fixpoint trainTotals (ts : list Train) (total : float)
    (voltages : list float) : option (float * list float) :=
  match ts with
  | [] => Some (total, voltages)
  | tr :: rest =>
      match py_or (realInfo tr) (VDict []) with
      | VDict info =>
          let current :=
            match dict_get "current" info with
            | Some v => v
            | None => VInt 0
            end in
          match py_float (py_or current (VInt 0)) with
          | Some c =>
              let voltages' :=
                match dict_get "voltage" info with
                | None => voltages
                | Some VNone => voltages
                | Some v =>
                    match py_float v with
                    | Some f => (voltages ++ [f])%list
                    | None => voltages
                    end
                end in
              trainTotals rest (fadd total c) voltages'
          | None => None
          end
      | _ => None
      end
  end.

(** The body of the loop over the lines: one payload. *)
Definition lineTotals (ts : Z) (m : MapMgr) (line : string)
  : option Payload :=
  match dict_get line (trains m) with
  | Some trs =>
      match trainTotals trs fzero [] with
      | Some (total, voltages) =>
          let bus :=
            match voltages with
            | [] => fzero
            | _ :: _ =>
                fdiv (py_sum voltages)
                     (float_of_Z (Z.of_nat (length voltages)))
            end in
          Some (mkPayload ts line bus total (Z.of_nat (length trs)))
      | None => None
      end
  | None => None
  end.

Fixpoint collectLines (ts : Z) (m : MapMgr) (lines : list string)
  : option (list Payload) :=
  match lines with
  | [] => Some []
  | line :: rest =>
      match lineTotals ts m line with
      | Some p =>
          match collectLines ts m rest with
          | Some ps => Some (p :: ps)
          | None => None
          end
      | None => None
      end
  end.

Definition _collectMetroTotalsPayloads (now : float) (w : World)
  : option (list Payload) :=
  match iMapMgr w with
  | Some m =>
      match int_of_float (fmul now (float_of_Z 1000)) with
      | Some ts => collectLines ts m LINES
      | None => None
      end
  | None => Some []
  end.

(** *** PowerLinkWatcher *)

Definition _set_all_trains_power (state : bool) (w : World) : World :=
  _applyRailwayPowerLink state w.

(** The debounce of [run], from the reading [railway_on] on. *)
Definition on_reading (railway_on : bool) (st : Watcher * World)
  : Watcher * World :=
  let (self, w) := st in
  if railway_on then (mkWatcher true 0, w)
  else if seen_true self then
    let self' := mkWatcher (seen_true self) (false_count self + 1) in
    if (3 <=? false_count self')%Z
    then (self', _set_all_trains_power false w)
    else (self', w)
  else (self, w).

(** The reading that one iteration of [run] extracts from the answer of
    [sendMsg] ([None] when the answer is no [bytes] object or [sendMsg]
    raised); no reading when a test fails or a call raises. *)
Definition poll_reading (resp : option string) : option bool :=
  match resp with
  | Some b =>
      match parseIncomeMsg (Bytes b) with
      | Some (k, t, j) =>
          if (k =? "REP") && (t =? "powerLink")
          then match json_loads j with
               | Some d => railway_of d
               | None => None
               end
          else None
      | None => None
      end
  | None => None
  end.

(** One iteration of the loop of [run]. *)
Definition watcher_iter (resp : option string) (st : Watcher * World)
  : Watcher * World :=
  match poll_reading resp with
  | Some railway_on => on_reading railway_on st
  | None => st
  end.

(** The loop of [run] over the readings of successive iterations. *)
Definition run_readings (readings : list bool) (st : Watcher * World)
  : Watcher * World :=
  fold_left (fun st' r => on_reading r st') readings st.

(** [msg] is a [POST;powerLink] request whose railway value is [b]. *)
Definition carries (msg : message) (b : bool) : Prop :=
  msg <> Bytes ""
  /\ exists body d,
      parseIncomeMsg msg = Some ("POST", "powerLink", body)
      /\ (if body =? "" then Some (VDict []) else json_loads body) = Some d
      /\ railway_of d = Some b.

Definition step (o : op) (w : World) : World :=
  match o with
  | FetchSensors body now => fst (fetchSensorInfo body now w)
  | FetchStations body now => fst (fetchStationInfo body now w)
  | FetchTrainPwr body now => fst (fetchTrainPwrInfo body now w)
  | FetchTrainSens body now => fst (fetchTrainSensInfo body now w)
  | UpdateSensors => fst (updateSensorsData w)
  | UpdateStations => fst (updateStationsData w)
  | UpdateTrainsPwr => fst (updateTrainsPwrData w)
  | UpdateTrainsSen => fst (updateTrainsSenData w)
  | SetSignals body => fst (setSignals body w)
  | SetStationSignals body => fst (setStationSignals body w)
  | SetTrainsPower body => fst (setTrainsPower body w)
  | Handle msg now => fst (msgHandler msg now w)
  | Poll self resp => snd (watcher_iter resp (self, w))
  | Engine m => set_iMapMgr m w
  end.

Definition steps (ops : list op) (w : World) : World :=
  fold_left (fun w' o => step o w') ops w.

End DataMgr.

(** ** Concrete library functions and states for the examples *)

(** [bytes.decode('UTF-8')] on ASCII bytes, where it is the identity; the
    examples send no other bytes. *)
Fixpoint all_ascii (b : string) : bool :=
  match b with
  | EmptyString => true
  | String c b' => (nat_of_ascii c <? 128)%nat && all_ascii b'
  end.

Definition ascii_decode (b : string) : option string :=
  if all_ascii b then Some b else None.

Definition dq : string := String (ascii_of_nat 34) EmptyString.

(** The request bodies of the examples. *)
Definition body_empty : string := "{}".
Definition body_railway0 : string := "{" ++ dq ++ "railway" ++ dq ++ ": 0}".
Definition body_railway1 : string := "{" ++ dq ++ "railway" ++ dq ++ ": 1}".
Definition body_lines : string :=
  "{" ++ dq ++ "weline" ++ dq ++ ": null, "
      ++ dq ++ "other" ++ dq ++ ": 7}".
Definition body_signals : string :=
  "{" ++ dq ++ "S1" ++ dq ++ ": 1, " ++ dq ++ "S2" ++ dq ++ ": 0}".

(** [json.loads] on the request bodies of the examples; any other text is
    rejected. *)
Definition table_loads (s : string) : option pyval :=
  if s =? body_empty then Some (VDict [])
  else if s =? body_railway0 then Some (VDict [("railway", VInt 0)])
  else if s =? body_railway1 then Some (VDict [("railway", VInt 1)])
  else if s =? body_lines
       then Some (VDict [("weline", VNone); ("other", VInt 7)])
  else if s =? body_signals
       then Some (VDict [("S1", VInt 1); ("S2", VInt 0)])
  else None.

(** [float] of a [str] written with decimal digits only; any other text is
    rejected. *)
Fixpoint digits_value (s : string) (acc : Z) : option Z :=
  match s with
  | EmptyString => Some acc
  | String c s' =>
      let n := nat_of_ascii c in
      if ((48 <=? n) && (n <=? 57))%nat
      then digits_value s' (10 * acc + Z.of_nat (n - 48))
      else None
  end.

Definition digits_float (s : string) : option float :=
  match s with
  | EmptyString => None
  | _ => match digits_value s 0 with
         | Some z => float_of_int z
         | None => None
         end
  end.

Definition info (voltage current : pyval) : pyval :=
  VDict [("fsensor", VInt 0); ("speed", VInt 0);
         ("voltage", voltage); ("current", current)].

Definition train (ok : bool) (voltage current : pyval) : Train :=
  mkTrain ok [] 1 (info voltage current).

Definition fl (z : Z) : pyval := VFloat (float_of_Z z).

(** An engine with two trains on the first line and one on each other. *)
Definition engine (weline : list Train) : MapMgr :=
  mkMapMgr
    [ ("weline", [VInt 0; VInt 0; VInt 0]);
      ("nsline", [VInt 0; VInt 0; VInt 1; VInt 0; VInt 0]);
      ("ccline", [VInt 1; VInt 1; VInt 1; VInt 0; VInt 1; VInt 1; VInt 1]);
      ("mtline", []) ]
    [ ("weline", [true; false]); ("nsline", []); ("ccline", [false]);
      ("mtline", []) ]
    [ ("weline", weline);
      ("nsline", [train true (fl 10) (fl 1)]);
      ("ccline", [train true (fl 10) (fl 1)]);
      ("mtline", [train true (fl 10) (fl 1)]) ]
    [] [] [].

(** Both trains of the first line can be reached. *)
Definition engine_ok : MapMgr :=
  engine [train true (fl 10) (fl 2); train true VNone (fl 3)].

(** The first train of the first line cannot be reached. *)
Definition engine_unreachable : MapMgr :=
  engine [train false (fl 10) (fl 2); train true VNone (fl 3)].

(** The first train of the first line reports a current that is no number. *)
Definition engine_bad_current : MapMgr :=
  engine [train true (fl 10) (VStr "n/a"); train true VNone (fl 3)].

Definition world_of (m : option MapMgr) : World :=
  init m false false (float_of_Z 3).

(** The sensors channel was updated at time 2; the timeout is 3. *)
Definition world_stamped : World :=
  set_sensorPlcUpdateT (float_of_Z 2) (world_of None).

(** The reply of a fetch that finds the tables as they are: the request
    dictionary with the value of every line key replaced by the cached
    snapshot of that line, the other keys as they came. *)
Definition cached_reply (tbl : dict snapshot) (reqDict : dict pyval)
    (r : pyval) : Prop :=
  exists d,
    r = VDict d
    /\ dict_keys d = dict_keys reqDict
    /\ forall key,
        In key (dict_keys reqDict) ->
        dict_get key d
        = match dict_get key tbl with
          | Some s => Some (snap_val s)
          | None => dict_get key reqDict
          end.

(** The sensors table with the arrays of the four lines. *)
Definition table4 (we ns cc mt : list pyval) : dict snapshot :=
  [("weline", Some we); ("nsline", Some ns); ("ccline", Some cc);
   ("mtline", Some mt)].

(** The statement of the resolver, in the words of the specification: slot
    [i] has a rule, and one of the indices the rule lists is in bounds of
    the sensor array of the line it names and true there. *)
Definition rule_fires (m : MapMgr) (i : nat) : bool :=
  match priorityConfig !! i with
  | Some (Some (key, idxs)) =>
      match dict_get key (sensorStates m) with
      | Some other =>
          existsb (fun j => match other !! j with
                            | Some x => truthy x
                            | None => false
                            end) idxs
      | None => false
      end
  | _ => false
  end.

(** The cc-line value at [i] after the resolver: forced to 0 when it is
    true and the rule of the slot fires, unchanged otherwise. *)
Definition resolved (m : MapMgr) (i : nat) (val : pyval) : pyval :=
  if truthy val && rule_fires m i then VInt 0 else val.

(** The flags that the trains of a line have received through
    [setEmgStop], train by train. *)
Definition emgStopLog (line : string) (w : World) : list (list bool) :=
  match iMapMgr w with
  | Some m =>
      match dict_get line (trains m) with
      | Some ts => map emgStopCalls ts
      | None => []
      end
  | None => []
  end.

(** [setEmgStop] on a train that can be reached. *)
Definition received (flag : bool) (t : Train) : Train :=
  mkTrain (reachable t) (emgStopCalls t ++ [flag]) (powerState t) (realInfo t).

(** ** Further definitions for the properties below *)

(** No character of the text is white space. *)
Fixpoint no_space (s : string) : bool :=
  match s with
  | EmptyString => true
  | String c s' => negb (isspace c) && no_space s'
  end.

(** The dispatch table of [msgHandler]: the pairs of request key and
    request type that reach a handler. *)
Definition routed (reqKey reqType : string) : bool :=
  ((reqKey =? "GET")
   && ((reqType =? "login") || (reqType =? "sensors")
       || (reqType =? "stations") || (reqType =? "trainsPlc")
       || (reqType =? "trainsRtu")))
  || ((reqKey =? "POST")
      && ((reqType =? "signals") || (reqType =? "stations")
          || (reqType =? "trainsPlc") || (reqType =? "powerLink"))).

(** [';'.join((reqKey, reqType, jsonStr))]. *)
Definition join3 (reqKey reqType jsonStr : string) : string :=
  reqKey ++ String ";" (reqType ++ String ";" jsonStr).

(** What a fetch function returns, given the outcome [upd] of its update
    function on the table [tbl]: the state the update left and, when the
    update did not raise, the request dictionary filled from that table;
    the failure body when it raised. *)
Definition fetch_outcome (tbl : World -> dict snapshot)
    (upd : World * option unit) (reqDict : dict pyval)
    (res : World * pyval) : Prop :=
  fst res = fst upd
  /\ match snd upd with
     | Some _ => cached_reply (tbl (fst upd)) reqDict (snd res)
     | None => snd res = failed
     end.

(** [1 if stationAgent.getDockState() else 0], station by station. *)
Definition dockFlags (ds : list bool) : list pyval :=
  map (fun b : bool => VInt (if b then 1 else 0)) ds.

(** The body of the loop of [updateStationsData]. *)
Definition stationStep (m : MapMgr) (key : string) : M unit :=
  fun w' =>
    let w1 := set_stationsDict (dict_set key (Some []) (stationsDict w')) w' in
    match dict_get key (dockStates m) with
    | Some ds =>
        (set_stationsDict
           (dict_set key (Some (dockFlags ds)) (stationsDict w1)) w1, Some tt)
    | None => (w1, None)
    end.

(** The body of the first loop of [updateSensorsData]. *)
Definition sensorStep (m : MapMgr) (key : string) : M unit :=
  fun w' =>
    match dict_get key (sensorStates m) with
    | Some st =>
        (set_sensorsDict (dict_set key (Some st) (sensorsDict w')) w', Some tt)
    | None => (w', None)
    end.

(** A line written by [_logMetroTotalsLoop]: the warning that the totals
    are unavailable, or the totals of one line. *)
Inductive logLine : Type :=
| WarnUnavailable
| InfoTotals (p : Payload).

Section TotalsLog.

Variable float_of_str : string -> option float.

(** The interval of [_logMetroTotalsLoop]: [gUpdateRate] is the attribute
    of [gv], [None] when [gv] has no such attribute. *)
Definition logInterval (gUpdateRate : option pyval) : float :=
  let interval :=
    match gUpdateRate with
    | Some v =>
        match py_float float_of_str v with
        | Some f => f
        | None => float_of_Z 2
        end
    | None => float_of_Z 2
    end in
  if SFleb interval fzero then float_of_Z 2 else interval.

(** One pass of the loop of [_logMetroTotalsLoop] on the aggregate
    [payloads]: the new value of [warned], the lines written and the time
    slept. *)
Definition logPass (interval : float) (payloads : list Payload)
    (warned : bool) : bool * list logLine * float :=
  match payloads with
  | [] => (true, if warned then [] else [WarnUnavailable], float_of_Z 1)
  | _ :: _ => (false, map InfoTotals payloads, interval)
  end.

(** The loop over the clock and the state found at each pass: the lines
    written and the time slept, pass by pass.  The aggregate is not inside
    a [try]: the loop ends at the pass where it raises. *)
Fixpoint logLoop (interval : float) (passes : list (float * World))
    (warned : bool) : list (list logLine * float) :=
  match passes with
  | [] => []
  | (now, w) :: rest =>
      match _collectMetroTotalsPayloads float_of_str now w with
      | Some payloads =>
          let '(warned', lines, slept) := logPass interval payloads warned in
          (lines, slept) :: logLoop interval rest warned'
      | None => []
      end
  end.

End TotalsLog.

(** A train without a voltage reading: the key is missing, its value is
    None, or [float] cannot convert it. *)
Definition no_voltage (float_of_str : string -> option float) (t : Train)
  : Prop :=
  match py_or (realInfo t) (VDict []) with
  | VDict info =>
      match dict_get "voltage" info with
      | None => True
      | Some VNone => True
      | Some v => py_float float_of_str v = None
      end
  | _ => True
  end.

(** Further example states: an engine that has no stations and no sensor
    agent for the cc line, and an engine on whose first line no train has a
    voltage reading. *)
Definition engine_without_cc : MapMgr :=
  mkMapMgr
    [ ("weline", [VInt 1; VInt 0]); ("nsline", [VInt 0]); ("mtline", []) ]
    [ ("weline", [true; false]); ("nsline", [false]); ("mtline", []) ]
    (trains engine_ok) [] [] [].

Definition engine_no_voltage : MapMgr :=
  engine [train true VNone (fl 2);
          mkTrain true [] 1 (VDict [("current", fl 3)]);
          train true (VStr "n/a") (fl 1)].

(** Tables that hold an earlier snapshot of every line. *)
Definition old_table : dict snapshot :=
  [("weline", Some [VInt 7]); ("nsline", Some [VInt 7]);
   ("ccline", Some [VInt 7]); ("mtline", Some [VInt 7])].

Definition world_old (m : option MapMgr) : World :=
  set_stationsDict old_table (set_sensorsDict old_table (world_of m)).

(** The body of the loop of [updateTrainsSenData]. *)
Definition rtuStep (m : MapMgr) (key : string) : M unit :=
  fun w' =>
    let w1 := set_trainsRtuDict
                (dict_set key (Some []) (trainsRtuDict w')) w' in
    match dict_get key (trains m) with
    | Some ts =>
        let (rows, ok) := trainRows ts in
        (set_trainsRtuDict (dict_set key (Some rows) (trainsRtuDict w1)) w1,
         if ok then Some tt else None)
    | None => (w1, None)
    end.

(** The second of three trains of the first line reports its speed only. *)
Definition engine_partial_report : MapMgr :=
  engine [train true (fl 10) (fl 2);
          mkTrain true [] 1 (VDict [("speed", VInt 3)]);
          train true VNone (fl 3)].

(** A train whose report can be read and whose current is a number: the
    report is a dictionary (or is empty or None), and [float] converts the
    current, 0 standing for a missing, None or zero current. *)
Definition current_readable (float_of_str : string -> option float)
    (t : Train) : Prop :=
  match py_or (realInfo t) (VDict []) with
  | VDict info =>
      exists c,
        py_float float_of_str
          (py_or (match dict_get "current" info with
                  | Some v => v
                  | None => VInt 0
                  end) (VInt 0)) = Some c
  | _ => False
  end.

(** * Properties *)

Local Open Scope list_scope.

(** ** Dictionaries *)

Lemma dict_get_set_eq {V} (k : string) (v : V) (d : dict V) :
  dict_get k (dict_set k v d) = Some v.
Proof.
  induction d as [|[k' v'] d IH]; simpl.
  - now rewrite String.eqb_refl.
  - destruct (k =? k') eqn:E; simpl; rewrite E; auto.
Qed.

Lemma dict_get_set_ne {V} (k k' : string) (v : V) (d : dict V) :
  k <> k' -> dict_get k' (dict_set k v d) = dict_get k' d.
Proof.
  intros Hne. induction d as [|[k0 v0] d IH]; simpl.
  - destruct (k' =? k) eqn:E; auto.
    apply String.eqb_eq in E. congruence.
  - destruct (k =? k0) eqn:E; simpl.
    + apply String.eqb_eq in E. subst k0.
      destruct (k' =? k) eqn:E'; auto.
      apply String.eqb_eq in E'. congruence.
    + now rewrite IH.
Qed.

Lemma dict_keys_set {V} (k : string) (v : V) (d : dict V) :
  In k (dict_keys d) -> dict_keys (dict_set k v d) = dict_keys d.
Proof.
  induction d as [|[k' v'] d IH]; simpl; [tauto|].
  intros [Heq | Hin].
  - subst k'. now rewrite String.eqb_refl.
  - destruct (k =? k') eqn:E; simpl; auto.
    f_equal. now apply IH.
Qed.

Lemma dict_get_in_keys {V} (k : string) (d : dict V) :
  In k (dict_keys d) <-> exists v, dict_get k d = Some v.
Proof.
  induction d as [|[k' v'] d IH]; simpl.
  - split; [tauto | intros [v Hv]; discriminate].
  - destruct (k =? k') eqn:E.
    + apply String.eqb_eq in E. subst k'. split; eauto.
    + apply String.eqb_neq in E. rewrite <- IH. split; [|tauto].
      intros [Heq | Hin]; [congruence | exact Hin].
Qed.

Lemma dict_keys_set_found {V} (k : string) (v v' : V) (d : dict V) :
  dict_get k d = Some v -> dict_keys (dict_set k v' d) = dict_keys d.
Proof.
  intros H. apply dict_keys_set. apply dict_get_in_keys. eauto.
Qed.

(** ** The fan-out of the power link *)

Lemma setEmgStop_each_reachable (flag : bool) (ts : list Train) :
  Forall (fun t => reachable t = true) ts ->
  setEmgStop_each flag ts = map (received flag) ts.
Proof.
  induction 1 as [|t ts Ht _ IH]; simpl; auto.
  unfold setEmgStop, received. rewrite Ht, IH. reflexivity.
Qed.

Lemma applyLine_same (flag : bool) (m : MapMgr) (line : string) :
  dict_get line (trains (applyLine flag m line))
  = option_map (setEmgStop_each flag) (dict_get line (trains m)).
Proof.
  unfold applyLine. destruct (dict_get line (trains m)) eqn:E; simpl.
  - apply dict_get_set_eq.
  - now rewrite E.
Qed.

Lemma applyLine_other (flag : bool) (m : MapMgr) (line line' : string) :
  line <> line' ->
  dict_get line' (trains (applyLine flag m line)) = dict_get line' (trains m).
Proof.
  intros Hne. unfold applyLine.
  destruct (dict_get line (trains m)); simpl; auto.
  now apply dict_get_set_ne.
Qed.

Lemma applyLines_other (flag : bool) (ls : list string) (line : string) :
  ~ In line ls ->
  forall m, dict_get line (trains (fold_left (applyLine flag) ls m))
            = dict_get line (trains m).
Proof.
  induction ls as [|l ls IH]; simpl; intros Hnin m; auto.
  rewrite IH by tauto. apply applyLine_other. tauto.
Qed.

Lemma applyLines_same (flag : bool) (ls : list string) (line : string) :
  List.NoDup ls -> In line ls ->
  forall m, dict_get line (trains (fold_left (applyLine flag) ls m))
            = option_map (setEmgStop_each flag) (dict_get line (trains m)).
Proof.
  induction 1 as [|l ls Hnin Hnd IH]; simpl; [tauto|].
  intros [Heq | Hin] m.
  - subst l. rewrite applyLines_other by assumption. apply applyLine_same.
  - rewrite IH by assumption. rewrite applyLine_other; auto.
    intros Heq. subst l. contradiction.
Qed.

Lemma LINES_NoDup : List.NoDup LINES.
Proof.
  unfold LINES. repeat constructor; simpl; intuition discriminate.
Qed.

(** With the engine available, applying the power link calls
    [setEmgStop(not railway_on)] on the trains of every line, up to the
    first train of the line that raises. *)
Lemma applyRailwayPowerLink_line (railway_on : bool) (w : World)
    (m : MapMgr) (line : string) :
  iMapMgr w = Some m -> In line LINES ->
  exists m',
    iMapMgr (_applyRailwayPowerLink railway_on w) = Some m'
    /\ dict_get line (trains m')
       = option_map (setEmgStop_each (negb railway_on))
                    (dict_get line (trains m)).
Proof.
  intros Hm Hin. unfold _applyRailwayPowerLink. rewrite Hm.
  eexists. split; [reflexivity|].
  apply applyLines_same; [apply LINES_NoDup | exact Hin].
Qed.

(** The trains behind the first train that raises receive nothing. *)
Lemma setEmgStop_each_blocked (flag : bool) (pre post : list Train)
    (t : Train) :
  Forall (fun t' => reachable t' = true) pre -> reachable t = false ->
  setEmgStop_each flag (pre ++ t :: post) = map (received flag) pre ++ t :: post.
Proof.
  intros Hpre Ht. induction Hpre as [|p pre Hp _ IH]; simpl.
  - unfold setEmgStop. now rewrite Ht.
  - unfold setEmgStop, received. rewrite Hp, IH. reflexivity.
Qed.

(** C2. Applying railway_on = false reaches every train of every line when
    no call fails.  When [setEmgStop] raises on the first train of a line,
    the exception is caught around the loop over that line: the second
    train of the same line receives no emergency stop, the trains of the
    other lines receive it. *)
Theorem fanout_stops_at_unreachable_train :
  (emgStopLog "weline" (_applyRailwayPowerLink false (world_of (Some engine_ok)))
   = [[true]; [true]]
   /\ emgStopLog "nsline" (_applyRailwayPowerLink false (world_of (Some engine_ok)))
      = [[true]]
   /\ emgStopLog "ccline" (_applyRailwayPowerLink false (world_of (Some engine_ok)))
      = [[true]]
   /\ emgStopLog "mtline" (_applyRailwayPowerLink false (world_of (Some engine_ok)))
      = [[true]])
  /\ emgStopLog "weline"
       (_applyRailwayPowerLink false (world_of (Some engine_unreachable)))
     = [[]; []]
  /\ emgStopLog "nsline"
       (_applyRailwayPowerLink false (world_of (Some engine_unreachable)))
     = [[true]].
Proof. repeat split; reflexivity. Qed.

(** ** The poll path of the power link *)

Lemma on_reading_before_true (w : World) :
  on_reading false (newWatcher, w) = (newWatcher, w).
Proof. reflexivity. Qed.

Lemma run_readings_no_true (n : nat) (w : World) :
  run_readings (repeat false n) (newWatcher, w) = (newWatcher, w).
Proof.
  induction n as [|n IH]; simpl; [reflexivity|].
  unfold run_readings in *. simpl. exact IH.
Qed.

(** The watcher after a true reading followed by [k] false readings. *)
Lemma run_readings_true_false (w : World) :
  run_readings [true; false; false] (newWatcher, w) = (mkWatcher true 2, w)
  /\ run_readings [true; false; false; false] (newWatcher, w)
     = (mkWatcher true 3, _applyRailwayPowerLink false w)
  /\ run_readings [true; false; false; false; false] (newWatcher, w)
     = (mkWatcher true 4,
        _applyRailwayPowerLink false (_applyRailwayPowerLink false w)).
Proof. repeat split; reflexivity. Qed.

(** Once three false readings have been counted, every further false
    reading applies the stop again. *)
Lemma on_reading_tripped (self : Watcher) (w : World) :
  seen_true self = true -> (2 <= false_count self)%Z ->
  on_reading false (self, w)
  = (mkWatcher true (false_count self + 1), _applyRailwayPowerLink false w).
Proof.
  intros Hs Hc. unfold on_reading. rewrite Hs. simpl.
  destruct (3 <=? false_count self + 1)%Z eqn:E.
  - reflexivity.
  - apply Z.leb_gt in E. lia.
Qed.

(** C1. From the initial watcher: readings without a true reading apply no
    stop; true, false, false applies none; true, false, false, false
    applies one.  The trip is not one-shot: a fourth false reading applies
    the stop a second time, so that every train receives [setEmgStop(True)]
    twice. *)
Theorem poll_debounce_retrips :
  (forall n w, snd (run_readings (repeat false n) (newWatcher, w)) = w)
  /\ (forall w, snd (run_readings [true; false; false] (newWatcher, w)) = w)
  /\ (forall w, snd (run_readings [true; false; false; false] (newWatcher, w))
                = _applyRailwayPowerLink false w)
  /\ (forall w,
        snd (run_readings [true; false; false; false; false] (newWatcher, w))
        = _applyRailwayPowerLink false (_applyRailwayPowerLink false w))
  /\ emgStopLog "nsline"
       (snd (run_readings [true; false; false; false]
               (newWatcher, world_of (Some engine_ok))))
     = [[true]]
  /\ emgStopLog "nsline"
       (snd (run_readings [true; false; false; false; false]
               (newWatcher, world_of (Some engine_ok))))
     = [[true; true]].
Proof.
  split; [intros n w; now rewrite run_readings_no_true|].
  repeat split; reflexivity.
Qed.

(** ** The liveness report *)

Lemma fltb_Lt (x y : float) : fltb x y = true <-> SFcompare x y = Some Lt.
Proof.
  unfold fltb, SFltb. destruct (SFcompare x y) as [[| |]|]; split; congruence.
Qed.

(** C9. Every channel of the two liveness reports is online exactly when
    [now - lastUpdate] compares strictly below the timeout; when the
    difference equals the timeout the channel is offline.  The reports list
    the sensors, stations and trains channels of the PLCs and the trains
    channel of the RTUs, each with its own time stamp. *)
Theorem liveness_strict (now : float) (w : World) :
  (forall chan last online,
      In (chan, (last, online))
         (getLastPlcsConnectionState now w ++ getLastRtusConnectionState now w) ->
      (online = true <-> SFcompare (fsub now last) (gPlcTimeout w) = Some Lt)
      /\ (SFcompare (fsub now last) (gPlcTimeout w) = Some Eq -> online = false))
  /\ map (fun e => (fst e, fst (snd e))) (getLastPlcsConnectionState now w)
     = [("sensors", sensorPlcUpdateT w); ("stations", stationPlcUpdateT w);
        ("trains", trainPlcUpdateT w)]
  /\ map (fun e => (fst e, fst (snd e))) (getLastRtusConnectionState now w)
     = [("trains", trainRtuUpdateT w)].
Proof.
  split; [|split; reflexivity].
  intros chan last online Hin.
  assert (Hon : online = fltb (fsub now last) (gPlcTimeout w)).
  { simpl in Hin.
    destruct Hin as [H|[H|[H|[H|[]]]]]; inversion H; reflexivity. }
  subst online. split.
  - apply fltb_Lt.
  - intros Heq. unfold fltb, SFltb. now rewrite Heq.
Qed.

(** ** Forwarding the signals *)

Lemma forward_setSingals (items : dict pyval) (m : MapMgr) :
  forward setSingals items m
  = mkMapMgr (sensorStates m) (dockStates m) (trains m)
             (signalCalls m ++ items)
             (stationSignalCalls m) (trainsPowerCalls m).
Proof.
  unfold forward. revert m.
  induction items as [|[k v] items IH]; intros m; simpl.
  - rewrite app_nil_r. now destruct m.
  - rewrite IH. simpl. now rewrite <- app_assoc.
Qed.

(** ** The message codec *)

Lemma cut_None (sep : ascii) (s : string) :
  count_char sep s = 0 -> cut sep s = None.
Proof.
  induction s as [|c s IH]; simpl; [reflexivity|].
  destruct (Ascii.eqb c sep); [discriminate|].
  intros H. now rewrite IH.
Qed.

Lemma cut_Some (sep : ascii) (s a b : string) :
  cut sep s = Some (a, b) ->
  count_char sep s = S (count_char sep b) /\ count_char sep a = 0
  /\ s = (a ++ String sep b)%string.
Proof.
  revert a. induction s as [|c s IH]; simpl; intros a; [discriminate|].
  destruct (Ascii.eqb c sep) eqn:E.
  - intros H. inversion H. subst. apply Ascii.eqb_eq in E. subst c. auto.
  - destruct (cut sep s) as [[a' b']|]; [|discriminate].
    intros H. inversion H. subst. destruct (IH a' eq_refl) as (H1 & H2 & H3).
    simpl. rewrite E. simpl. rewrite H1, H2. subst s. auto.
Qed.

(** Fewer than two separators: [split(sep, 2)] yields one or two parts. *)
Lemma str_split_short (sep : ascii) (s : string) :
  count_char sep s < 2 ->
  (exists a, str_split sep 2 s = [a]) \/ (exists a b, str_split sep 2 s = [a; b]).
Proof.
  intros Hc. simpl. destruct (cut sep s) as [[a b]|] eqn:E.
  - right. destruct (cut_Some _ _ _ _ E) as (H1 & _ & _).
    rewrite cut_None by lia. eauto.
  - left. eauto.
Qed.

(** At least two separators: the text is cut at the first two. *)
Lemma str_split_long (sep : ascii) (s : string) :
  2 <= count_char sep s ->
  exists a b c,
    str_split sep 2 s = [a; b; c]
    /\ s = (a ++ String sep (b ++ String sep c))%string
    /\ count_char sep a = 0 /\ count_char sep b = 0.
Proof.
  intros Hc. simpl. destruct (cut sep s) as [[a r]|] eqn:E.
  - destruct (cut_Some _ _ _ _ E) as (H1 & H2 & H3).
    destruct (cut sep r) as [[b c]|] eqn:E'.
    + destruct (cut_Some _ _ _ _ E') as (H4 & H5 & H6).
      exists a, b, c. subst. auto.
    + assert (count_char sep r = 0); [|lia].
      clear - E'. induction r as [|c r IH]; simpl in *; [reflexivity|].
      destruct (Ascii.eqb c sep); [discriminate|].
      destruct (cut sep r) as [[? ?]|]; [discriminate|]. simpl. auto.
  - assert (count_char sep s = 0); [|lia].
    clear - E. induction s as [|c s IH]; simpl in *; [reflexivity|].
    destruct (Ascii.eqb c sep); [discriminate|].
    destruct (cut sep s) as [[? ?]|]; [discriminate|]. simpl. auto.
Qed.

Section Handlers.

Variable utf8_decode : string -> option string.
Variable json_loads : string -> option pyval.

(** A message that is not the empty datagram, that decodes, and whose
    text has fewer than two semicolons (one or two parts) is decoded to the
    empty triplet, reaches no handler (the state is unchanged) and is
    answered [REP;deny;{}]. *)
Lemma malformed_message_denied (msg : message) (req : string)
    (now : float) (w : World) :
  msg <> Bytes "" ->
  decoded utf8_decode msg = Some req ->
  count_char ";" req < 2 ->
  parseIncomeMsg utf8_decode msg = Some ("", "", "{}")
  /\ msgHandler utf8_decode json_loads msg now w = (w, Some (Some deny)).
Proof.
  intros Hne Hdec Hc.
  assert (Hp : parseIncomeMsg utf8_decode msg = Some ("", "", "{}")).
  { unfold parseIncomeMsg. rewrite Hdec.
    destruct (str_split_short ";" req Hc) as [[a ->]|[a [b ->]]];
      reflexivity. }
  split; [exact Hp|].
  unfold msgHandler. rewrite Hp.
  destruct msg as [[|c b]|s]; [congruence| |]; reflexivity.
Qed.

(** C5. A message of fewer than three semicolon-delimited parts that
    decodes is decoded to the empty triplet, reaches no handler and is
    answered [REP;deny;{}].  But decoding can raise: [bytes] that are no
    UTF-8 are decoded before the [try] of [parseIncomeMsg] is entered, so
    that [parseIncomeMsg] raises and [msgHandler] with it; there is no
    triplet and no reply, and the state is as it was. *)
Theorem undecodable_message_raises :
  (forall msg req now w,
      msg <> Bytes "" ->
      decoded utf8_decode msg = Some req ->
      count_char ";" req < 2 ->
      parseIncomeMsg utf8_decode msg = Some ("", "", "{}")
      /\ msgHandler utf8_decode json_loads msg now w = (w, Some (Some deny)))
  /\ (forall b now w,
         b <> "" ->
         utf8_decode b = None ->
         parseIncomeMsg utf8_decode (Bytes b) = None
         /\ msgHandler utf8_decode json_loads (Bytes b) now w = (w, None)).
Proof.
  split.
  - intros msg req now w. apply malformed_message_denied.
  - intros b now w Hb Hd.
    assert (Hp : parseIncomeMsg utf8_decode (Bytes b) = None).
    { unfold parseIncomeMsg. simpl. now rewrite Hd. }
    split; [exact Hp|].
    unfold msgHandler. rewrite Hp. destruct b; [congruence | reflexivity].
Qed.

(** A text with two semicolons or more is cut at the first two: the
    third part keeps the other semicolons. *)
Lemma parseIncomeMsg_three_parts (msg : message) (req : string) :
  decoded utf8_decode msg = Some req ->
  2 <= count_char ";" req ->
  exists a b c,
    req = (a ++ String ";" (b ++ String ";" c))%string
    /\ count_char ";" a = 0 /\ count_char ";" b = 0
    /\ parseIncomeMsg utf8_decode msg = Some (strip a, strip b, c).
Proof.
  intros Hdec Hc. unfold parseIncomeMsg. rewrite Hdec.
  destruct (str_split_long ";" req Hc) as (a & b & c & -> & Hreq & Ha & Hb).
  exists a, b, c. auto.
Qed.

(** C8. A [POST;signals] request with the engine available: without
    junction avoidance the signal setter is called once for every
    key/value pair of the body, in order, and success is reported; with
    junction avoidance the state (the engine included) is unchanged and
    success is reported all the same. *)
Theorem signals_skipped_under_junction_avoidance (msg : message)
    (body : string) (reqDict : dict pyval) (now : float) (w : World)
    (m : MapMgr) :
  msg <> Bytes "" ->
  parseIncomeMsg utf8_decode msg = Some ("POST", "signals", body) ->
  json_loads body = Some (VDict reqDict) ->
  iMapMgr w = Some m ->
  exists w',
    msgHandler utf8_decode json_loads msg now w
    = (w', Some (Some (JsonReply "signals" success)))
    /\ setSignals json_loads body w = (w', success)
    /\ (gJuncAvoid w = false ->
        w' = set_iMapMgr
               (Some (mkMapMgr (sensorStates m) (dockStates m) (trains m)
                               (signalCalls m ++ reqDict)
                               (stationSignalCalls m) (trainsPowerCalls m)))
               w)
    /\ (gJuncAvoid w = true -> w' = w).
Proof.
  intros Hne Hp Hl Hm.
  exists (fst (setSignals json_loads body w)).
  assert (Hs : snd (setSignals json_loads body w) = success).
  { unfold setSignals. rewrite Hl, Hm. now destruct (gJuncAvoid w). }
  split; [|split; [|split]].
  - unfold msgHandler. rewrite Hp.
    destruct msg as [[|c b]|s]; [congruence| |]; simpl; now rewrite Hs.
  - rewrite <- Hs. now destruct (setSignals json_loads body w).
  - intros Hj. unfold setSignals. rewrite Hl, Hm, Hj. simpl.
    now rewrite forward_setSingals.
  - intros Hj. unfold setSignals. now rewrite Hl, Hm, Hj.
Qed.

(** ** The push path of the power link *)

Lemma msgHandler_powerLink (msg : message) (b : bool) (now : float)
    (w : World) :
  carries utf8_decode json_loads msg b ->
  msgHandler utf8_decode json_loads msg now w
  = (match _last_powerlink_railway w with
     | None => set_last_powerlink (Some b) (_applyRailwayPowerLink b w)
     | Some last =>
         if Bool.eqb b last then w
         else set_last_powerlink (Some b) (_applyRailwayPowerLink b w)
     end,
     Some (Some (JsonReply "powerLink" success))).
Proof.
  intros (Hne & body & d & Hp & Hd & Hb).
  assert (Hpush : pushPowerLink json_loads body w
                  = (match _last_powerlink_railway w with
                     | None => set_last_powerlink (Some b)
                                 (_applyRailwayPowerLink b w)
                     | Some last =>
                         if Bool.eqb b last then w
                         else set_last_powerlink (Some b)
                                (_applyRailwayPowerLink b w)
                     end, success)).
  { unfold pushPowerLink. rewrite Hd, Hb.
    destruct (_last_powerlink_railway w) as [last|]; [|reflexivity].
    now destruct (Bool.eqb b last). }
  unfold msgHandler. rewrite Hp.
  destruct msg as [[|c s]|s]; [congruence| |]; simpl; now rewrite Hpush.
Qed.

Lemma emgStopLog_applied (b : bool) (w : World) (m : MapMgr)
    (line : string) (ts : list Train) :
  iMapMgr w = Some m -> In line LINES ->
  dict_get line (trains m) = Some ts ->
  Forall (fun t => reachable t = true) ts ->
  emgStopLog line (_applyRailwayPowerLink b w)
  = map (fun t => emgStopCalls t ++ [negb b]) ts.
Proof.
  intros Hm Hin Hts Hall.
  destruct (applyRailwayPowerLink_line b w m line Hm Hin) as (m' & Hm' & Hl).
  unfold emgStopLog. rewrite Hm', Hl, Hts. simpl.
  rewrite setEmgStop_each_reachable by assumption.
  rewrite map_map. reflexivity.
Qed.

(** C4. Starting with no value applied yet, two [POST;powerLink]
    requests that carry the same railway value apply the fan-out once, on
    the first request: the second request leaves the whole state as it
    is, so that a train that can be reached has received exactly one
    [setEmgStop] call.  A request whose value differs from the value
    applied last applies the fan-out at once. *)
Theorem push_path_edge_triggered (m1 m2 m3 : message) (b : bool)
    (t1 t2 t3 : float) (w : World) :
  _last_powerlink_railway w = None ->
  carries utf8_decode json_loads m1 b ->
  carries utf8_decode json_loads m2 b ->
  carries utf8_decode json_loads m3 (negb b) ->
  let w1 := fst (msgHandler utf8_decode json_loads m1 t1 w) in
  let w2 := fst (msgHandler utf8_decode json_loads m2 t2 w1) in
  let w3 := fst (msgHandler utf8_decode json_loads m3 t3 w2) in
  w1 = set_last_powerlink (Some b) (_applyRailwayPowerLink b w)
  /\ w2 = w1
  /\ (forall m line ts,
         iMapMgr w = Some m -> In line LINES ->
         dict_get line (trains m) = Some ts ->
         Forall (fun t => reachable t = true) ts ->
         emgStopLog line w2 = map (fun t => emgStopCalls t ++ [negb b]) ts)
  /\ w3 = set_last_powerlink (Some (negb b))
            (_applyRailwayPowerLink (negb b) w2).
Proof.
  intros Hlast H1 H2 H3 w1 w2 w3.
  assert (E1 : w1 = set_last_powerlink (Some b) (_applyRailwayPowerLink b w)).
  { unfold w1. rewrite (msgHandler_powerLink m1 b t1 w H1), Hlast.
    reflexivity. }
  assert (E2 : w2 = w1).
  { unfold w2. rewrite (msgHandler_powerLink m2 b t2 w1 H2), E1. simpl.
    now rewrite Bool.eqb_reflx. }
  split; [exact E1|]. split; [exact E2|]. split.
  - intros m line ts Hm Hin Hts Hall. rewrite E2, E1.
    now apply emgStopLog_applied with (m := m).
  - unfold w3. rewrite (msgHandler_powerLink m3 (negb b) t3 w2 H3).
    rewrite E2, E1. simpl. now destruct b.
Qed.

(** ** Fetching without the engine *)

Lemma fillRequest_spec (guard tbl : dict snapshot) :
  (forall k, dict_has k guard = true -> exists s, dict_get k tbl = Some s) ->
  forall (keys : list string) (reqDict : dict pyval),
    incl keys (dict_keys reqDict) ->
    exists d,
      fillRequest guard tbl keys reqDict = Some d
      /\ dict_keys d = dict_keys reqDict
      /\ forall k,
          dict_get k d
          = if existsb (String.eqb k) keys && dict_has k guard
            then option_map snap_val (dict_get k tbl)
            else dict_get k reqDict.
Proof.
  intros Hg keys. induction keys as [|key rest IH]; intros reqDict Hincl.
  - exists reqDict. simpl. auto.
  - assert (Hkey : In key (dict_keys reqDict)) by (apply Hincl; now left).
    assert (Hrest : incl rest (dict_keys reqDict)).
    { intros x Hx. apply Hincl. now right. }
    simpl. destruct (dict_has key guard) eqn:Eg.
    + destruct (Hg key Eg) as [s Hs]. rewrite Hs.
      destruct (IH (dict_set key (snap_val s) reqDict)) as (d & Hd & Hk & Hv).
      { now rewrite dict_keys_set. }
      exists d. split; [exact Hd|]. split.
      { now rewrite Hk, dict_keys_set. }
      intros k. rewrite Hv. destruct (k =? key) eqn:E.
      * apply String.eqb_eq in E. subst k. rewrite Eg. simpl.
        rewrite andb_true_r.
        destruct (existsb (String.eqb key) rest).
        -- reflexivity.
        -- rewrite dict_get_set_eq, Hs. reflexivity.
      * simpl. apply String.eqb_neq in E.
        rewrite dict_get_set_ne by congruence. reflexivity.
    + destruct (IH reqDict Hrest) as (d & Hd & Hk & Hv).
      exists d. split; [exact Hd|]. split; [exact Hk|].
      intros k. rewrite Hv. destruct (k =? key) eqn:E; [|reflexivity].
      apply String.eqb_eq in E. subst k. rewrite Eg. simpl.
      now rewrite andb_false_r.
Qed.

Lemma existsb_eqb_In (k : string) (keys : list string) :
  In k keys -> existsb (String.eqb k) keys = true.
Proof.
  intros H. apply existsb_exists. exists k. split; [exact H|].
  apply String.eqb_refl.
Qed.

Lemma fetchReply_cached (guard tbl : dict snapshot) (reqDict : dict pyval) :
  dict_keys guard = dict_keys tbl ->
  cached_reply tbl reqDict (fetchReply guard tbl (VDict reqDict)).
Proof.
  intros Hk.
  assert (Hhas : forall k, dict_has k guard = true
                           <-> exists s, dict_get k tbl = Some s).
  { intros k. rewrite <- dict_get_in_keys, <- Hk, dict_get_in_keys.
    unfold dict_has. destruct (dict_get k guard); split; eauto;
      try discriminate. intros [s Hs]. discriminate. }
  destruct (fillRequest_spec guard tbl (fun k H => proj1 (Hhas k) H)
              (dict_keys reqDict) reqDict (incl_refl _))
    as (d & Hd & Hkeys & Hv).
  unfold fetchReply. rewrite Hd. exists d. split; [reflexivity|].
  split; [exact Hkeys|].
  intros key Hin. rewrite Hv, existsb_eqb_In by assumption. simpl.
  destruct (dict_get key tbl) as [s|] eqn:E.
  - rewrite (proj2 (Hhas key)) by eauto. reflexivity.
  - destruct (dict_has key guard) eqn:Eh; [|reflexivity].
    apply Hhas in Eh. destruct Eh as [s Hs]. congruence.
Qed.

(** C3, as amended.  With the engine unavailable, a fetch on any of the
    four channels leaves every snapshot table unchanged and returns, for
    each requested line key, the value cached before (possibly [None]);
    but it is not a no-op: the time stamp of the channel is set to the
    current time, and nothing else changes. *)
Theorem fetch_without_engine (body : string) (reqDict : dict pyval)
    (now : float) (w : World) :
  iMapMgr w = None ->
  tables_ok w ->
  json_loads body = Some (VDict reqDict) ->
  (fst (fetchSensorInfo json_loads body now w) = set_sensorPlcUpdateT now w
   /\ cached_reply (sensorsDict w) reqDict
        (snd (fetchSensorInfo json_loads body now w)))
  /\ (fst (fetchStationInfo json_loads body now w)
      = set_stationPlcUpdateT now w
      /\ cached_reply (stationsDict w) reqDict
           (snd (fetchStationInfo json_loads body now w)))
  /\ (fst (fetchTrainPwrInfo json_loads body now w)
      = set_trainPlcUpdateT now w
      /\ cached_reply (trainsDict w) reqDict
           (snd (fetchTrainPwrInfo json_loads body now w)))
  /\ (fst (fetchTrainSensInfo json_loads body now w)
      = set_trainRtuUpdateT now w
      /\ cached_reply (trainsRtuDict w) reqDict
           (snd (fetchTrainSensInfo json_loads body now w))).
Proof.
  intros Hm (Hs & Hst & Ht & Hr) Hl.
  unfold fetchSensorInfo, fetchStationInfo, fetchTrainPwrInfo,
    fetchTrainSensInfo, updateSensorsData, updateStationsData,
    updateTrainsPwrData, updateTrainsSenData.
  rewrite Hl. simpl. rewrite Hm. simpl.
  repeat split; try (apply fetchReply_cached; congruence).
Qed.

(** ** The keys of the snapshot tables *)

Lemma bind_inv {A B} (P : World -> Prop) (m : M A) (f : A -> M B)
    (w : World) :
  P (fst (m w)) ->
  (forall a w', P w' -> P (fst (f a w'))) ->
  P (fst (bind m f w)).
Proof.
  intros Hm Hf. unfold bind. destruct (m w) as [w' [a|]]; simpl in *; auto.
Qed.

Lemma for_each_inv {A} (P : World -> Prop) (Q : A -> Prop)
    (body : A -> M unit) (l : list A) :
  (forall x w, Q x -> P w -> P (fst (body x w))) ->
  Forall Q l ->
  forall w, P w -> P (fst (for_each body l w)).
Proof.
  intros Hbody. induction 1 as [|x l Hx _ IH]; intros w Hw; simpl.
  - exact Hw.
  - apply bind_inv; auto.
Qed.

Lemma LINES_all : Forall (fun k => In k LINES) LINES.
Proof. apply Forall_forall. auto. Qed.

Lemma dict_keys_set_LINES {V} (key : string) (v : V) (d : dict V) :
  In key LINES -> dict_keys d = LINES ->
  dict_keys (dict_set key v d) = LINES.
Proof.
  intros Hin Hk. rewrite dict_keys_set; [exact Hk|]. now rewrite Hk.
Qed.

Ltac tables :=
  unfold tables_ok in *;
  repeat match goal with
         | H : _ /\ _ |- _ => destruct H
         end;
  simpl; repeat split;
  repeat (apply dict_keys_set_LINES); auto.

Lemma priorityStep_ok (i : nat) (w : World) :
  tables_ok w -> tables_ok (fst (priorityStep i w)).
Proof.
  intros Hw. unfold priorityStep.
  destruct (dict_get "ccline" (sensorsDict w)) as [[cc|]|] eqn:E;
    simpl; auto.
  destruct (cc !! i); simpl; auto.
  destruct (priorityConfig !! i) as [[[key idxs]|]|]; simpl; auto.
  destruct (overWriteFlg (sensorsDict w) key idxs (VBool false));
    simpl; auto.
  destruct (truthy _); simpl; auto.
  assert (In "ccline" LINES) by (simpl; auto).
  tables.
Qed.

Lemma updateSensorPriority_ok (w : World) :
  tables_ok w -> tables_ok (fst (_updateSensorPriority w)).
Proof.
  intros Hw. unfold _updateSensorPriority.
  destruct (dict_get "ccline" (sensorsDict w)) as [[[|x cc]|]|];
    try exact Hw.
  apply for_each_inv with (P := tables_ok) (Q := fun _ => True); auto.
  - intros i w' _. apply priorityStep_ok.
  - apply Forall_forall. auto.
Qed.

Lemma updateSensorsData_ok (w : World) :
  tables_ok w -> tables_ok (fst (updateSensorsData w)).
Proof.
  intros Hw. unfold updateSensorsData.
  destruct (iMapMgr w) as [m|]; [|exact Hw].
  apply bind_inv.
  - apply for_each_inv with (P := tables_ok) (Q := fun k => In k LINES);
    auto.
    + intros key w' Hk Hw'.
      destruct (dict_get key (sensorStates m)); simpl; auto. tables.
    + destruct Hw as [-> _]. apply LINES_all.
  - intros _ w' Hw'. destruct (gTestMD w'); [exact Hw'|].
    now apply updateSensorPriority_ok.
Qed.

Lemma updateStationsData_ok (w : World) :
  tables_ok w -> tables_ok (fst (updateStationsData w)).
Proof.
  intros Hw. unfold updateStationsData.
  destruct (iMapMgr w) as [m|]; [|exact Hw].
  apply for_each_inv with (P := tables_ok) (Q := fun k => In k LINES);
    auto.
  - intros key w' Hk Hw'.
    destruct (dict_get key (dockStates m)); simpl; tables.
  - destruct Hw as (_ & -> & _). apply LINES_all.
Qed.

Lemma updateTrainsPwrData_ok (w : World) :
  tables_ok w -> tables_ok (fst (updateTrainsPwrData w)).
Proof.
  intros Hw. unfold updateTrainsPwrData.
  destruct (iMapMgr w) as [m|]; [|exact Hw].
  apply for_each_inv with (P := tables_ok) (Q := fun k => In k LINES);
    auto.
  - intros key w' Hk Hw'.
    destruct (dict_get key (trains m)); simpl; tables.
  - destruct Hw as (_ & _ & -> & _). apply LINES_all.
Qed.

Lemma updateTrainsSenData_ok (w : World) :
  tables_ok w -> tables_ok (fst (updateTrainsSenData w)).
Proof.
  intros Hw. unfold updateTrainsSenData.
  destruct (iMapMgr w) as [m|]; [|exact Hw].
  apply for_each_inv with (P := tables_ok) (Q := fun k => In k LINES);
    auto.
  - intros key w' Hk Hw'.
    destruct (dict_get key (trains m)) as [ts|]; simpl; [|tables].
    destruct (trainRows ts). simpl. tables.
  - destruct Hw as (_ & _ & _ & ->). apply LINES_all.
Qed.

Lemma applyRailwayPowerLink_ok (b : bool) (w : World) :
  tables_ok w -> tables_ok (_applyRailwayPowerLink b w).
Proof.
  intros Hw. unfold _applyRailwayPowerLink.
  destruct (iMapMgr w); [|exact Hw]. tables.
Qed.

Lemma fetchSensorInfo_ok (body : string) (now : float) (w : World) :
  tables_ok w -> tables_ok (fst (fetchSensorInfo json_loads body now w)).
Proof.
  intros Hw. unfold fetchSensorInfo.
  destruct (json_loads body); [|exact Hw].
  assert (H : tables_ok (fst (updateSensorsData (set_sensorPlcUpdateT now w)))).
  { apply updateSensorsData_ok. tables. }
  destruct (updateSensorsData _) as [w' [u|]]; exact H.
Qed.

Lemma fetchStationInfo_ok (body : string) (now : float) (w : World) :
  tables_ok w -> tables_ok (fst (fetchStationInfo json_loads body now w)).
Proof.
  intros Hw. unfold fetchStationInfo.
  destruct (json_loads body); [|exact Hw].
  assert (H : tables_ok
                (fst (updateStationsData (set_stationPlcUpdateT now w)))).
  { apply updateStationsData_ok. tables. }
  destruct (updateStationsData _) as [w' [u|]]; exact H.
Qed.

Lemma fetchTrainPwrInfo_ok (body : string) (now : float) (w : World) :
  tables_ok w -> tables_ok (fst (fetchTrainPwrInfo json_loads body now w)).
Proof.
  intros Hw. unfold fetchTrainPwrInfo.
  destruct (json_loads body); [|exact Hw].
  assert (H : tables_ok
                (fst (updateTrainsPwrData (set_trainPlcUpdateT now w)))).
  { apply updateTrainsPwrData_ok. tables. }
  destruct (updateTrainsPwrData _) as [w' [u|]]; exact H.
Qed.

Lemma fetchTrainSensInfo_ok (body : string) (now : float) (w : World) :
  tables_ok w -> tables_ok (fst (fetchTrainSensInfo json_loads body now w)).
Proof.
  intros Hw. unfold fetchTrainSensInfo.
  destruct (json_loads body); [|exact Hw].
  assert (H : tables_ok
                (fst (updateTrainsSenData (set_trainRtuUpdateT now w)))).
  { apply updateTrainsSenData_ok. tables. }
  destruct (updateTrainsSenData _) as [w' [u|]]; exact H.
Qed.

Lemma setSignals_ok (body : string) (w : World) :
  tables_ok w -> tables_ok (fst (setSignals json_loads body w)).
Proof.
  intros Hw. unfold setSignals.
  destruct (json_loads body) as [[]|]; destruct (iMapMgr w);
    destruct (gJuncAvoid w); simpl; auto; tables.
Qed.

Lemma setStationSignals_ok (body : string) (w : World) :
  tables_ok w -> tables_ok (fst (setStationSignals json_loads body w)).
Proof.
  intros Hw. unfold setStationSignals.
  destruct (json_loads body) as [[]|]; destruct (iMapMgr w);
    simpl; auto; tables.
Qed.

Lemma setTrainsPower_ok (body : string) (w : World) :
  tables_ok w -> tables_ok (fst (setTrainsPower json_loads body w)).
Proof.
  intros Hw. unfold setTrainsPower.
  destruct (json_loads body) as [[]|]; destruct (iMapMgr w);
    simpl; auto; tables.
Qed.

Lemma pushPowerLink_ok (body : string) (w : World) :
  tables_ok w -> tables_ok (fst (pushPowerLink json_loads body w)).
Proof.
  intros Hw. unfold pushPowerLink.
  destruct (if body =? "" then _ else _) as [d|]; [|exact Hw].
  destruct (railway_of d) as [b|]; [|exact Hw].
  pose proof (applyRailwayPowerLink_ok b w Hw) as Ha.
  destruct (_last_powerlink_railway w) as [last|]; simpl.
  - destruct (Bool.eqb b last); simpl; auto.
  - exact Ha.
Qed.

Lemma msgHandler_ok (msg : message) (now : float) (w : World) :
  tables_ok w ->
  tables_ok (fst (msgHandler utf8_decode json_loads msg now w)).
Proof.
  intros Hw. unfold msgHandler.
  assert (H : forall k t j,
             tables_ok
               (fst (let answer (reqType' : string) (r : World * pyval) :=
                       (fst r, Some (Some (JsonReply reqType' (snd r)))) in
                     if k =? "GET" then
                       if t =? "login" then
                         (w, Some (Some (JsonReply "login"
                                           (VDict [("state", VStr "ready")]))))
                       else if t =? "sensors" then
                         answer "sensors" (fetchSensorInfo json_loads j now w)
                       else if t =? "stations" then
                         answer "stations"
                                (fetchStationInfo json_loads j now w)
                       else if t =? "trainsPlc" then
                         answer "trainsPlc"
                                (fetchTrainPwrInfo json_loads j now w)
                       else if t =? "trainsRtu" then
                         answer "trainsRtu"
                                (fetchTrainSensInfo json_loads j now w)
                       else (w, Some (Some deny))
                     else if k =? "POST" then
                       if t =? "signals" then
                         answer "signals" (setSignals json_loads j w)
                       else if t =? "stations" then
                         answer "stations" (setStationSignals json_loads j w)
                       else if t =? "trainsPlc" then
                         answer "trainsPlc" (setTrainsPower json_loads j w)
                       else if t =? "powerLink" then
                         answer "powerLink" (pushPowerLink json_loads j w)
                       else (w, Some (Some deny))
                     else (w, Some (Some deny))))).
  { intros k t j. cbv zeta.
    repeat match goal with
           | |- context [if ?c then _ else _] => destruct c
           end; simpl; auto using fetchSensorInfo_ok, fetchStationInfo_ok,
      fetchTrainPwrInfo_ok, fetchTrainSensInfo_ok, setSignals_ok,
      setStationSignals_ok, setTrainsPower_ok, pushPowerLink_ok. }
  destruct msg as [[|c b]|s];
    [exact Hw| |];
    (destruct (parseIncomeMsg utf8_decode _) as [[[k t] j]|];
     [apply H | exact Hw]).
Qed.

Lemma watcher_iter_ok (self : Watcher) (resp : option string) (w : World) :
  tables_ok w ->
  tables_ok (snd (watcher_iter utf8_decode json_loads resp (self, w))).
Proof.
  intros Hw. unfold watcher_iter.
  destruct (poll_reading utf8_decode json_loads resp) as [[|]|];
    simpl; auto.
  destruct (seen_true self); simpl; auto.
  destruct (3 <=? false_count self + 1)%Z; simpl; auto.
  now apply applyRailwayPowerLink_ok.
Qed.

Lemma step_ok (o : op) (w : World) :
  tables_ok w -> tables_ok (step utf8_decode json_loads o w).
Proof.
  intros Hw.
  destruct o; simpl;
    auto using fetchSensorInfo_ok, fetchStationInfo_ok,
      fetchTrainPwrInfo_ok, fetchTrainSensInfo_ok, updateSensorsData_ok,
      updateStationsData_ok, updateTrainsPwrData_ok, updateTrainsSenData_ok,
      setSignals_ok, setStationSignals_ok, setTrainsPower_ok, msgHandler_ok,
      watcher_iter_ok.
Qed.

(** C10. After initialisation, and after any sequence of fetch, update
    and set calls, handled requests, watcher iterations and changes of the
    engine, each of the four snapshot tables has exactly the keys weline,
    nsline, ccline, mtline. *)
Theorem tables_keep_line_keys (mm : option MapMgr) (juncAvoid testMD : bool)
    (plcTimeout : float) (ops : list op) :
  let w := steps utf8_decode json_loads ops
                 (init mm juncAvoid testMD plcTimeout) in
  dict_keys (sensorsDict w) = ["weline"; "nsline"; "ccline"; "mtline"]
  /\ dict_keys (stationsDict w) = ["weline"; "nsline"; "ccline"; "mtline"]
  /\ dict_keys (trainsDict w) = ["weline"; "nsline"; "ccline"; "mtline"]
  /\ dict_keys (trainsRtuDict w) = ["weline"; "nsline"; "ccline"; "mtline"].
Proof.
  assert (H : forall w, tables_ok w ->
                        tables_ok (steps utf8_decode json_loads ops w)).
  { unfold steps. induction ops as [|o ops IH]; intros w Hw; simpl; auto.
    apply IH. now apply step_ok. }
  apply (H (init mm juncAvoid testMD plcTimeout)).
  repeat split.
Qed.

End Handlers.

(** ** The sensor priority resolver *)

Lemma truthy_py_or (a b : pyval) : truthy (py_or a b) = truthy a || truthy b.
Proof. unfold py_or. destruct (truthy a) eqn:E; simpl; auto. Qed.

Lemma truthy_py_and (a b : pyval) :
  truthy (py_and a b) = truthy a && truthy b.
Proof. unfold py_and. destruct (truthy a) eqn:E; simpl; auto. Qed.

Lemma overWriteFlg_truthy (tbl : dict snapshot) (key : string)
    (other : list pyval) (idxs : list nat) :
  dict_get key tbl = Some (Some other) ->
  forall flg, exists flg',
    overWriteFlg tbl key idxs flg = Some flg'
    /\ truthy flg'
       = truthy flg
         || existsb (fun j => match other !! j with
                              | Some x => truthy x
                              | None => false
                              end) idxs.
Proof.
  intros Hk. induction idxs as [|j idxs IH]; intros flg; simpl.
  - exists flg. now rewrite orb_false_r.
  - rewrite Hk.
    destruct (IH (match other !! j with
                  | Some x => py_or flg x
                  | None => flg
                  end)) as (flg' & Ho & Ht).
    exists flg'. split; [exact Ho|]. rewrite Ht.
    destruct (other !! j) as [x|].
    + now rewrite truthy_py_or, orb_assoc.
    + reflexivity.
Qed.

Lemma priorityConfig_keys (i : nat) (key : string) (idxs : list nat) :
  priorityConfig !! i = Some (Some (key, idxs)) ->
  key = "nsline" \/ key = "weline".
Proof.
  do 16 (destruct i as [|i];
         [simpl; intros H; inversion H; auto|]).
  discriminate.
Qed.

Lemma rule_fires_beyond (m : MapMgr) (i : nat) :
  16 <= i -> rule_fires m i = false.
Proof.
  intros Hi. unfold rule_fires.
  rewrite (proj2 (lookup_ge_None priorityConfig i)); [reflexivity|].
  simpl. lia.
Qed.

Lemma dict_keys_LINES {V} (d : dict V) :
  dict_keys d = LINES ->
  exists a b c e,
    d = [("weline", a); ("nsline", b); ("ccline", c); ("mtline", e)].
Proof.
  destruct d as [|[k1 a] [|[k2 b] [|[k3 c] [|[k4 e] [|]]]]]; try discriminate.
  simpl. intros H. inversion H. subst. eauto.
Qed.

Section Resolver.

Variables (w : World) (m : MapMgr) (we ns cc mt : list pyval).
Hypothesis Hwe : dict_get "weline" (sensorStates m) = Some we.
Hypothesis Hns : dict_get "nsline" (sensorStates m) = Some ns.

(** One step of the resolver on the table of the four arrays. *)
Lemma priorityStep_table (cur : list pyval) (i : nat) (val : pyval) :
  cur !! i = Some val ->
  priorityStep i (set_sensorsDict (table4 we ns cur mt) w)
  = (set_sensorsDict
       (table4 we ns (if truthy val && rule_fires m i
                      then <[i := VInt 0]> cur else cur) mt) w,
     Some tt).
Proof.
  intros Hval. unfold priorityStep, rule_fires. simpl dict_get.
  cbv beta iota. rewrite Hval.
  destruct (priorityConfig !! i) as [[[key idxs]|]|] eqn:Ep;
    try (now rewrite andb_false_r).
  assert (Hother : exists other,
             dict_get key (table4 we ns cur mt) = Some (Some other)
             /\ dict_get key (sensorStates m) = Some other).
  { destruct (priorityConfig_keys _ _ _ Ep) as [-> | ->].
    - exists ns. auto.
    - exists we. auto. }
  destruct Hother as (other & Ht & Hm).
  destruct (overWriteFlg_truthy _ key other idxs Ht (VBool false))
    as (flg & Ho & Hf).
  cbn [sensorsDict set_sensorsDict]. rewrite Ho, Hm.
  rewrite truthy_py_and, Hf. simpl orb.
  destruct (truthy val && existsb _ idxs); reflexivity.
Qed.

(** The loop of the resolver from index [k] on. *)
Lemma priority_loop (n : nat) :
  forall (k : nat) (cur : list pyval),
    k + n = length cc ->
    length cur = length cc ->
    (forall i, i < k -> cur !! i = resolved m i <$> cc !! i) ->
    (forall i, k <= i -> cur !! i = cc !! i) ->
    exists cur',
      for_each priorityStep (seq k n)
               (set_sensorsDict (table4 we ns cur mt) w)
      = (set_sensorsDict (table4 we ns cur' mt) w, Some tt)
      /\ length cur' = length cc
      /\ forall i, cur' !! i = resolved m i <$> cc !! i.
Proof.
  induction n as [|n IH]; intros k cur Hk Hlen Hlo Hhi.
  - exists cur. split; [reflexivity|]. split; [exact Hlen|].
    intros i. destruct (Nat.lt_ge_cases i k) as [Hi|Hi]; [now apply Hlo|].
    rewrite Hhi by exact Hi.
    rewrite (proj2 (lookup_ge_None cc i)) by lia. reflexivity.
  - assert (Hklt : k < length cc) by lia.
    destruct (lookup_lt_is_Some_2 cc k Hklt) as [val Hval].
    assert (Hcur : cur !! k = Some val) by (rewrite Hhi; auto).
    simpl for_each. unfold bind at 1.
    rewrite (priorityStep_table cur k val Hcur).
    set (cur1 := if truthy val && rule_fires m k
                 then <[k := VInt 0]> cur else cur).
    destruct (IH (S k) cur1) as (cur' & Hrun & Hlen' & Hall).
    + lia.
    + unfold cur1. destruct (truthy val && rule_fires m k);
        [now rewrite length_insert | exact Hlen].
    + intros i Hi. destruct (Nat.eq_dec i k) as [->|Hne].
      * rewrite Hval. simpl. unfold resolved, cur1.
        destruct (truthy val && rule_fires m k).
        -- apply list_lookup_insert_eq. lia.
        -- exact Hcur.
      * assert (cur1 !! i = cur !! i) as ->.
        { unfold cur1. destruct (truthy val && rule_fires m k);
            [now apply list_lookup_insert_ne | reflexivity]. }
        apply Hlo. lia.
    + intros i Hi.
      assert (cur1 !! i = cur !! i) as ->.
      { unfold cur1. destruct (truthy val && rule_fires m k);
          [apply list_lookup_insert_ne; lia | reflexivity]. }
      apply Hhi. lia.
    + exists cur'. auto.
Qed.

End Resolver.

(** The refresh and the resolver together, in closed form. *)
Lemma updateSensorsData_resolved (w : World) (m : MapMgr)
    (we ns cc mt : list pyval) :
  iMapMgr w = Some m ->
  gTestMD w = false ->
  dict_keys (sensorsDict w) = LINES ->
  dict_get "weline" (sensorStates m) = Some we ->
  dict_get "nsline" (sensorStates m) = Some ns ->
  dict_get "ccline" (sensorStates m) = Some cc ->
  dict_get "mtline" (sensorStates m) = Some mt ->
  updateSensorsData w
  = (set_sensorsDict (table4 we ns (imap (resolved m) cc) mt) w, Some tt).
Proof.
  intros Hm Ht Hk Hwe Hns Hcc Hmt.
  destruct (dict_keys_LINES _ Hk) as (a & b & c & e & Hd).
  unfold updateSensorsData. rewrite Hm, Hk.
  assert (Hrefresh :
            for_each
              (fun key w' =>
                 match dict_get key (sensorStates m) with
                 | Some st =>
                     (set_sensorsDict
                        (dict_set key (Some st) (sensorsDict w')) w', Some tt)
                 | None => (w', None)
                 end) LINES w
            = (set_sensorsDict (table4 we ns cc mt) w, Some tt)).
  { unfold LINES. simpl for_each. unfold bind, ret.
    rewrite Hwe. cbn [sensorsDict set_sensorsDict]. rewrite Hns.
    cbn [sensorsDict set_sensorsDict]. rewrite Hcc.
    cbn [sensorsDict set_sensorsDict]. rewrite Hmt.
    cbn [sensorsDict set_sensorsDict]. rewrite Hd. reflexivity. }
  unfold bind at 1. rewrite Hrefresh.
  cbn [gTestMD set_sensorsDict]. rewrite Ht.
  unfold _updateSensorPriority. simpl dict_get. cbv beta iota.
  destruct cc as [|x cc0]; [reflexivity|].
  destruct (priority_loop w m we ns (x :: cc0) mt Hwe Hns
              (length (x :: cc0)) 0 (x :: cc0))
    as (cur' & Hrun & Hlen & Hall); auto; try lia.
  rewrite Hrun. do 3 f_equal.
  apply list_eq. intros i. rewrite Hall. symmetry. apply list_lookup_imap.
Qed.

(** C6. Outside the test mode, [updateSensorsData] refreshes the four
    sensor arrays from the engine and then runs the resolver on the
    cc-line array: the array keeps its length; at every index whose value
    is true and whose rule has a listed index that is in bounds and true
    in the array of the line the rule names, the value becomes 0; at every
    other index, and at every index from 16 on, the value is the one the
    engine reported.  [fetchSensorInfo] returns the array so resolved. *)
Theorem priority_resolver_clears (w : World) (m : MapMgr)
    (we ns cc mt : list pyval) :
  iMapMgr w = Some m ->
  gTestMD w = false ->
  dict_keys (sensorsDict w) = LINES ->
  dict_get "weline" (sensorStates m) = Some we ->
  dict_get "nsline" (sensorStates m) = Some ns ->
  dict_get "ccline" (sensorStates m) = Some cc ->
  dict_get "mtline" (sensorStates m) = Some mt ->
  exists cc',
    updateSensorsData w = (set_sensorsDict (table4 we ns cc' mt) w, Some tt)
    /\ length cc' = length cc
    /\ (forall i val,
           cc !! i = Some val ->
           cc' !! i = Some (if truthy val && rule_fires m i
                            then VInt 0 else val))
    /\ (forall i, 16 <= i -> cc' !! i = cc !! i)
    /\ (forall json_loads body reqDict now,
           json_loads body = Some (VDict reqDict) ->
           In "ccline" (dict_keys reqDict) ->
           exists d,
             snd (fetchSensorInfo json_loads body now w) = VDict d
             /\ dict_get "ccline" d = Some (VList cc')).
Proof.
  intros Hm Ht Hk Hwe Hns Hcc Hmt.
  exists (imap (resolved m) cc).
  split; [now apply updateSensorsData_resolved|].
  split; [apply length_imap|].
  split; [|split].
  - intros i val Hval. rewrite list_lookup_imap, Hval. reflexivity.
  - intros i Hi. rewrite list_lookup_imap.
    destruct (cc !! i) as [val|]; [|reflexivity]. simpl.
    unfold resolved. now rewrite rule_fires_beyond, andb_false_r.
  - intros json_loads body reqDict now Hl Hin.
    unfold fetchSensorInfo. rewrite Hl.
    rewrite (updateSensorsData_resolved (set_sensorPlcUpdateT now w) m
               we ns cc mt) by assumption.
    cbn [snd sensorsDict set_sensorsDict].
    destruct (fetchReply_cached (table4 we ns (imap (resolved m) cc) mt)
                (table4 we ns (imap (resolved m) cc) mt) reqDict eq_refl)
      as (d & Hd & _ & Hv).
    exists d. split; [exact Hd|]. now rewrite Hv.
Qed.

(** ** The metro totals *)

(** C7. For the line of the specification's example (currents 2.0 and
    3.0, voltages 10.0 and None) the record has total current 5.0, bus
    voltage 10.0 and train count 2, and a missing or None current counts as
    0.  But a current that [float] cannot convert is not treated as 0: the
    conversion raises outside any [try], the line has no record and the
    whole aggregate is lost. *)
Theorem unparseable_current_aborts (float_of_str : string -> option float) :
  lineTotals float_of_str 7000 engine_ok "weline"
  = Some (mkPayload 7000 "weline" (float_of_Z 10) (float_of_Z 5) 2)
  /\ trainTotals float_of_str
       [mkTrain true [] 1 (VDict [("voltage", fl 10)]);
        mkTrain true [] 1 (VDict [("current", VNone)]);
        mkTrain true [] 1 VNone] fzero []
     = Some (fzero, [float_of_Z 10])
  /\ (float_of_str "n/a" = None ->
      lineTotals float_of_str 7000 engine_bad_current "weline" = None
      /\ _collectMetroTotalsPayloads float_of_str (float_of_Z 7)
           (world_of (Some engine_bad_current)) = None).
Proof.
  split; [vm_compute; reflexivity|].
  split; [vm_compute; reflexivity|].
  intros H.
  assert (Hl : lineTotals float_of_str 7000 engine_bad_current "weline" = None).
  { unfold lineTotals, engine_bad_current, engine, train, info. simpl.
    now rewrite H. }
  split; [exact Hl|].
  unfold _collectMetroTotalsPayloads, world_of, init. simpl iMapMgr. cbv iota.
  replace (int_of_float (fmul (float_of_Z 7) (float_of_Z 1000)))
    with (Some 7000%Z) by (vm_compute; reflexivity).
  unfold LINES, collectLines. now rewrite Hl.
Qed.

(** ** Instances on the example states *)

Lemma liveness_strict_witness :
  In ("sensors", (float_of_Z 2, false))
     (getLastPlcsConnectionState (float_of_Z 5) world_stamped
      ++ getLastRtusConnectionState (float_of_Z 5) world_stamped)
  /\ ((false = true
       <-> SFcompare (fsub (float_of_Z 5) (float_of_Z 2))
                     (gPlcTimeout world_stamped) = Some Lt)
      /\ (SFcompare (fsub (float_of_Z 5) (float_of_Z 2))
                    (gPlcTimeout world_stamped) = Some Eq -> false = false)).
Proof.
  assert (H : In ("sensors", (float_of_Z 2, false))
                 (getLastPlcsConnectionState (float_of_Z 5) world_stamped
                  ++ getLastRtusConnectionState (float_of_Z 5) world_stamped)).
  { left. vm_compute. reflexivity. }
  split; [exact H|].
  exact (proj1 (liveness_strict (float_of_Z 5) world_stamped)
               "sensors" (float_of_Z 2) false H).
Defined.

Lemma fetch_without_engine_witness :
  iMapMgr (world_of None) = None
  /\ tables_ok (world_of None)
  /\ table_loads body_lines
     = Some (VDict [("weline", VNone); ("other", VInt 7)])
  /\ fst (fetchSensorInfo table_loads body_lines (float_of_Z 5) (world_of None))
     = set_sensorPlcUpdateT (float_of_Z 5) (world_of None)
  /\ cached_reply (sensorsDict (world_of None))
       [("weline", VNone); ("other", VInt 7)]
       (snd (fetchSensorInfo table_loads body_lines (float_of_Z 5)
               (world_of None))).
Proof.
  assert (H1 : iMapMgr (world_of None) = None) by reflexivity.
  assert (H2 : tables_ok (world_of None)) by (repeat split).
  assert (H3 : table_loads body_lines
               = Some (VDict [("weline", VNone); ("other", VInt 7)]))
    by (vm_compute; reflexivity).
  split; [exact H1|]. split; [exact H2|]. split; [exact H3|].
  exact (proj1 (fetch_without_engine table_loads body_lines
                  [("weline", VNone); ("other", VInt 7)] (float_of_Z 5)
                  (world_of None) H1 H2 H3)).
Defined.

(** C3, as stated, fails: without the engine a fetch still moves the time
    stamp of its channel, here from 0 to the current time 5. *)
Lemma fetch_without_engine_stamps :
  iMapMgr (world_of None) = None
  /\ sensorPlcUpdateT (world_of None) = fzero
  /\ sensorPlcUpdateT
       (fst (fetchSensorInfo table_loads body_lines (float_of_Z 5)
               (world_of None)))
     = float_of_Z 5
  /\ sensorPlcUpdateT
       (fst (fetchSensorInfo table_loads body_lines (float_of_Z 5)
               (world_of None)))
     <> sensorPlcUpdateT (world_of None).
Proof.
  repeat split; try (vm_compute; reflexivity).
  vm_compute. discriminate.
Qed.

Lemma carries_railway0 :
  carries ascii_decode table_loads (Bytes ("POST;powerLink;" ++ body_railway0))
          false.
Proof.
  split; [discriminate|].
  exists body_railway0, (VDict [("railway", VInt 0)]).
  repeat split; vm_compute; reflexivity.
Defined.

Lemma carries_railway1 :
  carries ascii_decode table_loads (Bytes ("POST;powerLink;" ++ body_railway1))
          true.
Proof.
  split; [discriminate|].
  exists body_railway1, (VDict [("railway", VInt 1)]).
  repeat split; vm_compute; reflexivity.
Defined.

Lemma push_path_edge_triggered_witness :
  let handle := msgHandler ascii_decode table_loads in
  let stop := Bytes ("POST;powerLink;" ++ body_railway0) in
  let release := Bytes ("POST;powerLink;" ++ body_railway1) in
  let w := world_of (Some engine_ok) in
  let w1 := fst (handle stop (float_of_Z 1) w) in
  let w2 := fst (handle stop (float_of_Z 2) w1) in
  let w3 := fst (handle release (float_of_Z 3) w2) in
  _last_powerlink_railway w = None
  /\ w1 = set_last_powerlink (Some false) (_applyRailwayPowerLink false w)
  /\ w2 = w1
  /\ w3 = set_last_powerlink (Some true) (_applyRailwayPowerLink true w2).
Proof.
  pose proof (push_path_edge_triggered ascii_decode table_loads
                (Bytes ("POST;powerLink;" ++ body_railway0))
                (Bytes ("POST;powerLink;" ++ body_railway0))
                (Bytes ("POST;powerLink;" ++ body_railway1))
                false (float_of_Z 1) (float_of_Z 2) (float_of_Z 3)
                (world_of (Some engine_ok)) eq_refl
                carries_railway0 carries_railway0 carries_railway1)
    as (H1 & H2 & _ & H3).
  repeat split; assumption.
Defined.

Lemma undecodable_message_raises_witness :
  let bad := String (ascii_of_nat 255) EmptyString in
  (bad <> ""
   /\ ascii_decode bad = None
   /\ count_char ";" bad = 0
   /\ parseIncomeMsg ascii_decode (Bytes bad) = None
   /\ msgHandler ascii_decode table_loads (Bytes bad) (float_of_Z 1)
        (world_of None)
      = (world_of None, None))
  /\ (Bytes "GET;login" <> Bytes ""
      /\ decoded ascii_decode (Bytes "GET;login") = Some "GET;login"
      /\ count_char ";" "GET;login" < 2
      /\ parseIncomeMsg ascii_decode (Bytes "GET;login") = Some ("", "", "{}")
      /\ msgHandler ascii_decode table_loads (Bytes "GET;login")
           (float_of_Z 1) (world_of None)
         = (world_of None, Some (Some deny))).
Proof.
  intros bad.
  assert (B1 : bad <> "") by discriminate.
  assert (B2 : ascii_decode bad = None) by reflexivity.
  assert (B3 : count_char ";" bad = 0) by reflexivity.
  assert (H1 : Bytes "GET;login" <> Bytes "") by discriminate.
  assert (H2 : decoded ascii_decode (Bytes "GET;login") = Some "GET;login")
    by reflexivity.
  assert (H3 : count_char ";" "GET;login" < 2) by (simpl; lia).
  split.
  - split; [exact B1|]. split; [exact B2|]. split; [exact B3|].
    exact (proj2 (undecodable_message_raises ascii_decode table_loads)
                 bad (float_of_Z 1) (world_of None) B1 B2).
  - split; [exact H1|]. split; [exact H2|]. split; [exact H3|].
    exact (proj1 (undecodable_message_raises ascii_decode table_loads)
                 (Bytes "GET;login") "GET;login" (float_of_Z 1)
                 (world_of None) H1 H2 H3).
Defined.

(** [split(';', 2)] yields three parts at most: a message with more than
    two semicolons is a message of three parts, the third one holding the
    other semicolons; it reaches its handler and is not denied. *)
Lemma four_parts_not_denied :
  length (str_split ";" 14 "GET;login;{};x") = 4
  /\ parseIncomeMsg ascii_decode (Bytes "GET;login;{};x")
     = Some ("GET", "login", "{};x")
  /\ parseIncomeMsg ascii_decode (Bytes "GET;login;{};x")
     <> Some ("", "", "{}")
  /\ msgHandler ascii_decode table_loads (Bytes "GET;login;{};x")
       (float_of_Z 1) (world_of None)
     = (world_of None,
        Some (Some (JsonReply "login" (VDict [("state", VStr "ready")]))))
  /\ msgHandler ascii_decode table_loads (Bytes "GET;login;{};x")
       (float_of_Z 1) (world_of None)
     <> (world_of None, Some (Some deny)).
Proof.
  repeat split; try (vm_compute; reflexivity); vm_compute; discriminate.
Qed.

Lemma priority_resolver_clears_witness :
  iMapMgr (world_of (Some engine_ok)) = Some engine_ok
  /\ gTestMD (world_of (Some engine_ok)) = false
  /\ exists cc',
      updateSensorsData (world_of (Some engine_ok))
      = (set_sensorsDict
           (table4 [VInt 0; VInt 0; VInt 0]
                   [VInt 0; VInt 0; VInt 1; VInt 0; VInt 0]
                   cc' []) (world_of (Some engine_ok)), Some tt)
      /\ length cc' = 7
      /\ cc' !! 6 = Some (VInt 0)
      /\ cc' !! 0 = Some (VInt 1).
Proof.
  split; [reflexivity|]. split; [reflexivity|].
  destruct (priority_resolver_clears (world_of (Some engine_ok)) engine_ok
              [VInt 0; VInt 0; VInt 0]
              [VInt 0; VInt 0; VInt 1; VInt 0; VInt 0]
              [VInt 1; VInt 1; VInt 1; VInt 0; VInt 1; VInt 1; VInt 1] []
              eq_refl eq_refl eq_refl eq_refl eq_refl eq_refl eq_refl)
    as (cc' & Hu & Hlen & Hval & _).
  exists cc'. split; [exact Hu|]. split; [exact Hlen|]. split.
  - exact (Hval 6 (VInt 1) eq_refl).
  - exact (Hval 0 (VInt 1) eq_refl).
Defined.

Lemma unparseable_current_aborts_witness :
  digits_float "n/a" = None
  /\ lineTotals digits_float 7000 engine_bad_current "weline" = None
  /\ _collectMetroTotalsPayloads digits_float (float_of_Z 7)
       (world_of (Some engine_bad_current)) = None.
Proof.
  assert (H : digits_float "n/a" = None) by reflexivity.
  split; [exact H|].
  exact (proj2 (proj2 (unparseable_current_aborts digits_float)) H).
Defined.

Lemma signals_skipped_witness :
  let msg := Bytes ("POST;signals;" ++ body_signals) in
  let w := world_of (Some engine_ok) in
  msg <> Bytes ""
  /\ parseIncomeMsg ascii_decode msg = Some ("POST", "signals", body_signals)
  /\ table_loads body_signals = Some (VDict [("S1", VInt 1); ("S2", VInt 0)])
  /\ iMapMgr w = Some engine_ok
  /\ exists w',
      msgHandler ascii_decode table_loads msg (float_of_Z 1) w
      = (w', Some (Some (JsonReply "signals" success)))
      /\ option_map signalCalls (iMapMgr w')
         = Some [("S1", VInt 1); ("S2", VInt 0)].
Proof.
  intros msg w.
  assert (H1 : msg <> Bytes "") by discriminate.
  assert (H2 : parseIncomeMsg ascii_decode msg
               = Some ("POST", "signals", body_signals))
    by (vm_compute; reflexivity).
  assert (H3 : table_loads body_signals
               = Some (VDict [("S1", VInt 1); ("S2", VInt 0)]))
    by (vm_compute; reflexivity).
  assert (H4 : iMapMgr w = Some engine_ok) by reflexivity.
  split; [exact H1|]. split; [exact H2|]. split; [exact H3|].
  split; [exact H4|].
  destruct (signals_skipped_under_junction_avoidance ascii_decode table_loads
              msg body_signals [("S1", VInt 1); ("S2", VInt 0)]
              (float_of_Z 1) w engine_ok H1 H2 H3 H4)
    as (w' & Hh & _ & Hoff & _).
  exists w'. split; [exact Hh|]. rewrite (Hoff eq_refl). reflexivity.
Defined.

(** * Further properties of the module *)

(** ** The codec and the dispatcher *)

Lemma cut_app (sep : ascii) (a b : string) :
  count_char sep a = 0 ->
  cut sep (a ++ String sep b)%string = Some (a, b).
Proof.
  induction a as [|c a IH]; simpl.
  - intros _. now rewrite Ascii.eqb_refl.
  - destruct (Ascii.eqb c sep); [discriminate|].
    intros H. now rewrite IH.
Qed.

Lemma rstrip_no_space (s : string) : no_space s = true -> rstrip s = s.
Proof.
  induction s as [|c s IH]; simpl; [reflexivity|].
  intros H. apply andb_true_iff in H. destruct H as [Hc Hs].
  rewrite (IH Hs). apply negb_true_iff in Hc. rewrite Hc.
  now destruct s.
Qed.

Lemma strip_no_space (s : string) : no_space s = true -> strip s = s.
Proof.
  intros H. unfold strip.
  assert (Hl : lstrip s = s).
  { destruct s as [|c s]; simpl; [reflexivity|].
    simpl in H. apply andb_true_iff in H. destruct H as [Hc _].
    apply negb_true_iff in Hc. now rewrite Hc. }
  rewrite Hl. now apply rstrip_no_space.
Qed.

Section Codec.

Variable utf8_decode : string -> option string.
Variable json_loads : string -> option pyval.

(** X1. Round trip of the wire format: a message that decodes to
    [';'.join((key, type, body))], where key and type hold no semicolon,
    is parsed to the stripped key, the stripped type and the body as it
    is, whatever semicolons the body holds; when key and type hold no
    white space the triplet is the one that was joined. *)
Theorem parseIncomeMsg_join3 (msg : message) (reqKey reqType body : string) :
  decoded utf8_decode msg = Some (join3 reqKey reqType body) ->
  count_char ";" reqKey = 0 ->
  count_char ";" reqType = 0 ->
  parseIncomeMsg utf8_decode msg = Some (strip reqKey, strip reqType, body)
  /\ (no_space reqKey = true -> no_space reqType = true ->
      parseIncomeMsg utf8_decode msg = Some (reqKey, reqType, body)).
Proof.
  intros Hd Hk Ht.
  assert (H : parseIncomeMsg utf8_decode msg
              = Some (strip reqKey, strip reqType, body)).
  { unfold parseIncomeMsg. rewrite Hd. unfold join3. simpl str_split.
    rewrite (cut_app ";" reqKey _ Hk), (cut_app ";" reqType _ Ht).
    reflexivity. }
  split; [exact H|].
  intros Hsk Hst. now rewrite H, !strip_no_space.
Qed.

Lemma parseIncomeMsg_total (msg : message) (req : string) :
  decoded utf8_decode msg = Some req ->
  exists k t j, parseIncomeMsg utf8_decode msg = Some (k, t, j).
Proof.
  intros Hd. unfold parseIncomeMsg. rewrite Hd.
  destruct (str_split ";" 2 req) as [|a [|b [|c [|x l]]]]; eauto.
Qed.

(** The dispatch of a parsed request. *)
Lemma msgHandler_parsed (msg : message) (k t j : string) (now : float)
    (w : World) :
  msg <> Bytes "" ->
  parseIncomeMsg utf8_decode msg = Some (k, t, j) ->
  (routed k t = false ->
   msgHandler utf8_decode json_loads msg now w = (w, Some (Some deny)))
  /\ (routed k t = true ->
      exists body,
        snd (msgHandler utf8_decode json_loads msg now w)
        = Some (Some (JsonReply t body))).
Proof.
  intros Hne Hp. unfold msgHandler. rewrite Hp.
  assert (Hm : forall (A : Type) (x y : A),
             match msg with Bytes EmptyString => x | _ => y end = y).
  { intros A x y. destruct msg as [[|c b]|s]; [congruence| |]; reflexivity. }
  rewrite Hm. clear Hm. unfold routed.
  destruct (k =? "GET") eqn:Eg; [|destruct (k =? "POST") eqn:Epo]; simpl.
  - apply String.eqb_eq in Eg. subst k. simpl.
    destruct (t =? "login") eqn:E1;
      [apply String.eqb_eq in E1; subst; simpl; split;
       [discriminate|eauto]|].
    destruct (t =? "sensors") eqn:E2;
      [apply String.eqb_eq in E2; subst; simpl; split;
       [discriminate|eauto]|].
    destruct (t =? "stations") eqn:E3;
      [apply String.eqb_eq in E3; subst; simpl; split;
       [discriminate|eauto]|].
    destruct (t =? "trainsPlc") eqn:E4;
      [apply String.eqb_eq in E4; subst; simpl; split;
       [discriminate|eauto]|].
    destruct (t =? "trainsRtu") eqn:E5;
      [apply String.eqb_eq in E5; subst; simpl; split;
       [discriminate|eauto]|].
    simpl. split; [reflexivity|discriminate].
  - destruct (t =? "signals") eqn:E1;
      [apply String.eqb_eq in E1; subst; simpl; split;
       [discriminate|eauto]|].
    destruct (t =? "stations") eqn:E3;
      [apply String.eqb_eq in E3; subst; simpl; split;
       [discriminate|eauto]|].
    destruct (t =? "trainsPlc") eqn:E4;
      [apply String.eqb_eq in E4; subst; simpl; split;
       [discriminate|eauto]|].
    destruct (t =? "powerLink") eqn:E5;
      [apply String.eqb_eq in E5; subst; simpl; split;
       [discriminate|eauto]|].
    simpl. split; [reflexivity|discriminate].
  - split; [reflexivity|discriminate].
Qed.

(** X2. [msgHandler] raises only on [bytes] that do not decode: the empty
    datagram is left without a reply, bytes that do not decode make the
    handler raise with the state untouched, and every other message is
    answered, whatever its key, type and body. *)
Theorem msgHandler_raises_only_on_decode (msg : message) (now : float)
    (w : World) :
  (msg = Bytes "" ->
   msgHandler utf8_decode json_loads msg now w = (w, Some None))
  /\ (msg <> Bytes "" -> decoded utf8_decode msg = None ->
      msgHandler utf8_decode json_loads msg now w = (w, None))
  /\ (msg <> Bytes "" ->
      forall req, decoded utf8_decode msg = Some req ->
      exists r, snd (msgHandler utf8_decode json_loads msg now w)
                = Some (Some r)).
Proof.
  split; [intros ->; reflexivity|]. split.
  - intros Hne Hd. unfold msgHandler, parseIncomeMsg. rewrite Hd.
    destruct msg as [[|c b]|s]; [congruence| |]; reflexivity.
  - intros Hne req Hd.
    destruct (parseIncomeMsg_total msg req Hd) as (k & t & j & Hp).
    destruct (msgHandler_parsed msg k t j now w Hne Hp) as [Hf Ht].
    destruct (routed k t).
    + destruct (Ht eq_refl) as [body Hb]. eauto.
    + rewrite (Hf eq_refl). simpl. eauto.
Qed.

(** X3. The dispatch table: a request whose key and type are not one of
    the nine pairs of the table is answered [REP;deny;{}] and changes
    nothing (keys and types are compared exactly, after stripping); a
    request of the table is answered with a reply of its own type. *)
Theorem msgHandler_dispatch (msg : message) (k t j : string) (now : float)
    (w : World) :
  msg <> Bytes "" ->
  parseIncomeMsg utf8_decode msg = Some (k, t, j) ->
  (routed k t = false ->
   msgHandler utf8_decode json_loads msg now w = (w, Some (Some deny)))
  /\ (routed k t = true ->
      exists body,
        snd (msgHandler utf8_decode json_loads msg now w)
        = Some (Some (JsonReply t body))).
Proof. apply msgHandler_parsed. Qed.

End Codec.

(** ** The update and fetch functions *)

Lemma set_sensorsDict_frame (d d' : dict snapshot) (w w' : World) :
  w' = set_sensorsDict d' w ->
  set_sensorsDict d w' = set_sensorsDict (sensorsDict (set_sensorsDict d w')) w.
Proof. intros ->. reflexivity. Qed.

Lemma set_stationsDict_frame (d d' : dict snapshot) (w w' : World) :
  w' = set_stationsDict d' w ->
  set_stationsDict d w'
  = set_stationsDict (stationsDict (set_stationsDict d w')) w.
Proof. intros ->. reflexivity. Qed.

Lemma set_trainsDict_frame (d d' : dict snapshot) (w w' : World) :
  w' = set_trainsDict d' w ->
  set_trainsDict d w' = set_trainsDict (trainsDict (set_trainsDict d w')) w.
Proof. intros ->. reflexivity. Qed.

Lemma set_trainsRtuDict_frame (d d' : dict snapshot) (w w' : World) :
  w' = set_trainsRtuDict d' w ->
  set_trainsRtuDict d w'
  = set_trainsRtuDict (trainsRtuDict (set_trainsRtuDict d w')) w.
Proof. intros ->. reflexivity. Qed.

Lemma updateSensorsData_frame (w : World) :
  fst (updateSensorsData w)
  = set_sensorsDict (sensorsDict (fst (updateSensorsData w))) w.
Proof.
  set (P := fun w' : World => w' = set_sensorsDict (sensorsDict w') w).
  assert (H0 : P w) by (unfold P; now destruct w).
  change (P (fst (updateSensorsData w))).
  unfold updateSensorsData. destruct (iMapMgr w) as [m|]; [|exact H0].
  apply bind_inv.
  - apply for_each_inv with (P := P) (Q := fun _ => True); auto.
    + intros key w' _ Hw'.
      destruct (dict_get key (sensorStates m)); simpl; auto.
      unfold P in *. now apply set_sensorsDict_frame with (d' := sensorsDict w').
    + apply Forall_forall. auto.
  - intros _ w' Hw'. destruct (gTestMD w'); [exact Hw'|].
    unfold _updateSensorPriority.
    destruct (dict_get "ccline" (sensorsDict w')) as [[[|x cc]|]|];
      try exact Hw'.
    apply for_each_inv with (P := P) (Q := fun _ => True); auto.
    + intros i w2 _ Hw2. unfold priorityStep.
      destruct (dict_get "ccline" (sensorsDict w2)) as [[cc2|]|]; simpl; auto.
      destruct (cc2 !! i); simpl; auto.
      destruct (priorityConfig !! i) as [[[key idxs]|]|]; simpl; auto.
      destruct (overWriteFlg _ _ _ _); simpl; auto.
      destruct (truthy _); simpl; auto.
      unfold P in *. now apply set_sensorsDict_frame with (d' := sensorsDict w2).
    + apply Forall_forall. auto.
Qed.

Lemma updateStationsData_frame (w : World) :
  fst (updateStationsData w)
  = set_stationsDict (stationsDict (fst (updateStationsData w))) w.
Proof.
  set (P := fun w' : World => w' = set_stationsDict (stationsDict w') w).
  assert (H0 : P w) by (unfold P; now destruct w).
  change (P (fst (updateStationsData w))).
  unfold updateStationsData. destruct (iMapMgr w) as [m|]; [|exact H0].
  apply for_each_inv with (P := P) (Q := fun _ => True); auto.
  - intros key w' _ Hw'. unfold P in *.
    destruct (dict_get key (dockStates m)); simpl.
    + rewrite Hw'. reflexivity.
    + rewrite Hw'. reflexivity.
  - apply Forall_forall. auto.
Qed.

Lemma updateTrainsPwrData_frame (w : World) :
  fst (updateTrainsPwrData w)
  = set_trainsDict (trainsDict (fst (updateTrainsPwrData w))) w.
Proof.
  set (P := fun w' : World => w' = set_trainsDict (trainsDict w') w).
  assert (H0 : P w) by (unfold P; now destruct w).
  change (P (fst (updateTrainsPwrData w))).
  unfold updateTrainsPwrData. destruct (iMapMgr w) as [m|]; [|exact H0].
  apply for_each_inv with (P := P) (Q := fun _ => True); auto.
  - intros key w' _ Hw'. unfold P in *.
    destruct (dict_get key (trains m)); simpl.
    + rewrite Hw'. reflexivity.
    + rewrite Hw'. reflexivity.
  - apply Forall_forall. auto.
Qed.

Lemma updateTrainsSenData_frame (w : World) :
  fst (updateTrainsSenData w)
  = set_trainsRtuDict (trainsRtuDict (fst (updateTrainsSenData w))) w.
Proof.
  set (P := fun w' : World => w' = set_trainsRtuDict (trainsRtuDict w') w).
  assert (H0 : P w) by (unfold P; now destruct w).
  change (P (fst (updateTrainsSenData w))).
  unfold updateTrainsSenData. destruct (iMapMgr w) as [m|]; [|exact H0].
  apply for_each_inv with (P := P) (Q := fun _ => True); auto.
  - intros key w' _ Hw'. unfold P in *.
    destruct (dict_get key (trains m)) as [ts|]; simpl.
    + destruct (trainRows ts). simpl. rewrite Hw'. reflexivity.
    + rewrite Hw'. reflexivity.
  - apply Forall_forall. auto.
Qed.

(** X4. The four channels are independent: whatever the engine answers,
    and also when the refresh raises half way, an update function changes
    its own snapshot table and nothing else: not the other tables, no time
    stamp, not the engine, not the value last applied by the power link. *)
Theorem update_changes_own_table_only (w : World) :
  fst (updateSensorsData w)
  = set_sensorsDict (sensorsDict (fst (updateSensorsData w))) w
  /\ fst (updateStationsData w)
     = set_stationsDict (stationsDict (fst (updateStationsData w))) w
  /\ fst (updateTrainsPwrData w)
     = set_trainsDict (trainsDict (fst (updateTrainsPwrData w))) w
  /\ fst (updateTrainsSenData w)
     = set_trainsRtuDict (trainsRtuDict (fst (updateTrainsSenData w))) w.
Proof.
  split; [apply updateSensorsData_frame|].
  split; [apply updateStationsData_frame|].
  split; [apply updateTrainsPwrData_frame|apply updateTrainsSenData_frame].
Qed.

Section Fetch.

Variable json_loads : string -> option pyval.

(** X5. A fetch stamps its channel exactly when the request body parses:
    if [json.loads] raises, the state is untouched; otherwise the time
    stamp of the channel is the current time, also when the refresh then
    raises or the body is no JSON object, and apart from that stamp and the
    table of the channel nothing changes. *)
Theorem fetch_stamps_iff_body_parses (body : string) (now : float)
    (w : World) :
  fst (fetchSensorInfo json_loads body now w)
  = match json_loads body with
    | None => w
    | Some _ =>
        set_sensorsDict
          (sensorsDict (fst (fetchSensorInfo json_loads body now w)))
          (set_sensorPlcUpdateT now w)
    end
  /\ fst (fetchStationInfo json_loads body now w)
     = match json_loads body with
       | None => w
       | Some _ =>
           set_stationsDict
             (stationsDict (fst (fetchStationInfo json_loads body now w)))
             (set_stationPlcUpdateT now w)
       end
  /\ fst (fetchTrainPwrInfo json_loads body now w)
     = match json_loads body with
       | None => w
       | Some _ =>
           set_trainsDict
             (trainsDict (fst (fetchTrainPwrInfo json_loads body now w)))
             (set_trainPlcUpdateT now w)
       end
  /\ fst (fetchTrainSensInfo json_loads body now w)
     = match json_loads body with
       | None => w
       | Some _ =>
           set_trainsRtuDict
             (trainsRtuDict (fst (fetchTrainSensInfo json_loads body now w)))
             (set_trainRtuUpdateT now w)
       end.
Proof.
  unfold fetchSensorInfo, fetchStationInfo, fetchTrainPwrInfo,
    fetchTrainSensInfo.
  destruct (json_loads body) as [req|]; [|repeat split].
  pose proof (updateSensorsData_frame (set_sensorPlcUpdateT now w)) as H1.
  pose proof (updateStationsData_frame (set_stationPlcUpdateT now w)) as H2.
  pose proof (updateTrainsPwrData_frame (set_trainPlcUpdateT now w)) as H3.
  pose proof (updateTrainsSenData_frame (set_trainRtuUpdateT now w)) as H4.
  destruct (updateSensorsData _) as [w1 [u1|]];
    destruct (updateStationsData _) as [w2 [u2|]];
    destruct (updateTrainsPwrData _) as [w3 [u3|]];
    destruct (updateTrainsSenData _) as [w4 [u4|]];
    repeat split; assumption.
Qed.

(** X6. When the body is a JSON object, a fetch returns the state its
    update function left and, if the update did not raise, the request
    dictionary with its keys in their order, each line key bound to the
    snapshot just refreshed and every other key to the value that was
    sent; if the update raised, the reply is the failure body. *)
Theorem fetch_returns_refreshed_values (body : string)
    (reqDict : dict pyval) (now : float) (w : World) :
  tables_ok w ->
  json_loads body = Some (VDict reqDict) ->
  fetch_outcome sensorsDict (updateSensorsData (set_sensorPlcUpdateT now w))
                reqDict (fetchSensorInfo json_loads body now w)
  /\ fetch_outcome stationsDict
       (updateStationsData (set_stationPlcUpdateT now w))
       reqDict (fetchStationInfo json_loads body now w)
  /\ fetch_outcome trainsDict
       (updateTrainsPwrData (set_trainPlcUpdateT now w))
       reqDict (fetchTrainPwrInfo json_loads body now w)
  /\ fetch_outcome trainsRtuDict
       (updateTrainsSenData (set_trainRtuUpdateT now w))
       reqDict (fetchTrainSensInfo json_loads body now w).
Proof.
  intros Hw Hl.
  assert (Hs : tables_ok
                 (fst (updateSensorsData (set_sensorPlcUpdateT now w)))).
  { apply updateSensorsData_ok. exact Hw. }
  assert (Hst : tables_ok
                  (fst (updateStationsData (set_stationPlcUpdateT now w)))).
  { apply updateStationsData_ok. exact Hw. }
  assert (Ht : tables_ok
                 (fst (updateTrainsPwrData (set_trainPlcUpdateT now w)))).
  { apply updateTrainsPwrData_ok. exact Hw. }
  assert (Hr : tables_ok
                 (fst (updateTrainsSenData (set_trainRtuUpdateT now w)))).
  { apply updateTrainsSenData_ok. exact Hw. }
  unfold fetch_outcome, fetchSensorInfo, fetchStationInfo, fetchTrainPwrInfo,
    fetchTrainSensInfo.
  rewrite Hl.
  destruct (updateSensorsData _) as [w1 [u1|]];
    destruct (updateStationsData _) as [w2 [u2|]];
    destruct (updateTrainsPwrData _) as [w3 [u3|]];
    destruct (updateTrainsSenData _) as [w4 [u4|]];
    simpl in *;
    repeat split;
    try (apply fetchReply_cached;
         destruct Hs as (? & ? & ? & ?); destruct Hst as (? & ? & ? & ?);
         destruct Ht as (? & ? & ? & ?); destruct Hr as (? & ? & ? & ?);
         congruence).
Qed.

End Fetch.

(** ** Refreshing the stations *)

Lemma for_each_app {A} (body : A -> M unit) (l1 l2 : list A) (w : World) :
  for_each body (l1 ++ l2) w
  = match for_each body l1 w with
    | (w', Some _) => for_each body l2 w'
    | (w', None) => (w', None)
    end.
Proof.
  revert w. induction l1 as [|x l1 IH]; intros w; simpl.
  - reflexivity.
  - unfold bind. destruct (body x w) as [w1 [u|]]; [apply IH|reflexivity].
Qed.

Lemma updateStationsData_loop (w : World) (m : MapMgr) :
  iMapMgr w = Some m ->
  updateStationsData w
  = for_each (stationStep m) (dict_keys (stationsDict w)) w.
Proof. intros H. unfold updateStationsData. now rewrite H. Qed.

(** The loop over lines that all have stations. *)
Lemma stationSteps_fresh (m : MapMgr) (ls : list string) :
  (forall k, In k ls -> exists ds, dict_get k (dockStates m) = Some ds) ->
  forall w,
    (forall k, In k ls -> In k (dict_keys (stationsDict w))) ->
    exists w',
      for_each (stationStep m) ls w = (w', Some tt)
      /\ dict_keys (stationsDict w') = dict_keys (stationsDict w)
      /\ (forall k ds, In k ls -> dict_get k (dockStates m) = Some ds ->
                       dict_get k (stationsDict w') = Some (Some (dockFlags ds)))
      /\ (forall k, ~ In k ls ->
                    dict_get k (stationsDict w') = dict_get k (stationsDict w)).
Proof.
  induction ls as [|key ls IH]; intros Hds w Hin.
  - exists w. simpl. repeat split; auto. intros k ds [].
  - destruct (Hds key (or_introl eq_refl)) as [ds0 Hk].
    set (w1 := set_stationsDict
                 (dict_set key (Some (dockFlags ds0))
                    (dict_set key (Some []) (stationsDict w)))
                 (set_stationsDict
                    (dict_set key (Some []) (stationsDict w)) w)).
    assert (Hstep : stationStep m key w = (w1, Some tt)).
    { unfold stationStep. now rewrite Hk. }
    assert (Hkeys1 : dict_keys (stationsDict w1) = dict_keys (stationsDict w)).
    { unfold w1. simpl.
      rewrite !dict_keys_set; auto.
      - apply Hin. now left.
      - rewrite dict_keys_set; apply Hin; now left. }
    destruct (IH (fun k H => Hds k (or_intror H)) w1) as (w' & Hrun & Hk' & Hf & Ho).
    { intros k Hkin. rewrite Hkeys1. apply Hin. now right. }
    exists w'. simpl for_each. unfold bind. rewrite Hstep.
    split; [exact Hrun|]. split; [congruence|]. split.
    + intros k ds [Heq | Hkin] Hd.
      * subst k.
        destruct (in_dec string_dec key ls) as [Hi | Hni];
          [now apply Hf|].
        rewrite Ho by exact Hni. unfold w1. simpl.
        rewrite dict_get_set_eq. rewrite Hk in Hd. now inversion Hd.
      * now apply Hf.
    + intros k Hnk. rewrite Ho by (intros H; apply Hnk; now right).
      unfold w1. simpl.
      rewrite !dict_get_set_ne; auto; intros ->; apply Hnk; now left.
Qed.

(** X7. With stations known for all four lines, [updateStationsData] does
    not raise and overwrites every line of the stations table, requested
    or not, with one flag per station of the line, 1 for a docked station
    and 0 otherwise, in the order of the engine. *)
Theorem updateStationsData_overwrites_all (w : World) (m : MapMgr) :
  iMapMgr w = Some m ->
  dict_keys (stationsDict w) = LINES ->
  (forall k, In k LINES -> exists ds, dict_get k (dockStates m) = Some ds) ->
  exists w',
    updateStationsData w = (w', Some tt)
    /\ dict_keys (stationsDict w') = LINES
    /\ forall k ds,
        In k LINES -> dict_get k (dockStates m) = Some ds ->
        dict_get k (stationsDict w')
        = Some (Some (map (fun b : bool => VInt (if b then 1 else 0)) ds)).
Proof.
  intros Hm Hk Hds. rewrite (updateStationsData_loop w m Hm), Hk.
  destruct (stationSteps_fresh m LINES Hds w) as (w' & Hrun & Hk' & Hf & _).
  { intros k Hin. now rewrite Hk. }
  exists w'. split; [exact Hrun|]. split; [congruence|]. exact Hf.
Qed.

(** X8. When the engine has no stations for a line, the refresh raises at
    that line, and the cache is left inconsistent: the lines before it are
    fresh, the snapshot of the failing line is lost (it was reset to the
    empty list before the engine was asked) and the lines after it keep
    their old snapshot. *)
Theorem updateStationsData_failure_resets_line (w : World) (m : MapMgr)
    (pre post : list string) (line : string) :
  iMapMgr w = Some m ->
  dict_keys (stationsDict w) = LINES ->
  LINES = pre ++ line :: post ->
  (forall k, In k pre -> exists ds, dict_get k (dockStates m) = Some ds) ->
  dict_get line (dockStates m) = None ->
  exists w',
    updateStationsData w = (w', None)
    /\ dict_get line (stationsDict w') = Some (Some [])
    /\ (forall k ds, In k pre -> dict_get k (dockStates m) = Some ds ->
                     dict_get k (stationsDict w') = Some (Some (dockFlags ds)))
    /\ (forall k, In k post ->
                  dict_get k (stationsDict w') = dict_get k (stationsDict w)).
Proof.
  intros Hm Hk Hsplit Hpre Hline.
  pose proof LINES_NoDup as Hnd. rewrite Hsplit in Hnd.
  apply NoDup_remove in Hnd. destruct Hnd as [Hnd Hnin].
  assert (Hin : forall k, In k LINES -> In k (dict_keys (stationsDict w)))
    by (intros k H; now rewrite Hk).
  rewrite (updateStationsData_loop w m Hm), Hk, Hsplit, for_each_app.
  destruct (stationSteps_fresh m pre Hpre w) as (w1 & Hrun & Hk1 & Hf & Ho).
  { intros k Hkin. apply Hin. rewrite Hsplit. apply in_or_app. now left. }
  rewrite Hrun. simpl for_each. unfold bind, stationStep. rewrite Hline.
  eexists. split; [reflexivity|]. simpl. split; [apply dict_get_set_eq|].
  split.
  - intros k ds Hkin Hd.
    rewrite dict_get_set_ne.
    + now apply Hf.
    + intros ->. apply Hnin. apply in_or_app. now left.
  - intros k Hkin.
    rewrite dict_get_set_ne.
    + apply Ho. intros Hkp. apply Hnin.
      exfalso. clear - Hnd Hkin Hkp.
      induction pre as [|p pre IH]; [destruct Hkp|].
      simpl in Hnd. inversion Hnd as [|? ? Hnp Hnd']. subst.
      destruct Hkp as [-> | Hkp].
      * apply Hnp. apply in_or_app. now right.
      * now apply IH.
    + intros ->. apply Hnin. apply in_or_app. now right.
Qed.

(** ** Refreshing the sensors *)

Lemma updateSensorsData_loop (w : World) (m : MapMgr) :
  iMapMgr w = Some m ->
  updateSensorsData w
  = bind (for_each (sensorStep m) (dict_keys (sensorsDict w)))
         (fun _ w' =>
            if gTestMD w' then ret tt w' else _updateSensorPriority w') w.
Proof. intros H. unfold updateSensorsData. now rewrite H. Qed.

(** The loop over lines that all have a sensor agent. *)
Lemma sensorSteps_fresh (m : MapMgr) (ls : list string) :
  (forall k, In k ls -> exists st, dict_get k (sensorStates m) = Some st) ->
  forall w,
    (forall k, In k ls -> In k (dict_keys (sensorsDict w))) ->
    exists w',
      for_each (sensorStep m) ls w = (w', Some tt)
      /\ w' = set_sensorsDict (sensorsDict w') w
      /\ dict_keys (sensorsDict w') = dict_keys (sensorsDict w)
      /\ (forall k st, In k ls -> dict_get k (sensorStates m) = Some st ->
                       dict_get k (sensorsDict w') = Some (Some st))
      /\ (forall k, ~ In k ls ->
                    dict_get k (sensorsDict w') = dict_get k (sensorsDict w)).
Proof.
  induction ls as [|key ls IH]; intros Hst w Hin.
  - exists w. simpl. repeat split; auto; [now destruct w|]. intros k st [].
  - destruct (Hst key (or_introl eq_refl)) as [st0 Hk].
    set (w1 := set_sensorsDict (dict_set key (Some st0) (sensorsDict w)) w).
    assert (Hstep : sensorStep m key w = (w1, Some tt)).
    { unfold sensorStep. now rewrite Hk. }
    assert (Hkeys1 : dict_keys (sensorsDict w1) = dict_keys (sensorsDict w)).
    { unfold w1. simpl. apply dict_keys_set. apply Hin. now left. }
    destruct (IH (fun k H => Hst k (or_intror H)) w1)
      as (w' & Hrun & Hfr & Hk' & Hf & Ho).
    { intros k Hkin. rewrite Hkeys1. apply Hin. now right. }
    exists w'. simpl for_each. unfold bind. rewrite Hstep.
    split; [exact Hrun|]. split; [rewrite Hfr; reflexivity|].
    split; [congruence|]. split.
    + intros k st [Heq | Hkin] Hd.
      * subst k.
        destruct (in_dec string_dec key ls) as [Hi | Hni];
          [now apply Hf|].
        rewrite Ho by exact Hni. unfold w1. simpl.
        rewrite dict_get_set_eq. rewrite Hk in Hd. now inversion Hd.
      * now apply Hf.
    + intros k Hnk. rewrite Ho by (intros H; apply Hnk; now right).
      unfold w1. simpl.
      rewrite dict_get_set_ne; auto. intros ->. apply Hnk. now left.
Qed.

(** X9. In the test mode [updateSensorsData] stores the four sensor arrays
    of the engine as they are: the priority resolver does not run, and a
    true cc-line sensor stays true whatever the other lines report. *)
Theorem updateSensorsData_test_mode (w : World) (m : MapMgr)
    (we ns cc mt : list pyval) :
  iMapMgr w = Some m ->
  gTestMD w = true ->
  dict_keys (sensorsDict w) = LINES ->
  dict_get "weline" (sensorStates m) = Some we ->
  dict_get "nsline" (sensorStates m) = Some ns ->
  dict_get "ccline" (sensorStates m) = Some cc ->
  dict_get "mtline" (sensorStates m) = Some mt ->
  updateSensorsData w = (set_sensorsDict (table4 we ns cc mt) w, Some tt).
Proof.
  intros Hm Ht Hk Hwe Hns Hcc Hmt.
  destruct (dict_keys_LINES _ Hk) as (a & b & c & e & Hd).
  rewrite (updateSensorsData_loop w m Hm), Hk.
  unfold bind, LINES. simpl for_each. unfold bind, ret, sensorStep.
  rewrite Hwe. cbn [sensorsDict set_sensorsDict]. rewrite Hns.
  cbn [sensorsDict set_sensorsDict]. rewrite Hcc.
  cbn [sensorsDict set_sensorsDict]. rewrite Hmt.
  cbn [sensorsDict set_sensorsDict gTestMD]. rewrite Ht, Hd. reflexivity.
Qed.

(** X10. When the engine has no sensor agent for a line, the refresh
    raises at that line before the resolver runs: the lines before it hold
    the raw arrays of the engine (a cc-line array among them is stored
    unresolved), the failing line and the lines after it keep their old
    snapshot, and nothing but the sensors table has changed. *)
Theorem updateSensorsData_failure_skips_resolver (w : World) (m : MapMgr)
    (pre post : list string) (line : string) :
  iMapMgr w = Some m ->
  dict_keys (sensorsDict w) = LINES ->
  LINES = pre ++ line :: post ->
  (forall k, In k pre -> exists st, dict_get k (sensorStates m) = Some st) ->
  dict_get line (sensorStates m) = None ->
  exists w',
    updateSensorsData w = (w', None)
    /\ w' = set_sensorsDict (sensorsDict w') w
    /\ (forall k st, In k pre -> dict_get k (sensorStates m) = Some st ->
                     dict_get k (sensorsDict w') = Some (Some st))
    /\ (forall k, In k (line :: post) ->
                  dict_get k (sensorsDict w') = dict_get k (sensorsDict w)).
Proof.
  intros Hm Hk Hsplit Hpre Hline.
  pose proof LINES_NoDup as Hnd. rewrite Hsplit in Hnd.
  assert (Hdisj : forall k, In k (line :: post) -> ~ In k pre).
  { clear - Hnd. induction pre as [|p pre IH]; intros k Hk; [tauto|].
    simpl in Hnd. inversion Hnd as [|? ? Hnp Hnd']. subst.
    intros [-> | Hkp].
    - apply Hnp. apply in_or_app. now right.
    - now apply (IH Hnd' k). }
  rewrite (updateSensorsData_loop w m Hm), Hk, Hsplit.
  unfold bind at 1. rewrite for_each_app.
  destruct (sensorSteps_fresh m pre Hpre w) as (w1 & Hrun & Hfr & Hk1 & Hf & Ho).
  { intros k Hkin. rewrite Hk, Hsplit. apply in_or_app. now left. }
  rewrite Hrun. simpl for_each. unfold bind, sensorStep. rewrite Hline.
  exists w1. split; [reflexivity|]. split; [exact Hfr|].
  split; [exact Hf|].
  intros k Hkin. apply Ho. now apply Hdisj.
Qed.

(** X11. The resolver is idempotent: run again on the table that
    [updateSensorsData] left, it changes nothing, since the values it
    cleared are false and the other lines are as they were. *)
Theorem updateSensorPriority_idempotent (w : World) (m : MapMgr)
    (we ns cc mt : list pyval) :
  iMapMgr w = Some m ->
  gTestMD w = false ->
  dict_keys (sensorsDict w) = LINES ->
  dict_get "weline" (sensorStates m) = Some we ->
  dict_get "nsline" (sensorStates m) = Some ns ->
  dict_get "ccline" (sensorStates m) = Some cc ->
  dict_get "mtline" (sensorStates m) = Some mt ->
  _updateSensorPriority (fst (updateSensorsData w))
  = (fst (updateSensorsData w), Some tt).
Proof.
  intros Hm Ht Hk Hwe Hns Hcc Hmt.
  rewrite (updateSensorsData_resolved w m we ns cc mt) by assumption.
  cbn [fst]. unfold _updateSensorPriority. simpl dict_get. cbv beta iota.
  set (cc' := imap (resolved m) cc).
  destruct cc' as [|x cc0] eqn:E; [reflexivity|]. rewrite <- E.
  destruct (priority_loop w m we ns cc' mt Hwe Hns (length cc') 0 cc')
    as (cur' & Hrun & Hlen & Hall); auto; try lia.
  assert (Hsame : cur' = cc').
  { apply list_eq. intros i. rewrite Hall. unfold cc'.
    rewrite list_lookup_imap. destruct (cc !! i) as [val|]; [|reflexivity].
    simpl. f_equal. unfold resolved.
    destruct (truthy val && rule_fires m i) eqn:Ef; [reflexivity|].
    now rewrite Ef. }
  rewrite Hsame in Hrun.
  change (set_sensorsDict (table4 we ns cc' mt)
            (set_sensorsDict (table4 we ns cc' mt) w))
    with (set_sensorsDict (table4 we ns cc' mt) w).
  rewrite E in Hrun at 1. simpl length in Hrun |- *.
  rewrite E. rewrite E in Hrun. exact Hrun.
Qed.

(** ** The power link *)

Lemma set_trains_eta (m : MapMgr) : m = set_trains (trains m) m.
Proof. now destruct m. Qed.

Lemma applyLine_frame (flag : bool) (m : MapMgr) (line : string) :
  applyLine flag m line = set_trains (trains (applyLine flag m line)) m
  /\ dict_keys (trains (applyLine flag m line)) = dict_keys (trains m).
Proof.
  unfold applyLine. destruct (dict_get line (trains m)) as [ts|] eqn:E.
  - split; [reflexivity|]. simpl. now apply dict_keys_set_found with (v := ts).
  - split; [apply set_trains_eta | reflexivity].
Qed.

Lemma applyLines_frame (flag : bool) (ls : list string) :
  forall m,
    fold_left (applyLine flag) ls m
    = set_trains (trains (fold_left (applyLine flag) ls m)) m
    /\ dict_keys (trains (fold_left (applyLine flag) ls m))
       = dict_keys (trains m).
Proof.
  induction ls as [|l ls IH]; intros m; simpl.
  - split; [apply set_trains_eta | reflexivity].
  - destruct (IH (applyLine flag m l)) as [H1 H2].
    destruct (applyLine_frame flag m l) as [H3 H4].
    split; [|congruence].
    set (X := fold_left (applyLine flag) ls (applyLine flag m l)) in *.
    set (A := applyLine flag m l) in *. clearbody X A.
    rewrite H1, H3. reflexivity.
Qed.

Lemma setEmgStop_each_pointwise (flag : bool) (ts : list Train) :
  Forall2 (fun t t' => t' = t \/ t' = received flag t)
          ts (setEmgStop_each flag ts).
Proof.
  induction ts as [|t ts IH]; simpl; [constructor|].
  unfold setEmgStop. destruct (reachable t) eqn:E.
  - constructor; [right; unfold received; now rewrite E | exact IH].
  - constructor; [now left|].
    clear. induction ts; constructor; auto.
Qed.

(** X12. Applying the power link touches nothing but the call logs of the
    trains of the four lines: the tables, the time stamps and the rest of
    the engine are as before; every track keeps its trains, in their order,
    each train either untouched or with the one flag [not railway_on]
    appended to what it has received; the trains of a track that is none of
    the four lines are untouched; and a line whose trains can all be
    reached has the flag appended on every train. *)
Theorem applyRailwayPowerLink_only_logs_calls (railway_on : bool)
    (w : World) (m : MapMgr) :
  iMapMgr w = Some m ->
  exists m',
    _applyRailwayPowerLink railway_on w = set_iMapMgr (Some m') w
    /\ m' = set_trains (trains m') m
    /\ dict_keys (trains m') = dict_keys (trains m)
    /\ forall line ts,
        dict_get line (trains m) = Some ts ->
        exists ts',
          dict_get line (trains m') = Some ts'
          /\ Forall2 (fun t t' => t' = t \/ t' = received (negb railway_on) t)
                     ts ts'
          /\ (~ In line LINES -> ts' = ts)
          /\ (In line LINES -> Forall (fun t => reachable t = true) ts ->
              ts' = map (received (negb railway_on)) ts).
Proof.
  intros Hm. unfold _applyRailwayPowerLink. rewrite Hm.
  destruct (applyLines_frame (negb railway_on) LINES m) as [Hf Hk].
  eexists. split; [reflexivity|]. split; [exact Hf|]. split; [exact Hk|].
  intros line ts Hts.
  destruct (in_dec string_dec line LINES) as [Hin | Hnin].
  - exists (setEmgStop_each (negb railway_on) ts).
    split; [rewrite applyLines_same, Hts; auto using LINES_NoDup|].
    split; [apply setEmgStop_each_pointwise|].
    split; [contradiction|].
    intros _ Hall. now apply setEmgStop_each_reachable.
  - exists ts. split; [now rewrite applyLines_other|].
    split; [|split; [reflexivity|contradiction]].
    clear. induction ts; constructor; auto.
Qed.

(** ** The watcher of the power link *)

Lemma run_readings_app (rs1 rs2 : list bool) (st : Watcher * World) :
  run_readings (rs1 ++ rs2) st = run_readings rs2 (run_readings rs1 st).
Proof. unfold run_readings. apply fold_left_app. Qed.

Lemma on_reading_false_counted (c : Z) (w : World) :
  on_reading false (mkWatcher true c, w)
  = (mkWatcher true (c + 1),
     if (3 <=? c + 1)%Z then _applyRailwayPowerLink false w else w).
Proof.
  unfold on_reading. simpl. now destruct (3 <=? c + 1)%Z.
Qed.

(** X13. The debounce in general: after a true reading, [k] consecutive
    false readings leave the count at [k] and have applied the emergency
    stop [k - 2] times: none for one or two false readings, and one more
    for every false reading from the third on. *)
Theorem watcher_stops_from_third_false_on (k : nat) (self : Watcher)
    (w : World) :
  run_readings (true :: repeat false k) (self, w)
  = (mkWatcher true (Z.of_nat k),
     Nat.iter (k - 2) (_applyRailwayPowerLink false) w).
Proof.
  induction k as [|k IH].
  - reflexivity.
  - replace (true :: repeat false (S k))
      with ((true :: repeat false k) ++ [false]).
    2:{ simpl. f_equal. symmetry. apply repeat_cons. }
    rewrite run_readings_app, IH.
    change (run_readings [false] ?st) with (on_reading false st).
    rewrite on_reading_false_counted.
    replace (Z.of_nat k + 1)%Z with (Z.of_nat (S k)) by lia.
    f_equal.
    destruct (3 <=? Z.of_nat (S k))%Z eqn:E.
    + apply Z.leb_le in E.
      replace (S k - 2) with (S (k - 2)) by lia. reflexivity.
    + apply Z.leb_gt in E. replace (S k - 2) with 0 by lia.
      replace (k - 2) with 0 by lia. reflexivity.
Qed.

Lemma on_reading_stops_only (r : bool) (self : Watcher) (w : World) :
  snd (on_reading r (self, w)) = w
  \/ (r = false
      /\ snd (on_reading r (self, w)) = _applyRailwayPowerLink false w).
Proof.
  unfold on_reading. destruct r; [now left|].
  destruct (seen_true self); [|now left]. simpl.
  destruct (3 <=? false_count self + 1)%Z; simpl;
    [right; split; reflexivity | left; reflexivity].
Qed.

Lemma iter_applyRailwayPowerLink_comm (b : bool) (n : nat) (w : World) :
  Nat.iter n (_applyRailwayPowerLink b) (_applyRailwayPowerLink b w)
  = _applyRailwayPowerLink b (Nat.iter n (_applyRailwayPowerLink b) w).
Proof.
  induction n as [|n IH]; simpl; [reflexivity|]. now rewrite IH.
Qed.

Lemma applyRailwayPowerLink_last (b : bool) (w : World) :
  _last_powerlink_railway (_applyRailwayPowerLink b w)
  = _last_powerlink_railway w.
Proof. unfold _applyRailwayPowerLink. now destruct (iMapMgr w). Qed.

Lemma iter_applyRailwayPowerLink_last (b : bool) (n : nat) (w : World) :
  _last_powerlink_railway (Nat.iter n (_applyRailwayPowerLink b) w)
  = _last_powerlink_railway w.
Proof.
  induction n as [|n IH]; simpl; [reflexivity|].
  now rewrite applyRailwayPowerLink_last.
Qed.

(** X14. The poll path only ever stops: whatever the readings and the
    state of the watcher, the loop has applied [railway_on = False] some
    number of times, at most once per false reading, and has done nothing
    else; it never releases an emergency stop and never records a value
    for the push path. *)
Theorem watcher_only_stops (rs : list bool) (self : Watcher) (w : World) :
  (exists n,
      n <= count_occ Bool.bool_dec rs false
      /\ snd (run_readings rs (self, w))
         = Nat.iter n (_applyRailwayPowerLink false) w)
  /\ _last_powerlink_railway (snd (run_readings rs (self, w)))
     = _last_powerlink_railway w.
Proof.
  assert (H : exists n,
             n <= count_occ Bool.bool_dec rs false
             /\ snd (run_readings rs (self, w))
                = Nat.iter n (_applyRailwayPowerLink false) w);
    [|split; [exact H|];
      destruct H as (n & _ & ->); apply iter_applyRailwayPowerLink_last].
  revert self w. induction rs as [|r rs IH]; intros self w.
  - exists 0. split; [simpl; lia | reflexivity].
  - change (r :: rs) with ([r] ++ rs) at 2. rewrite run_readings_app.
    change (run_readings [r] (self, w)) with (on_reading r (self, w)).
    destruct (on_reading r (self, w)) as [self1 w1] eqn:E.
    destruct (IH self1 w1) as (n & Hn & Hrun). rewrite Hrun.
    destruct (on_reading_stops_only r self w) as [H | [Hr H]];
      rewrite E in H; simpl in H; subst w1.
    + exists n. split; [|reflexivity].
      simpl. destruct (Bool.bool_dec r false); lia.
    + exists (S n). subst r. split; [simpl; lia|].
      simpl. apply iter_applyRailwayPowerLink_comm.
Qed.

Lemma watcher_only_stops_frame (rs : list bool) (self : Watcher)
    (w : World) :
  (exists n, snd (run_readings rs (self, w))
             = Nat.iter n (_applyRailwayPowerLink false) w)
  /\ _last_powerlink_railway (snd (run_readings rs (self, w)))
     = _last_powerlink_railway w.
Proof.
  assert (H : exists n, snd (run_readings rs (self, w))
                        = Nat.iter n (_applyRailwayPowerLink false) w).
  { revert self w. induction rs as [|r rs IH]; intros self w.
    - exists 0. reflexivity.
    - change (r :: rs) with ([r] ++ rs). rewrite run_readings_app.
      change (run_readings [r] (self, w)) with (on_reading r (self, w)).
      destruct (on_reading r (self, w)) as [self1 w1] eqn:E.
      destruct (IH self1 w1) as (n & Hrun). rewrite Hrun.
      destruct (on_reading_stops_only r self w) as [H | [Hr H]];
        rewrite E in H; simpl in H; subst w1.
      + exists n. reflexivity.
      + exists (S n). simpl. apply iter_applyRailwayPowerLink_comm. }
  split; [exact H|]. destruct H as (n & ->).
  apply iter_applyRailwayPowerLink_last.
Qed.

(** X15. A true reading rearms the debounce: whatever came before, after a
    true reading two more false readings apply nothing. *)
Theorem watcher_true_reading_rearms (rs : list bool) (st : Watcher * World) :
  run_readings (rs ++ [true]) st
  = (mkWatcher true 0, snd (run_readings rs st))
  /\ snd (run_readings (rs ++ [true; false; false]) st)
     = snd (run_readings rs st).
Proof.
  rewrite !run_readings_app.
  destruct (run_readings rs st) as [self w]. split; reflexivity.
Qed.

Section PushPath.

Variable utf8_decode : string -> option string.
Variable json_loads : string -> option pyval.

(** X16. A push that arrives while the engine is unavailable is lost for
    good: nothing is applied, yet the value is recorded as applied, so that
    the same value pushed again once the engine is there is taken for a
    repetition and no train receives a call. *)
Theorem push_without_engine_is_lost (m1 m2 : message) (b : bool)
    (t1 t2 : float) (w : World) (m : MapMgr) :
  iMapMgr w = None ->
  _last_powerlink_railway w = None ->
  carries utf8_decode json_loads m1 b ->
  carries utf8_decode json_loads m2 b ->
  let w1 := fst (msgHandler utf8_decode json_loads m1 t1 w) in
  let w2 := fst (msgHandler utf8_decode json_loads m2 t2
                   (set_iMapMgr (Some m) w1)) in
  msgHandler utf8_decode json_loads m1 t1 w
  = (set_last_powerlink (Some b) w,
     Some (Some (JsonReply "powerLink" success)))
  /\ w2 = set_iMapMgr (Some m) w1
  /\ iMapMgr w2 = Some m.
Proof.
  intros Hm Hlast H1 H2 w1 w2.
  assert (E1 : msgHandler utf8_decode json_loads m1 t1 w
               = (set_last_powerlink (Some b) w,
                  Some (Some (JsonReply "powerLink" success)))).
  { rewrite (msgHandler_powerLink utf8_decode json_loads m1 b t1 w H1), Hlast.
    unfold _applyRailwayPowerLink. now rewrite Hm. }
  assert (E2 : w2 = set_iMapMgr (Some m) w1).
  { unfold w2, w1.
    rewrite (msgHandler_powerLink utf8_decode json_loads m2 b t2 _ H2), E1.
    simpl. now rewrite Bool.eqb_reflx. }
  split; [exact E1|]. split; [exact E2|]. now rewrite E2.
Qed.

(** X17. The default of the push path: a [POST;powerLink] request with an
    empty body, or with a JSON object that has no [railway] key, counts as
    railway on; unless that value was applied last, the emergency stop of
    all trains is released. *)
Theorem push_defaults_to_railway_on (msg : message) (body : string)
    (now : float) (w : World) :
  msg <> Bytes "" ->
  parseIncomeMsg utf8_decode msg = Some ("POST", "powerLink", body) ->
  (body = ""
   \/ exists d, json_loads body = Some (VDict d)
                /\ dict_get "railway" d = None) ->
  _last_powerlink_railway w <> Some true ->
  msgHandler utf8_decode json_loads msg now w
  = (set_last_powerlink (Some true) (_applyRailwayPowerLink true w),
     Some (Some (JsonReply "powerLink" success))).
Proof.
  intros Hne Hp Hbody Hlast.
  assert (Hc : carries utf8_decode json_loads msg true).
  { split; [exact Hne|]. destruct (body =? "") eqn:E.
    - exists body, (VDict []). rewrite E. repeat split; auto.
    - destruct Hbody as [-> | (d & Hl & Hd)]; [discriminate E|].
      exists body, (VDict d). rewrite E.
      split; [exact Hp|]. split; [exact Hl|]. simpl. now rewrite Hd. }
  rewrite (msgHandler_powerLink utf8_decode json_loads msg true now w Hc).
  destruct (_last_powerlink_railway w) as [[|]|]; try reflexivity.
  congruence.
Qed.

(** X18. A [POST;powerLink] request whose body is not empty and is no JSON
    object (it does not parse, or it parses to a list, a number, a string,
    null) is answered with the failure body and changes nothing; the value
    applied last is kept. *)
Theorem push_with_bad_body_fails (msg : message) (body : string)
    (now : float) (w : World) :
  msg <> Bytes "" ->
  parseIncomeMsg utf8_decode msg = Some ("POST", "powerLink", body) ->
  body <> "" ->
  (forall d, json_loads body <> Some (VDict d)) ->
  msgHandler utf8_decode json_loads msg now w
  = (w, Some (Some (JsonReply "powerLink" failed))).
Proof.
  intros Hne Hp Hb Hl. unfold msgHandler. rewrite Hp.
  assert (Hpush : pushPowerLink json_loads body w = (w, failed)).
  { unfold pushPowerLink. apply String.eqb_neq in Hb. rewrite Hb.
    destruct (json_loads body) as [[]|] eqn:E; try reflexivity.
    exfalso. eapply Hl. reflexivity. }
  destruct msg as [[|c b]|s]; [congruence| |]; simpl; now rewrite Hpush.
Qed.

(** X19. The two paths do not know of each other: whatever the watcher
    has done since, also when it has stopped all trains, a push that
    repeats the value applied last by the push path changes nothing; in
    particular a repeated railway on does not release the stop of the poll
    path. *)
Theorem push_repeat_after_poll_changes_nothing (msg : message) (b : bool)
    (now : float) (rs : list bool) (self : Watcher) (w : World) :
  _last_powerlink_railway w = Some b ->
  carries utf8_decode json_loads msg b ->
  msgHandler utf8_decode json_loads msg now (snd (run_readings rs (self, w)))
  = (snd (run_readings rs (self, w)),
     Some (Some (JsonReply "powerLink" success))).
Proof.
  intros Hlast Hc.
  rewrite (msgHandler_powerLink utf8_decode json_loads msg b now _ Hc).
  rewrite (proj2 (watcher_only_stops_frame rs self w)), Hlast.
  now rewrite Bool.eqb_reflx.
Qed.

End PushPath.

(** ** The metro totals, continued *)

Section Totals.

Variable float_of_str : string -> option float.

Lemma lineTotals_fields (ts : Z) (m : MapMgr) (line : string) (p : Payload) :
  lineTotals float_of_str ts m line = Some p ->
  ts_ms p = ts /\ line_id p = line
  /\ exists trs, dict_get line (trains m) = Some trs
                 /\ train_count p = Z.of_nat (length trs).
Proof.
  unfold lineTotals. destruct (dict_get line (trains m)) as [trs|];
    [|discriminate].
  destruct (trainTotals float_of_str trs fzero []) as [[total vs]|];
    [|discriminate].
  intros H. inversion H. simpl. eauto.
Qed.

Lemma collectLines_fields (ts : Z) (m : MapMgr) (lines : list string) :
  forall ps,
    collectLines float_of_str ts m lines = Some ps ->
    map line_id ps = lines
    /\ Forall (fun p => ts_ms p = ts) ps
    /\ Forall (fun p => exists trs,
                   dict_get (line_id p) (trains m) = Some trs
                   /\ train_count p = Z.of_nat (length trs)) ps.
Proof.
  induction lines as [|line lines IH]; intros ps; simpl.
  - intros H. inversion H. repeat split; constructor.
  - destruct (lineTotals float_of_str ts m line) as [p|] eqn:E; [|discriminate].
    destruct (collectLines float_of_str ts m lines) as [ps'|]; [|discriminate].
    intros H. inversion H. subst ps.
    destruct (lineTotals_fields ts m line p E) as (H1 & H2 & trs & H3 & H4).
    destruct (IH ps' eq_refl) as (I1 & I2 & I3).
    simpl. split; [now rewrite H2, I1|]. split; constructor; auto.
    exists trs. now rewrite H2.
Qed.

(** X20. When the aggregate does not raise and the engine is available it
    holds exactly four records, one per line in the order weline, nsline,
    ccline, mtline, all with the same time stamp in milliseconds, each with
    the number of trains of its line. *)
Theorem collect_one_record_per_line (now : float) (w : World) (m : MapMgr)
    (ps : list Payload) :
  iMapMgr w = Some m ->
  _collectMetroTotalsPayloads float_of_str now w = Some ps ->
  map line_id ps = ["weline"; "nsline"; "ccline"; "mtline"]
  /\ (exists ts, int_of_float (fmul now (float_of_Z 1000)) = Some ts
                 /\ Forall (fun p => ts_ms p = ts) ps)
  /\ Forall (fun p => exists trs,
                 dict_get (line_id p) (trains m) = Some trs
                 /\ train_count p = Z.of_nat (length trs)) ps.
Proof.
  intros Hm. unfold _collectMetroTotalsPayloads. rewrite Hm.
  destruct (int_of_float (fmul now (float_of_Z 1000))) as [ts|];
    [|discriminate].
  intros H. destruct (collectLines_fields ts m LINES ps H) as (H1 & H2 & H3).
  split; [exact H1|]. split; [eauto | exact H3].
Qed.

Lemma collectLines_None (ts : Z) (m : MapMgr) (lines : list string)
    (line : string) :
  In line lines ->
  lineTotals float_of_str ts m line = None ->
  collectLines float_of_str ts m lines = None.
Proof.
  induction lines as [|l lines IH]; simpl; [tauto|].
  intros [-> | Hin] Hl.
  - now rewrite Hl.
  - destruct (lineTotals float_of_str ts m l); [|reflexivity].
    now rewrite IH.
Qed.

(** X21. The aggregate is all or nothing: when one of the four lines
    cannot be totalled (the engine knows no trains for it, or a train
    report cannot be read), the call raises and the records of the other
    three lines are lost with it. *)
Theorem collect_all_or_nothing (now : float) (w : World) (m : MapMgr)
    (line : string) :
  iMapMgr w = Some m ->
  In line LINES ->
  (forall ts, lineTotals float_of_str ts m line = None) ->
  _collectMetroTotalsPayloads float_of_str now w = None.
Proof.
  intros Hm Hin Hl. unfold _collectMetroTotalsPayloads. rewrite Hm.
  destruct (int_of_float (fmul now (float_of_Z 1000))) as [ts|];
    [|reflexivity].
  now apply collectLines_None with (line := line).
Qed.

Lemma trainTotals_no_voltage (trs : list Train) :
  Forall (no_voltage float_of_str) trs ->
  forall total vs total' vs',
    trainTotals float_of_str trs total vs = Some (total', vs') ->
    vs' = vs.
Proof.
  induction 1 as [|t trs Ht _ IH]; intros total vs total' vs'; simpl.
  - intros H. now inversion H.
  - unfold no_voltage in Ht.
    destruct (py_or (realInfo t) (VDict [])) as [| | | | | |info];
      try discriminate.
    destruct (py_float float_of_str _) as [c|]; [|discriminate].
    destruct (dict_get "voltage" info) as [v|]; [|apply IH].
    destruct v; try (rewrite Ht; apply IH); apply IH.
Qed.

Lemma trainTotals_without_voltage (trs : list Train) :
  Forall (no_voltage float_of_str) trs ->
  Forall (current_readable float_of_str) trs ->
  forall total vs,
    exists total', trainTotals float_of_str trs total vs = Some (total', vs).
Proof.
  induction 1 as [|t trs Ht _ IH]; intros Hc total vs; simpl.
  - eauto.
  - inversion Hc as [|? ? Hct Hcs]. subst.
    unfold no_voltage in Ht. unfold current_readable in Hct.
    destruct (py_or (realInfo t) (VDict [])) as [| | | | | |info];
      try contradiction.
    destruct Hct as [c Hcur]. rewrite Hcur.
    destruct (dict_get "voltage" info) as [v|]; [|now apply IH].
    destruct v; try (rewrite Ht); now apply IH.
Qed.

(** X22. A line on which no train has a voltage reading (the key is
    missing, the value is None or cannot be converted) is not an error:
    when the current of every train can be read, the record of the line is
    produced, with bus voltage 0.0 and all its trains counted; a voltage
    that cannot be converted is skipped, it does not raise. *)
Theorem lineTotals_without_voltage (ts : Z) (m : MapMgr) (line : string)
    (trs : list Train) :
  dict_get line (trains m) = Some trs ->
  Forall (no_voltage float_of_str) trs ->
  Forall (current_readable float_of_str) trs ->
  exists p,
    lineTotals float_of_str ts m line = Some p
    /\ bus_v p = fzero
    /\ train_count p = Z.of_nat (length trs)
    /\ line_id p = line.
Proof.
  intros Hts Hv Hc. unfold lineTotals. rewrite Hts.
  destruct (trainTotals_without_voltage trs Hv Hc fzero []) as [total Ht].
  rewrite Ht. eexists. split; [reflexivity|]. simpl. auto.
Qed.

(** X23. The log loop warns once per outage: while the engine is
    unavailable every pass sleeps 1.0 and only the first pass that was not
    already warned writes the warning; a pass that finds totals writes one
    line per record, sleeps the interval and rearms the warning. *)
Theorem logLoop_warns_once (interval : float) (passes : list (float * World))
    (warned : bool) :
  (Forall (fun nw => iMapMgr (snd nw) = None) passes ->
   logLoop float_of_str interval passes warned
   = match passes with
     | [] => []
     | _ :: rest =>
         ((if warned then [] else [WarnUnavailable]), float_of_Z 1)
           :: map (fun _ => ([], float_of_Z 1)) rest
     end)
  /\ (forall now w p ps,
         _collectMetroTotalsPayloads float_of_str now w = Some (p :: ps) ->
         logLoop float_of_str interval ((now, w) :: passes) warned
         = (map InfoTotals (p :: ps), interval)
             :: logLoop float_of_str interval passes false).
Proof.
  split.
  - intros Hall. revert warned.
    induction Hall as [|[now w] rest Hw _ IH]; intros warned; [reflexivity|].
    simpl in Hw. simpl logLoop. unfold _collectMetroTotalsPayloads.
    rewrite Hw. simpl. f_equal. rewrite IH. now destruct rest.
  - intros now w p ps Hc. simpl. now rewrite Hc.
Qed.

(** X24. The interval of the log loop is never zero or negative: a missing
    or unconvertible update rate gives 2.0, and so does a rate that is not
    above zero. *)
Theorem logInterval_positive (gUpdateRate : option pyval) :
  SFleb (logInterval float_of_str gUpdateRate) fzero = false
  /\ (gUpdateRate = None -> logInterval float_of_str gUpdateRate = float_of_Z 2)
  /\ (forall v, gUpdateRate = Some v -> py_float float_of_str v = None ->
                logInterval float_of_str gUpdateRate = float_of_Z 2)
  /\ (forall v f, gUpdateRate = Some v -> py_float float_of_str v = Some f ->
                  SFleb f fzero = true ->
                  logInterval float_of_str gUpdateRate = float_of_Z 2).
Proof.
  split; [|split; [|split]].
  - unfold logInterval.
    set (interval := match gUpdateRate with
                     | Some v =>
                         match py_float float_of_str v with
                         | Some f => f
                         | None => float_of_Z 2
                         end
                     | None => float_of_Z 2
                     end).
    destruct (SFleb interval fzero) eqn:E; [reflexivity | exact E].
  - intros ->. reflexivity.
  - intros v -> Hv. unfold logInterval. now rewrite Hv.
  - intros v f -> Hv Hf. unfold logInterval. now rewrite Hv, Hf.
Qed.

End Totals.

(** ** The set functions *)

Lemma forward_setStationSignal (items : dict pyval) (m : MapMgr) :
  forward setStationSignal items m
  = mkMapMgr (sensorStates m) (dockStates m) (trains m) (signalCalls m)
             (stationSignalCalls m ++ items) (trainsPowerCalls m).
Proof.
  unfold forward. revert m.
  induction items as [|[k v] items IH]; intros m; simpl.
  - rewrite app_nil_r. now destruct m.
  - rewrite IH. simpl. now rewrite <- app_assoc.
Qed.

Lemma forward_setTainsPower (items : dict pyval) (m : MapMgr) :
  forward setTainsPower items m
  = mkMapMgr (sensorStates m) (dockStates m) (trains m) (signalCalls m)
             (stationSignalCalls m) (trainsPowerCalls m ++ items).
Proof.
  unfold forward. revert m.
  induction items as [|[k v] items IH]; intros m; simpl.
  - rewrite app_nil_r. now destruct m.
  - rewrite IH. simpl. now rewrite <- app_assoc.
Qed.

Section Setters.

Variable json_loads : string -> option pyval.

(** X25. [setSignals] reports success exactly when the body parses, the
    engine is available and, unless junction avoidance is on, the body is
    a JSON object; in every other case it reports failure and has changed
    nothing. *)
Theorem setSignals_outcome (body : string) (w : World) :
  (snd (setSignals json_loads body w) = success
   <-> exists v m,
       json_loads body = Some v /\ iMapMgr w = Some m
       /\ (gJuncAvoid w = true \/ exists d, v = VDict d))
  /\ (snd (setSignals json_loads body w) <> success ->
      setSignals json_loads body w = (w, failed)).
Proof.
  unfold setSignals.
  destruct (json_loads body) as [v|]; [|split; [split|]; simpl; auto].
  2:{ discriminate. } 2:{ intros (v & m & H & _). discriminate. }
  destruct (iMapMgr w) as [m|]; [|split; [split|]; simpl; auto].
  2:{ discriminate. } 2:{ intros (v' & m & _ & H & _). discriminate. }
  destruct (gJuncAvoid w).
  - split; [split|]; simpl; auto; [|congruence].
    intros _. exists v, m. auto.
  - destruct v; simpl; split; try split; auto; try discriminate;
      try congruence;
      try (intros (v' & m' & Hv & _ & [Hj | (d & Hd)]);
           [discriminate | inversion Hv; subst; discriminate]).
    intros _. exists (VDict d), m. eauto.
Qed.

(** X26. Junction avoidance gates the signals only: with the engine
    available and a JSON object as body, [setStationSignals] and
    [setTrainsPower] call their setter once for every pair of the body, in
    order, and report success, whatever the junction avoidance flag; they
    change nothing else. *)
Theorem station_and_power_setters_not_gated (body : string)
    (reqDict : dict pyval) (w : World) (m : MapMgr) :
  json_loads body = Some (VDict reqDict) ->
  iMapMgr w = Some m ->
  setStationSignals json_loads body w
  = (set_iMapMgr
       (Some (mkMapMgr (sensorStates m) (dockStates m) (trains m)
                       (signalCalls m) (stationSignalCalls m ++ reqDict)
                       (trainsPowerCalls m))) w, success)
  /\ setTrainsPower json_loads body w
     = (set_iMapMgr
          (Some (mkMapMgr (sensorStates m) (dockStates m) (trains m)
                          (signalCalls m) (stationSignalCalls m)
                          (trainsPowerCalls m ++ reqDict))) w, success).
Proof.
  intros Hl Hm. unfold setStationSignals, setTrainsPower.
  rewrite Hl, Hm, forward_setStationSignal, forward_setTainsPower.
  split; reflexivity.
Qed.

End Setters.

(** ** Refreshing the train telemetry *)

Lemma trainRows_ok (ts : list Train) (rows : list pyval) :
  Forall2 (fun t r => trainRow t = Some r) ts rows ->
  trainRows ts = (rows, true).
Proof.
  induction 1 as [|t r ts rows Hr _ IH]; simpl; [reflexivity|].
  now rewrite Hr, IH.
Qed.

Lemma trainRows_fail (tpre tpost : list Train) (t : Train)
    (rows : list pyval) :
  Forall2 (fun t' r => trainRow t' = Some r) tpre rows ->
  trainRow t = None ->
  trainRows (tpre ++ t :: tpost) = (rows, false).
Proof.
  intros Hpre Ht. induction Hpre as [|t' r tpre rows Hr _ IH]; simpl.
  - now rewrite Ht.
  - now rewrite Hr, IH.
Qed.

Lemma updateTrainsSenData_loop (w : World) (m : MapMgr) :
  iMapMgr w = Some m ->
  updateTrainsSenData w
  = for_each (rtuStep m) (dict_keys (trainsRtuDict w)) w.
Proof. intros H. unfold updateTrainsSenData. now rewrite H. Qed.

(** The loop over lines whose trains all report the four fields. *)
Lemma rtuSteps_fresh (m : MapMgr) (ls : list string) :
  (forall k, In k ls ->
             exists ts rows, dict_get k (trains m) = Some ts
                             /\ trainRows ts = (rows, true)) ->
  forall w,
    (forall k, In k ls -> In k (dict_keys (trainsRtuDict w))) ->
    exists w',
      for_each (rtuStep m) ls w = (w', Some tt)
      /\ dict_keys (trainsRtuDict w') = dict_keys (trainsRtuDict w)
      /\ (forall k ts rows,
             In k ls -> dict_get k (trains m) = Some ts ->
             trainRows ts = (rows, true) ->
             dict_get k (trainsRtuDict w') = Some (Some rows))
      /\ (forall k, ~ In k ls ->
                    dict_get k (trainsRtuDict w')
                    = dict_get k (trainsRtuDict w)).
Proof.
  induction ls as [|key ls IH]; intros Hok w Hin.
  - exists w. simpl. repeat split; auto. intros k ts rows [].
  - destruct (Hok key (or_introl eq_refl)) as (ts0 & rows0 & Hk & Hr).
    set (w1 := set_trainsRtuDict
                 (dict_set key (Some rows0)
                    (dict_set key (Some []) (trainsRtuDict w)))
                 (set_trainsRtuDict
                    (dict_set key (Some []) (trainsRtuDict w)) w)).
    assert (Hstep : rtuStep m key w = (w1, Some tt)).
    { unfold rtuStep. now rewrite Hk, Hr. }
    assert (Hkeys1 : dict_keys (trainsRtuDict w1)
                     = dict_keys (trainsRtuDict w)).
    { unfold w1. simpl.
      rewrite !dict_keys_set; auto.
      - apply Hin. now left.
      - rewrite dict_keys_set; apply Hin; now left. }
    destruct (IH (fun k H => Hok k (or_intror H)) w1)
      as (w' & Hrun & Hk' & Hf & Ho).
    { intros k Hkin. rewrite Hkeys1. apply Hin. now right. }
    exists w'. simpl for_each. unfold bind. rewrite Hstep.
    split; [exact Hrun|]. split; [congruence|]. split.
    + intros k ts rows [Heq | Hkin] Hd Hrows.
      * subst k.
        destruct (in_dec string_dec key ls) as [Hi | Hni];
          [now apply Hf with (ts := ts)|].
        rewrite Ho by exact Hni. unfold w1. simpl.
        rewrite dict_get_set_eq. rewrite Hk in Hd. inversion Hd. subst ts0.
        rewrite Hr in Hrows. now inversion Hrows.
      * now apply Hf with (ts := ts).
    + intros k Hnk. rewrite Ho by (intros H; apply Hnk; now right).
      unfold w1. simpl.
      rewrite !dict_get_set_ne; auto; intros ->; apply Hnk; now left.
Qed.

(** X27. When the report of a train lacks one of the fields fsensor,
    speed, voltage, current (or is no dictionary), the telemetry refresh
    raises at that train and leaves a partial snapshot: the line holds the
    rows of the trains before the failing one only, fewer rows than it has
    trains; the lines before it are fresh and the lines after it keep their
    old snapshot. *)
Theorem updateTrainsSenData_failure_truncates_line (w : World) (m : MapMgr)
    (pre post : list string) (line : string) (tpre tpost : list Train)
    (t : Train) (rows : list pyval) :
  iMapMgr w = Some m ->
  dict_keys (trainsRtuDict w) = LINES ->
  LINES = pre ++ line :: post ->
  (forall k, In k pre ->
             exists ts rs, dict_get k (trains m) = Some ts
                           /\ trainRows ts = (rs, true)) ->
  dict_get line (trains m) = Some (tpre ++ t :: tpost) ->
  Forall2 (fun t' r => trainRow t' = Some r) tpre rows ->
  trainRow t = None ->
  exists w',
    updateTrainsSenData w = (w', None)
    /\ dict_get line (trainsRtuDict w') = Some (Some rows)
    /\ length rows < length (tpre ++ t :: tpost)
    /\ (forall k ts rs, In k pre -> dict_get k (trains m) = Some ts ->
                        trainRows ts = (rs, true) ->
                        dict_get k (trainsRtuDict w') = Some (Some rs))
    /\ (forall k, In k post ->
                  dict_get k (trainsRtuDict w')
                  = dict_get k (trainsRtuDict w)).
Proof.
  intros Hm Hk Hsplit Hpre Hline Hrows Ht.
  pose proof LINES_NoDup as Hnd. rewrite Hsplit in Hnd.
  assert (Hdisj : forall k, In k (line :: post) -> ~ In k pre).
  { clear - Hnd. induction pre as [|p pre IH]; intros k Hk; [tauto|].
    simpl in Hnd. inversion Hnd as [|? ? Hnp Hnd']. subst.
    intros [-> | Hkp].
    - apply Hnp. apply in_or_app. now right.
    - now apply (IH Hnd' k). }
  assert (Hnl : ~ In line post).
  { clear - Hnd. induction pre as [|p pre IH]; simpl in Hnd.
    - now inversion Hnd.
    - inversion Hnd. auto. }
  rewrite (updateTrainsSenData_loop w m Hm), Hk, Hsplit, for_each_app.
  destruct (rtuSteps_fresh m pre Hpre w) as (w1 & Hrun & Hk1 & Hf & Ho).
  { intros k Hkin. rewrite Hk, Hsplit. apply in_or_app. now left. }
  rewrite Hrun. simpl for_each. unfold bind, rtuStep.
  rewrite Hline, (trainRows_fail tpre tpost t rows Hrows Ht).
  eexists. split; [reflexivity|]. simpl.
  split; [apply dict_get_set_eq|]. split.
  { rewrite length_app. simpl.
    rewrite <- (Forall2_length Hrows). lia. }
  split.
  - intros k ts rs Hkin Hd Hr.
    rewrite !dict_get_set_ne.
    + now apply Hf with (ts := ts).
    + intros ->. apply (Hdisj k); [now left | exact Hkin].
    + intros ->. apply (Hdisj k); [now left | exact Hkin].
  - intros k Hkin.
    rewrite !dict_get_set_ne.
    + apply Ho. apply Hdisj. now right.
    + intros ->. contradiction.
    + intros ->. contradiction.
Qed.

(** ** Instances of the further properties on the example states *)

Lemma parseIncomeMsg_join3_witness :
  decoded ascii_decode (Bytes "GET;sensors;{;}")
  = Some (join3 "GET" "sensors" "{;}")
  /\ count_char ";" "GET" = 0
  /\ count_char ";" "sensors" = 0
  /\ parseIncomeMsg ascii_decode (Bytes "GET;sensors;{;}")
     = Some (strip "GET", strip "sensors", "{;}")
  /\ (no_space "GET" = true -> no_space "sensors" = true ->
      parseIncomeMsg ascii_decode (Bytes "GET;sensors;{;}")
      = Some ("GET", "sensors", "{;}")).
Proof.
  assert (H1 : decoded ascii_decode (Bytes "GET;sensors;{;}")
               = Some (join3 "GET" "sensors" "{;}")) by reflexivity.
  assert (H2 : count_char ";" "GET" = 0) by reflexivity.
  assert (H3 : count_char ";" "sensors" = 0) by reflexivity.
  split; [exact H1|]. split; [exact H2|]. split; [exact H3|].
  exact (parseIncomeMsg_join3 ascii_decode (Bytes "GET;sensors;{;}")
           "GET" "sensors" "{;}" H1 H2 H3).
Defined.

Lemma msgHandler_raises_only_on_decode_witness :
  let bad := Bytes (String (ascii_of_nat 255) EmptyString) in
  (bad <> Bytes "" /\ decoded ascii_decode bad = None
   /\ msgHandler ascii_decode table_loads bad (float_of_Z 1) (world_of None)
      = (world_of None, None))
  /\ (Bytes "PUT;x;y" <> Bytes ""
      /\ decoded ascii_decode (Bytes "PUT;x;y") = Some "PUT;x;y"
      /\ exists r,
          snd (msgHandler ascii_decode table_loads (Bytes "PUT;x;y")
                 (float_of_Z 1) (world_of None))
          = Some (Some r)).
Proof.
  intros bad.
  assert (H1 : bad <> Bytes "") by discriminate.
  assert (H2 : decoded ascii_decode bad = None) by reflexivity.
  assert (H3 : Bytes "PUT;x;y" <> Bytes "") by discriminate.
  assert (H4 : decoded ascii_decode (Bytes "PUT;x;y") = Some "PUT;x;y")
    by reflexivity.
  split.
  - split; [exact H1|]. split; [exact H2|].
    exact (proj1 (proj2 (msgHandler_raises_only_on_decode ascii_decode
                           table_loads bad (float_of_Z 1) (world_of None)))
                 H1 H2).
  - split; [exact H3|]. split; [exact H4|].
    exact (proj2 (proj2 (msgHandler_raises_only_on_decode ascii_decode
                           table_loads (Bytes "PUT;x;y") (float_of_Z 1)
                           (world_of None)))
                 H3 "PUT;x;y" H4).
Defined.

Lemma msgHandler_dispatch_witness :
  Bytes "get;sensors;{}" <> Bytes ""
  /\ parseIncomeMsg ascii_decode (Bytes "get;sensors;{}")
     = Some ("get", "sensors", "{}")
  /\ routed "get" "sensors" = false
  /\ msgHandler ascii_decode table_loads (Bytes "get;sensors;{}")
       (float_of_Z 1) (world_of (Some engine_ok))
     = (world_of (Some engine_ok), Some (Some deny)).
Proof.
  assert (H1 : Bytes "get;sensors;{}" <> Bytes "") by discriminate.
  assert (H2 : parseIncomeMsg ascii_decode (Bytes "get;sensors;{}")
               = Some ("get", "sensors", "{}")) by reflexivity.
  assert (H3 : routed "get" "sensors" = false) by reflexivity.
  split; [exact H1|]. split; [exact H2|]. split; [exact H3|].
  exact (proj1 (msgHandler_dispatch ascii_decode table_loads
                  (Bytes "get;sensors;{}") "get" "sensors" "{}"
                  (float_of_Z 1) (world_of (Some engine_ok)) H1 H2) H3).
Defined.

Lemma tables_ok_example (m : option MapMgr) : tables_ok (world_of m).
Proof. repeat split. Qed.

Lemma fetch_returns_refreshed_values_witness :
  tables_ok (world_of (Some engine_ok))
  /\ table_loads body_lines
     = Some (VDict [("weline", VNone); ("other", VInt 7)])
  /\ fetch_outcome stationsDict
       (updateStationsData
          (set_stationPlcUpdateT (float_of_Z 5) (world_of (Some engine_ok))))
       [("weline", VNone); ("other", VInt 7)]
       (fetchStationInfo table_loads body_lines (float_of_Z 5)
          (world_of (Some engine_ok))).
Proof.
  assert (H1 : tables_ok (world_of (Some engine_ok))) by (repeat split).
  assert (H2 : table_loads body_lines
               = Some (VDict [("weline", VNone); ("other", VInt 7)]))
    by (vm_compute; reflexivity).
  split; [exact H1|]. split; [exact H2|].
  exact (proj1 (proj2 (fetch_returns_refreshed_values table_loads body_lines
                         [("weline", VNone); ("other", VInt 7)] (float_of_Z 5)
                         (world_of (Some engine_ok)) H1 H2))).
Defined.

Lemma engine_ok_stations (k : string) :
  In k LINES -> exists ds, dict_get k (dockStates engine_ok) = Some ds.
Proof.
  intros [<-|[<-|[<-|[<-|[]]]]]; eexists; reflexivity.
Defined.

Lemma updateStationsData_overwrites_all_witness :
  iMapMgr (world_old (Some engine_ok)) = Some engine_ok
  /\ dict_keys (stationsDict (world_old (Some engine_ok))) = LINES
  /\ exists w',
      updateStationsData (world_old (Some engine_ok)) = (w', Some tt)
      /\ dict_get "weline" (stationsDict w') = Some (Some [VInt 1; VInt 0]).
Proof.
  split; [reflexivity|]. split; [reflexivity|].
  destruct (updateStationsData_overwrites_all (world_old (Some engine_ok))
              engine_ok eq_refl eq_refl engine_ok_stations)
    as (w' & Hu & _ & Hf).
  exists w'. split; [exact Hu|].
  exact (Hf "weline" [true; false] (or_introl eq_refl) eq_refl).
Defined.

Lemma engine_without_cc_pre (k : string) :
  In k ["weline"; "nsline"] ->
  exists ds, dict_get k (dockStates engine_without_cc) = Some ds.
Proof.
  intros [<-|[<-|[]]]; eexists; reflexivity.
Defined.

Lemma updateStationsData_failure_resets_line_witness :
  dict_get "ccline" (dockStates engine_without_cc) = None
  /\ dict_get "ccline" (stationsDict (world_old (Some engine_without_cc)))
     = Some (Some [VInt 7])
  /\ exists w',
      updateStationsData (world_old (Some engine_without_cc)) = (w', None)
      /\ dict_get "ccline" (stationsDict w') = Some (Some [])
      /\ dict_get "mtline" (stationsDict w') = Some (Some [VInt 7]).
Proof.
  split; [reflexivity|]. split; [reflexivity|].
  destruct (updateStationsData_failure_resets_line
              (world_old (Some engine_without_cc)) engine_without_cc
              ["weline"; "nsline"] ["mtline"] "ccline"
              eq_refl eq_refl eq_refl engine_without_cc_pre eq_refl)
    as (w' & Hu & Hl & _ & Hpost).
  exists w'. split; [exact Hu|]. split; [exact Hl|].
  exact (Hpost "mtline" (or_introl eq_refl)).
Defined.

Lemma updateSensorsData_test_mode_witness :
  gTestMD (init (Some engine_ok) false true (float_of_Z 3)) = true
  /\ updateSensorsData (init (Some engine_ok) false true (float_of_Z 3))
     = (set_sensorsDict
          (table4 [VInt 0; VInt 0; VInt 0]
                  [VInt 0; VInt 0; VInt 1; VInt 0; VInt 0]
                  [VInt 1; VInt 1; VInt 1; VInt 0; VInt 1; VInt 1; VInt 1] [])
          (init (Some engine_ok) false true (float_of_Z 3)), Some tt).
Proof.
  split; [reflexivity|].
  exact (updateSensorsData_test_mode
           (init (Some engine_ok) false true (float_of_Z 3)) engine_ok
           [VInt 0; VInt 0; VInt 0]
           [VInt 0; VInt 0; VInt 1; VInt 0; VInt 0]
           [VInt 1; VInt 1; VInt 1; VInt 0; VInt 1; VInt 1; VInt 1] []
           eq_refl eq_refl eq_refl eq_refl eq_refl eq_refl eq_refl).
Defined.

Lemma engine_without_cc_agents (k : string) :
  In k ["weline"; "nsline"] ->
  exists st, dict_get k (sensorStates engine_without_cc) = Some st.
Proof.
  intros [<-|[<-|[]]]; eexists; reflexivity.
Defined.

Lemma updateSensorsData_failure_skips_resolver_witness :
  dict_get "ccline" (sensorStates engine_without_cc) = None
  /\ exists w',
      updateSensorsData (world_old (Some engine_without_cc)) = (w', None)
      /\ dict_get "weline" (sensorsDict w') = Some (Some [VInt 1; VInt 0])
      /\ dict_get "ccline" (sensorsDict w') = Some (Some [VInt 7])
      /\ dict_get "mtline" (sensorsDict w') = Some (Some [VInt 7]).
Proof.
  split; [reflexivity|].
  destruct (updateSensorsData_failure_skips_resolver
              (world_old (Some engine_without_cc)) engine_without_cc
              ["weline"; "nsline"] ["mtline"] "ccline"
              eq_refl eq_refl eq_refl engine_without_cc_agents eq_refl)
    as (w' & Hu & _ & Hpre & Hpost).
  exists w'. split; [exact Hu|]. split; [|split].
  - exact (Hpre "weline" [VInt 1; VInt 0] (or_introl eq_refl) eq_refl).
  - exact (Hpost "ccline" (or_introl eq_refl)).
  - exact (Hpost "mtline" (or_intror (or_introl eq_refl))).
Defined.

Lemma updateSensorPriority_idempotent_witness :
  iMapMgr (world_of (Some engine_ok)) = Some engine_ok
  /\ gTestMD (world_of (Some engine_ok)) = false
  /\ _updateSensorPriority (fst (updateSensorsData (world_of (Some engine_ok))))
     = (fst (updateSensorsData (world_of (Some engine_ok))), Some tt).
Proof.
  split; [reflexivity|]. split; [reflexivity|].
  exact (updateSensorPriority_idempotent (world_of (Some engine_ok)) engine_ok
           [VInt 0; VInt 0; VInt 0]
           [VInt 0; VInt 0; VInt 1; VInt 0; VInt 0]
           [VInt 1; VInt 1; VInt 1; VInt 0; VInt 1; VInt 1; VInt 1] []
           eq_refl eq_refl eq_refl eq_refl eq_refl eq_refl eq_refl).
Defined.

Lemma applyRailwayPowerLink_only_logs_calls_witness :
  iMapMgr (world_of (Some engine_unreachable)) = Some engine_unreachable
  /\ exists m',
      _applyRailwayPowerLink true (world_of (Some engine_unreachable))
      = set_iMapMgr (Some m') (world_of (Some engine_unreachable))
      /\ dict_keys (trains m') = dict_keys (trains engine_unreachable).
Proof.
  split; [reflexivity|].
  destruct (applyRailwayPowerLink_only_logs_calls true
              (world_of (Some engine_unreachable)) engine_unreachable eq_refl)
    as (m' & H1 & _ & H2 & _).
  exists m'. split; assumption.
Defined.

Lemma push_without_engine_is_lost_witness :
  let stop := Bytes ("POST;powerLink;" ++ body_railway0)%string in
  let w1 := fst (msgHandler ascii_decode table_loads stop (float_of_Z 1)
                   (world_of None)) in
  let w2 := fst (msgHandler ascii_decode table_loads stop (float_of_Z 2)
                   (set_iMapMgr (Some engine_ok) w1)) in
  iMapMgr (world_of None) = None
  /\ _last_powerlink_railway (world_of None) = None
  /\ w2 = set_iMapMgr (Some engine_ok) w1
  /\ iMapMgr w2 = Some engine_ok.
Proof.
  intros stop w1 w2.
  destruct (push_without_engine_is_lost ascii_decode table_loads stop stop
              false (float_of_Z 1) (float_of_Z 2) (world_of None) engine_ok
              eq_refl eq_refl carries_railway0 carries_railway0)
    as (_ & H2 & H3).
  repeat split; assumption.
Defined.

Lemma push_defaults_to_railway_on_witness :
  let msg := Bytes "POST;powerLink;{}" in
  let w := set_last_powerlink (Some false) (world_of (Some engine_ok)) in
  msg <> Bytes ""
  /\ parseIncomeMsg ascii_decode msg = Some ("POST", "powerLink", "{}")
  /\ (exists d, table_loads "{}" = Some (VDict d)
                /\ dict_get "railway" d = None)
  /\ _last_powerlink_railway w <> Some true
  /\ msgHandler ascii_decode table_loads msg (float_of_Z 1) w
     = (set_last_powerlink (Some true) (_applyRailwayPowerLink true w),
        Some (Some (JsonReply "powerLink" success))).
Proof.
  intros msg w.
  assert (H1 : msg <> Bytes "") by discriminate.
  assert (H2 : parseIncomeMsg ascii_decode msg
               = Some ("POST", "powerLink", "{}")) by reflexivity.
  assert (H3 : exists d, table_loads "{}" = Some (VDict d)
                         /\ dict_get "railway" d = None).
  { exists []. split; reflexivity. }
  assert (H4 : _last_powerlink_railway w <> Some true) by discriminate.
  split; [exact H1|]. split; [exact H2|]. split; [exact H3|].
  split; [exact H4|].
  exact (push_defaults_to_railway_on ascii_decode table_loads msg "{}"
           (float_of_Z 1) w H1 H2 (or_intror H3) H4).
Defined.

Lemma table_loads_oops (d : dict pyval) : table_loads "oops" <> Some (VDict d).
Proof. vm_compute. discriminate. Defined.

Lemma push_with_bad_body_fails_witness :
  let msg := Bytes "POST;powerLink;oops" in
  msg <> Bytes ""
  /\ parseIncomeMsg ascii_decode msg = Some ("POST", "powerLink", "oops")
  /\ "oops" <> ""
  /\ msgHandler ascii_decode table_loads msg (float_of_Z 1)
       (world_of (Some engine_ok))
     = (world_of (Some engine_ok),
        Some (Some (JsonReply "powerLink" failed))).
Proof.
  intros msg.
  assert (H1 : msg <> Bytes "") by discriminate.
  assert (H2 : parseIncomeMsg ascii_decode msg
               = Some ("POST", "powerLink", "oops")) by reflexivity.
  assert (H3 : "oops" <> "") by discriminate.
  split; [exact H1|]. split; [exact H2|]. split; [exact H3|].
  exact (push_with_bad_body_fails ascii_decode table_loads msg "oops"
           (float_of_Z 1) (world_of (Some engine_ok)) H1 H2 H3
           table_loads_oops).
Defined.

Lemma push_repeat_after_poll_changes_nothing_witness :
  let w := set_last_powerlink (Some true) (world_of (Some engine_ok)) in
  let rs := [true; false; false; false] in
  let release := Bytes ("POST;powerLink;" ++ body_railway1)%string in
  _last_powerlink_railway w = Some true
  /\ emgStopLog "nsline" (snd (run_readings rs (newWatcher, w))) = [[true]]
  /\ msgHandler ascii_decode table_loads release (float_of_Z 9)
       (snd (run_readings rs (newWatcher, w)))
     = (snd (run_readings rs (newWatcher, w)),
        Some (Some (JsonReply "powerLink" success))).
Proof.
  intros w rs release.
  split; [reflexivity|]. split; [reflexivity|].
  exact (push_repeat_after_poll_changes_nothing ascii_decode table_loads
           release true (float_of_Z 9) rs newWatcher w eq_refl
           carries_railway1).
Defined.

Lemma collect_one_record_per_line_witness :
  iMapMgr (world_of (Some engine_ok)) = Some engine_ok
  /\ exists ps,
      _collectMetroTotalsPayloads digits_float (float_of_Z 7)
        (world_of (Some engine_ok)) = Some ps
      /\ map line_id ps = ["weline"; "nsline"; "ccline"; "mtline"].
Proof.
  split; [reflexivity|].
  destruct (_collectMetroTotalsPayloads digits_float (float_of_Z 7)
              (world_of (Some engine_ok))) as [ps|] eqn:E.
  - exists ps. split; [reflexivity|].
    exact (proj1 (collect_one_record_per_line digits_float (float_of_Z 7)
                    (world_of (Some engine_ok)) engine_ok ps eq_refl E)).
  - vm_compute in E. discriminate E.
Defined.

Lemma bad_current_line (ts : Z) :
  lineTotals digits_float ts engine_bad_current "weline" = None.
Proof. reflexivity. Defined.

Lemma collect_all_or_nothing_witness :
  iMapMgr (world_of (Some engine_bad_current)) = Some engine_bad_current
  /\ In "weline" LINES
  /\ _collectMetroTotalsPayloads digits_float (float_of_Z 7)
       (world_of (Some engine_bad_current)) = None.
Proof.
  assert (H : In "weline" LINES) by (left; reflexivity).
  split; [reflexivity|]. split; [exact H|].
  exact (collect_all_or_nothing digits_float (float_of_Z 7)
           (world_of (Some engine_bad_current)) engine_bad_current "weline"
           eq_refl H bad_current_line).
Defined.

Lemma engine_no_voltage_trains :
  Forall (no_voltage digits_float)
         [train true VNone (fl 2);
          mkTrain true [] 1 (VDict [("current", fl 3)]);
          train true (VStr "n/a") (fl 1)].
Proof. repeat constructor. Defined.

Lemma engine_no_voltage_currents :
  Forall (current_readable digits_float)
         [train true VNone (fl 2);
          mkTrain true [] 1 (VDict [("current", fl 3)]);
          train true (VStr "n/a") (fl 1)].
Proof. repeat constructor; eexists; reflexivity. Defined.

Lemma lineTotals_without_voltage_witness :
  dict_get "weline" (trains engine_no_voltage)
  = Some [train true VNone (fl 2);
          mkTrain true [] 1 (VDict [("current", fl 3)]);
          train true (VStr "n/a") (fl 1)]
  /\ exists p,
      lineTotals digits_float 7000 engine_no_voltage "weline" = Some p
      /\ bus_v p = fzero
      /\ train_count p = 3%Z
      /\ line_id p = "weline".
Proof.
  split; [reflexivity|].
  exact (lineTotals_without_voltage digits_float 7000 engine_no_voltage
           "weline" _ eq_refl engine_no_voltage_trains
           engine_no_voltage_currents).
Defined.

Lemma logLoop_warns_once_witness :
  Forall (fun nw : float * World => iMapMgr (snd nw) = None)
         [(float_of_Z 1, world_of None); (float_of_Z 2, world_of None);
          (float_of_Z 3, world_of None)]
  /\ logLoop digits_float (float_of_Z 2)
       [(float_of_Z 1, world_of None); (float_of_Z 2, world_of None);
        (float_of_Z 3, world_of None)] false
     = [([WarnUnavailable], float_of_Z 1); ([], float_of_Z 1);
        ([], float_of_Z 1)].
Proof.
  assert (H : Forall (fun nw : float * World => iMapMgr (snd nw) = None)
                [(float_of_Z 1, world_of None); (float_of_Z 2, world_of None);
                 (float_of_Z 3, world_of None)])
    by (repeat constructor).
  split; [exact H|].
  exact (proj1 (logLoop_warns_once digits_float (float_of_Z 2) _ false) H).
Defined.

Lemma logInterval_positive_witness :
  py_float digits_float (VInt 0) = Some fzero
  /\ SFleb fzero fzero = true
  /\ logInterval digits_float (Some (VInt 0)) = float_of_Z 2
  /\ py_float digits_float (VStr "fast") = None
  /\ logInterval digits_float (Some (VStr "fast")) = float_of_Z 2.
Proof.
  assert (H1 : py_float digits_float (VInt 0) = Some fzero) by reflexivity.
  assert (H2 : SFleb fzero fzero = true) by reflexivity.
  assert (H3 : py_float digits_float (VStr "fast") = None) by reflexivity.
  split; [exact H1|]. split; [exact H2|]. split; [|split; [exact H3|]].
  - exact (proj2 (proj2 (proj2 (logInterval_positive digits_float
                                  (Some (VInt 0)))))
                 (VInt 0) fzero eq_refl H1 H2).
  - exact (proj1 (proj2 (proj2 (logInterval_positive digits_float
                                  (Some (VStr "fast")))))
                 (VStr "fast") eq_refl H3).
Defined.

Lemma setSignals_outcome_witness :
  snd (setSignals table_loads "oops" (world_of (Some engine_ok))) <> success
  /\ setSignals table_loads "oops" (world_of (Some engine_ok))
     = (world_of (Some engine_ok), failed).
Proof.
  assert (H : snd (setSignals table_loads "oops" (world_of (Some engine_ok)))
              <> success) by (vm_compute; discriminate).
  split; [exact H|].
  exact (proj2 (setSignals_outcome table_loads "oops"
                  (world_of (Some engine_ok))) H).
Defined.

Lemma station_and_power_setters_not_gated_witness :
  let w := init (Some engine_ok) true false (float_of_Z 3) in
  gJuncAvoid w = true
  /\ table_loads body_signals = Some (VDict [("S1", VInt 1); ("S2", VInt 0)])
  /\ option_map stationSignalCalls
       (iMapMgr (fst (setStationSignals table_loads body_signals w)))
     = Some [("S1", VInt 1); ("S2", VInt 0)].
Proof.
  intros w.
  assert (H : table_loads body_signals
              = Some (VDict [("S1", VInt 1); ("S2", VInt 0)]))
    by (vm_compute; reflexivity).
  split; [reflexivity|]. split; [exact H|].
  rewrite (proj1 (station_and_power_setters_not_gated table_loads body_signals
                    [("S1", VInt 1); ("S2", VInt 0)] w engine_ok H eq_refl)).
  reflexivity.
Defined.

Lemma engine_ok_no_pre (k : string) :
  In k [] ->
  exists ts rs, dict_get k (trains engine_partial_report) = Some ts
                /\ trainRows ts = (rs, true).
Proof. intros []. Defined.

Lemma engine_partial_first_row :
  Forall2 (fun t' r => trainRow t' = Some r)
          [train true (fl 10) (fl 2)] [VList [VInt 0; VInt 0; fl 10; fl 2]].
Proof. repeat constructor. Defined.

Lemma updateTrainsSenData_failure_truncates_line_witness :
  trainRow (mkTrain true [] 1 (VDict [("speed", VInt 3)])) = None
  /\ exists w',
      updateTrainsSenData (world_of (Some engine_partial_report)) = (w', None)
      /\ dict_get "weline" (trainsRtuDict w')
         = Some (Some [VList [VInt 0; VInt 0; fl 10; fl 2]])
      /\ dict_get "nsline" (trainsRtuDict w') = Some None.
Proof.
  split; [reflexivity|].
  destruct (updateTrainsSenData_failure_truncates_line
              (world_of (Some engine_partial_report)) engine_partial_report
              [] ["nsline"; "ccline"; "mtline"] "weline"
              [train true (fl 10) (fl 2)] [train true VNone (fl 3)]
              (mkTrain true [] 1 (VDict [("speed", VInt 3)]))
              [VList [VInt 0; VInt 0; fl 10; fl 2]]
              eq_refl eq_refl eq_refl engine_ok_no_pre eq_refl
              engine_partial_first_row eq_refl)
    as (w' & Hu & Hl & _ & _ & Hpost).
  exists w'. split; [exact Hu|]. split; [exact Hl|].
  exact (Hpost "nsline" (or_introl eq_refl)).
Defined.
